(** * Session and activity analytics of the wellness front end

    A shallow embedding of the [AppProvider] context of
    [frontend/src/components/Layout.tsx]: the five analytics callbacks
    ([getStreakInfo], [getActivityStats], [getCategoryStats],
    [getTimeBasedStats], [getRecommendationStats]) and the operations on
    the session and on the activity under way ([initializeSession],
    [startActivity], [completeActivity] and the others), followed by the
    properties of the specification that were settled against them. *)

From Stdlib Require Import ZArith QArith Qround Qabs Qpower Qreduction.
From Stdlib Require Import String Ascii List Lia Lqa Bool.
From Stdlib Require Import DecimalString.
From stdpp Require Import base option list gmap sorting.

Local Open Scope string_scope.
Local Open Scope list_scope.
Local Open Scope Z_scope.

(** ** The fragment of JavaScript the context relies on *)

Module JS.

(** [number]: an IEEE double, given by its value: a rational, one of the
    two infinities, or NaN.  The two zeros are one value: no divisor of the
    code can be a negative zero, and no zero is printed. *)
Inductive number : Type :=
| Finite (q : Q)
| Infinity (negative : bool)
| NaN.

(** An integer counter; integers are doubles up to [2^53]. *)
Definition of_Z (z : Z) : number := Finite (inject_Z z).

Definition Qneg (q : Q) : bool := (Qnum q <? 0)%Z.
Definition Qzero (q : Q) : bool := (Qnum q =? 0)%Z.

(** *** Rounding to a double

    A double has a significand of 53 bits and an exponent of its last bit
    that is at least -1074; an arithmetic operation returns the double
    nearest to the exact result, the one with an even significand when two
    are equally near, and an infinity when that double would be [2^1024]
    or more. *)

Definition pow2 (e : Z) : Q := (2 ^ e)%Q.

(** The exponent [b] with [2^b <= a < 2^(b+1)], for a positive [a]. *)
Definition binade (a : Q) : Z :=
  let e0 := Z.log2 (Qnum a) - Z.log2 (Z.pos (Qden a)) in
  if Qle_bool (pow2 e0) a then e0 else e0 - 1.

(** The nearest integer, the even one of two that are equally near. *)
Definition round_half_even (x : Q) : Z :=
  let f := Qfloor x in
  match (x - inject_Z f ?= 1 # 2)%Q with
  | Lt => f
  | Gt => f + 1
  | Eq => if Z.even f then f else f + 1
  end.

(** The exponent of the last bit of the doubles around [a]. *)
Definition ulp_exponent (a : Q) : Z := Z.max (binade a - 52) (-1074).

Definition nearest_pos (a : Q) : Q :=
  let e := ulp_exponent a in
  (inject_Z (round_half_even (a * pow2 (- e))) * pow2 e)%Q.

(** The value of the double nearest to [q], while that is finite. *)
Definition nearest (q : Q) : Q :=
  let q := Qred q in
  match Qnum q with
  | Z0 => 0%Q
  | Zpos _ => Qred (nearest_pos q)
  | Zneg _ => Qred (- nearest_pos (- q))
  end.

Definition double (q : Q) : number :=
  let r := nearest q in
  if Qle_bool (pow2 1024) (Qabs r) then Infinity (Qneg q) else Finite r.

(** [a / b] *)
Definition div (a b : number) : number :=
  match a, b with
  | NaN, _ | _, NaN => NaN
  | Infinity _, Infinity _ => NaN
  | Infinity s, Finite q => Infinity (xorb s (Qneg q))
  | Finite _, Infinity _ => Finite 0
  | Finite p, Finite q =>
      if Qzero q then (if Qzero p then NaN else Infinity (Qneg p))
      else double (p / q)
  end.

(** [a * b] *)
Definition mul (a b : number) : number :=
  match a, b with
  | NaN, _ | _, NaN => NaN
  | Infinity s, Infinity s' => Infinity (xorb s s')
  | Infinity s, Finite q | Finite q, Infinity s =>
      if Qzero q then NaN else Infinity (xorb s (Qneg q))
  | Finite p, Finite q => double (p * q)
  end.

Definition isNaN (a : number) : bool :=
  match a with NaN => true | _ => false end.

(** [Math.floor] and [Math.round] of a finite double, both exact
    ([Math.round] rounds halves upwards). *)
Definition Math_floor (q : Q) : Z := Qfloor q.
Definition Math_round (q : Q) : Z := Qfloor (q + (1 # 2)).

(** [n.toString()] for an integral number. *)
Definition toString (z : Z) : string := NilZero.string_of_int (Z.to_int z).

(** [s.split(' ')[0]]: the characters in front of the first blank. *)
Fixpoint first_word (s : string) : string :=
  match s with
  | EmptyString => EmptyString
  | String c rest =>
      if Ascii.eqb c " "%char then EmptyString else String c (first_word rest)
  end.

(** Truthiness of a string: only the empty string is falsy. *)
Definition truthy (s : string) : bool :=
  match s with EmptyString => false | _ => true end.

(** [s || d] *)
Definition or_else (s d : string) : string := if truthy s then s else d.

(** [Array.prototype.sort(cmp)] for a consistent comparator: the sort is
    stable, so its result is the one stable arrangement, computed here by
    insertion from the right.  [cmp a b <= 0] keeps [a] in front; the
    comparator is given by the sign of its result, a NaN counting as
    zero. *)
Section Sort.
Context {A : Type} (cmp : A -> A -> Z).

Fixpoint insert (x : A) (l : list A) : list A :=
  match l with
  | [] => [x]
  | y :: l' => if (cmp x y <=? 0)%Z then x :: l else y :: insert x l'
  end.

Definition sort (l : list A) : list A := fold_right insert [] l.
End Sort.

(** When the comparator is not consistent (a NaN between elements that it
    otherwise tells apart), the language leaves the arrangement to the
    engine: [arrange] is what the engine at hand returns then. *)
Class Engine := {
  arrange : forall A : Type, (A -> A -> Z) -> list A -> list A
}.

(** How a synchronous call ends: with a value, or with a [TypeError]
    thrown. *)
Inductive completion (A : Type) : Type :=
| Normal (a : A)
| TypeError.
Arguments Normal {A} a.
Arguments TypeError {A}.

(** The own properties of an object created by [{}] and used as a
    dictionary: string keys in creation order.  What a lookup finds when
    the key is not an own property is the matter of [Realm] below. *)
Module Obj.
Definition t (V : Type) : Type := list (string * V).

(** The own property [k], if there is one. *)
Fixpoint get {V} (o : t V) (k : string) : option V :=
  match o with
  | [] => None
  | (k', v) :: o' => if String.eqb k' k then Some v else get o' k
  end.

(** [o[k] = v] *)
Fixpoint set {V} (o : t V) (k : string) (v : V) : t V :=
  match o with
  | [] => [(k, v)]
  | (k', v') :: o' =>
      if String.eqb k' k then (k, v) :: o' else (k', v') :: set o' k v
  end.

Definition is_digit (c : ascii) : bool :=
  let n := nat_of_ascii c in (48 <=? n)%nat && (n <=? 57)%nat.

Fixpoint all_digits (s : string) : bool :=
  match s with
  | EmptyString => true
  | String c rest => is_digit c && all_digits rest
  end.

Fixpoint digits_value (acc : Z) (s : string) : Z :=
  match s with
  | EmptyString => acc
  | String c rest => digits_value (10 * acc + (Z.of_nat (nat_of_ascii c) - 48)) rest
  end.

(** A canonical array index: the decimal numeral of an integer below
    [2^32 - 1], written without a leading zero. *)
Definition array_index (k : string) : option Z :=
  match k with
  | EmptyString => None
  | String c rest =>
      if all_digits k
           && (negb (Ascii.eqb c "0"%char) || String.eqb rest EmptyString)
           && (digits_value 0 k <? 4294967295)%Z
      then Some (digits_value 0 k) else None
  end.

Definition index_of {V} (e : string * V) : Z :=
  match array_index (fst e) with Some i => i | None => 0 end.

Definition is_index {V} (e : string * V) : bool :=
  match array_index (fst e) with Some _ => true | None => false end.

(** [Object.entries(o)]: array-index keys in ascending numeric order,
    then the other keys in creation order. *)
Definition entries {V} (o : t V) : list (string * V) :=
  sort (fun a b => index_of a - index_of b) (List.filter is_index o)
    ++ List.filter (fun e => negb (is_index e)) o.
End Obj.

End JS.

(** ** Data model ([frontend/src/types]) *)

(** Timestamps: the source keeps ISO-8601 strings and turns them back into
    [Date]s wherever it computes; a valid date and its ISO string determine
    each other, so a timestamp is the number of milliseconds since the epoch,
    the value of [getTime()]. *)
Definition timestamp := Z.

Module Activity.
Record t := {
  id : string;
  title : string;
  description : string;
  duration : Z;
  difficulty : string;
  categories : list string;
  steps : list string;
  benefits : list string;
  category : option string
}.
End Activity.

Module ActivityHistoryItem.
Record t := {
  id : string;
  activity_id : string;
  activity_title : string;
  start_time : timestamp;
  completed_at : option timestamp;
  completed : bool;
  progress : Q;
  category : string;
  points : Z;
  completed_steps : list Z;
  mood_level : option Q;
  duration : Z
}.
End ActivityHistoryItem.

Module UserPreferences.
Record t := {
  difficulty_level : string;
  preferred_duration : string;
  favorite_activities : list string;
  categories : list string;
  notifications : bool
}.
End UserPreferences.

Module SessionResponse.
Record t := {
  session_id : string;
  user_id : string;
  preferences : UserPreferences.t;
  activity_history : list ActivityHistoryItem.t
}.
End SessionResponse.

Module StreakInfo.
Record t := {
  currentStreak : Z;
  longestStreak : Z;
  lastActivityDate : option timestamp;
  streakStartDate : option timestamp;
  streakHistory : list (string * Z)
}.
End StreakInfo.

Module ActivityStats.
Record t := {
  totalActivities : Z;
  completedActivities : Z;
  totalDuration : Z;
  averageDuration : JS.number;
  mostFrequentCategory : string;
  completionRate : JS.number;
  longestStreak : Z;
  currentStreak : Z;
  totalPoints : Z;
  averagePointsPerActivity : JS.number
}.
End ActivityStats.

Module CategoryStats.
Record entry := {
  count : Z;
  totalDuration : Z;
  averageDuration : JS.number;
  completionRate : JS.number;
  lastActivity : option timestamp
}.
Record t := {
  categories : JS.Obj.t entry;
  mostFrequentCategory : string;
  leastFrequentCategory : string;
  categoryDistribution : list (string * JS.number)
}.
End CategoryStats.

Module TimeBasedStats.
Record daily := { d_count : Z; d_duration : Z; d_categories : list string }.
Record weekly := { w_count : Z; w_duration : Z; w_averageDuration : JS.number }.
Record monthly := { m_count : Z; m_duration : Z; m_mostActiveDay : string }.
Record t := {
  dailyStats : JS.Obj.t daily;
  weeklyStats : JS.Obj.t weekly;
  monthlyStats : JS.Obj.t monthly;
  bestTimeOfDay : string;
  mostActiveDay : string
}.
End TimeBasedStats.

Module RecommendationStats.
Record pref := { recommended : Z; accepted : Z; accuracy : JS.number }.
Record t := {
  totalRecommendations : Z;
  acceptedRecommendations : Z;
  recommendationAccuracy : JS.number;
  categoryPreferences : JS.Obj.t pref;
  timeBasedPreferences : JS.Obj.t pref
}.
End RecommendationStats.

(** The methods of [Date] the analytics code calls, each as a function of
    the timestamp.  All but [toISODate] depend on the time zone of the
    browser. *)
Class DateAPI := {
  toISODate : timestamp -> string;   (* [toISOString().split('T')[0]] *)
  getFullYear : timestamp -> Z;
  getMonth : timestamp -> Z;
  getDate : timestamp -> Z;
  getDay : timestamp -> Z;
  getHours : timestamp -> Z;
  weekdayLong : timestamp -> string  (* [toLocaleDateString('en-US', {weekday: 'long'})] *)
}.

Definition MS_PER_DAY : Z := 1000 * 60 * 60 * 24.

(** The calendar day a timestamp falls on, counted from the epoch. *)
Definition calendar_day (t : timestamp) : Z := t / MS_PER_DAY.

(** A browser whose time zone is UTC. *)
Module UTC.
Definition days (t : timestamp) : Z := t / MS_PER_DAY.

(** Year, month (1..12) and day of the month of a day number, in the
    proleptic Gregorian calendar. *)
Definition civil (d : Z) : Z * Z * Z :=
  let z := d + 719468 in
  let era := z / 146097 in
  let doe := z - era * 146097 in
  let yoe := (doe - doe / 1460 + doe / 36524 - doe / 146096) / 365 in
  let doy := doe - (365 * yoe + yoe / 4 - yoe / 100) in
  let mp := (5 * doy + 2) / 153 in
  let dd := doy - (153 * mp + 2) / 5 + 1 in
  let m := if mp <? 10 then mp + 3 else mp - 9 in
  let y := yoe + era * 400 + (if m <=? 2 then 1 else 0) in
  (y, m, dd).

Definition year t := fst (fst (civil (days t))).
Definition month t := snd (fst (civil (days t))).
Definition mday t := snd (civil (days t)).
Definition wday t := (days t + 4) mod 7.
Definition hours t := (t mod MS_PER_DAY) / 3600000.

Definition pad (width : nat) (z : Z) : string :=
  let s := JS.toString z in
  Nat.iter (width - String.length s) (String "0"%char) s.

Definition weekday_name (d : Z) : string :=
  match d with
  | 0 => "Sunday" | 1 => "Monday" | 2 => "Tuesday" | 3 => "Wednesday"
  | 4 => "Thursday" | 5 => "Friday" | _ => "Saturday"
  end.

(** The year as [toISOString()] writes it: four digits from 0 to 9999, a
    sign and six digits otherwise. *)
Definition iso_year (y : Z) : string :=
  if ((0 <=? y) && (y <=? 9999))%Z then pad 4 y
  else ((if (y <? 0)%Z then "-" else "+") ++ pad 6 (Z.abs y))%string.

(** The date part of [toISOString()]. *)
Definition iso_date t : string :=
  (iso_year (year t) ++ "-" ++ pad 2 (month t) ++ "-" ++ pad 2 (mday t))%string.

Definition api : DateAPI := {|
  toISODate := iso_date;
  getFullYear := year;
  getMonth := fun t => month t - 1;
  getDate := mday;
  getDay := wday;
  getHours := hours;
  weekdayLong := fun t => weekday_name (wday t)
|}.
End UTC.

(** ** What a dictionary inherits

    The dictionaries of the analytics callbacks are objects created by
    [{}]: a lookup [o[k]] that finds no own property [k] goes on to
    [Object.prototype].  There it finds the standard properties of every
    object, whatever the log, and whatever an earlier statement has put
    there: a callback that finds an object under a key of its dictionary
    takes it for a bucket and writes its counters on it, and
    [Object.prototype] is the object found under ["__proto__"]. *)

Module Realm.
Import JS.

(** The properties that [Object.prototype] has of its own in a browser:
    those of the language and of its annex for browsers. *)
Definition inherited_names : list string :=
  [ "constructor"; "hasOwnProperty"; "isPrototypeOf"; "propertyIsEnumerable";
    "toLocaleString"; "toString"; "valueOf"; "__proto__";
    "__defineGetter__"; "__defineSetter__"; "__lookupGetter__"; "__lookupSetter__" ].

Definition is_inherited (k : string) : bool := existsb (String.eqb k) inherited_names.

(** What the callbacks have written on one of the objects they share with
    the rest of the page.  A numeric property they put on such an object
    is NaN from its first write on ([undefined] incremented, [undefined]
    plus a number, NaN over NaN) and stays NaN under every later write, so
    a flag records that the property is there.  [lastActivity] holds the
    start time last assigned to it, a string that is not empty. *)
Record written := {
  count : bool;
  totalDuration : bool;
  averageDuration : bool;
  completionRate : bool;
  lastActivity : option timestamp;
  recommended : bool;
  accepted : bool;
  accuracy : bool
}.

Definition nothing : written :=
  {| count := false; totalDuration := false; averageDuration := false;
     completionRate := false; lastActivity := None;
     recommended := false; accepted := false; accuracy := false |}.

(** The shared objects that carry something written, each under the
    inherited name that leads to it: ["__proto__"] leads to
    [Object.prototype] itself, ["constructor"] to [Object], every other
    name to a method of [Object.prototype]. *)
Definition t : Type := Obj.t written.

(** The page as it is loaded. *)
Definition pristine : t := [].

Definition on (realm : t) (host : string) : written :=
  default nothing (Obj.get realm host).

(** What a lookup finds on [Object.prototype]. *)
Inductive value : Type :=
| Object (host : string)          (* the object behind an inherited name *)
| Not_a_number                    (* a numeric property written earlier *)
| Text (start_time : timestamp).  (* [lastActivity] written earlier *)

Definition numeric (k : string) (w : written) : bool :=
  (String.eqb k "count" && count w)
  || (String.eqb k "totalDuration" && totalDuration w)
  || (String.eqb k "averageDuration" && averageDuration w)
  || (String.eqb k "completionRate" && completionRate w)
  || (String.eqb k "recommended" && recommended w)
  || (String.eqb k "accepted" && accepted w)
  || (String.eqb k "accuracy" && accuracy w).

Definition inherited (realm : t) (k : string) : option value :=
  if is_inherited k then Some (Object k)
  else if String.eqb k "lastActivity"
       then option_map Text (lastActivity (on realm "__proto__"))
       else if numeric k (on realm "__proto__") then Some Not_a_number else None.

(** [o[k]] as the tests [!o[k]] and [o[k] || 0] see it: an own property;
    an object found on the prototype, which is truthy; a string found
    there, truthy as well; or nothing that is truthy ([undefined] or
    NaN). *)
Inductive slot (V : Type) : Type :=
| Own (v : V)
| Shared (host : string)
| Primitive
| Vacant.
Arguments Own {V} v.
Arguments Shared {V} host.
Arguments Primitive {V}.
Arguments Vacant {V}.

Definition lookup {V} (realm : t) (o : Obj.t V) (k : string) : slot V :=
  match Obj.get o k with
  | Some v => Own v
  | None =>
      match inherited realm k with
      | Some (Object host) => Shared host
      | Some (Text _) => Primitive
      | Some Not_a_number | None => Vacant
      end
  end.

(** A callback: it reads and writes the realm, and returns or throws. *)
Definition M (A : Type) : Type := t -> completion A * t.

Definition ret {A} (a : A) : M A := fun realm => (Normal a, realm).
Definition bind {A B} (m : M A) (k : A -> M B) : M B :=
  fun realm =>
    match m realm with
    | (Normal a, realm') => k a realm'
    | (TypeError, realm') => (TypeError, realm')
    end.

(** An assignment to a property of a string: module code is strict, so
    the assignment throws. *)
Definition throw {A} : M A := fun realm => (TypeError, realm).

(** Assignments to properties of the object behind [host]. *)
Definition write (host : string) (f : written -> written) : M unit :=
  fun realm => (Normal tt, Obj.set realm host (f (on realm host))).

(** [l.forEach(a => body)], on the variables [s] the body assigns to. *)
Fixpoint forEach {A S} (body : S -> A -> M S) (l : list A) (s : S) : M S :=
  match l with
  | [] => ret s
  | a :: l' => bind (body s a) (forEach body l')
  end.

(** The value a call returned, if it did. *)
Definition returned {A} (r : completion A * t) : option A :=
  match fst r with Normal a => Some a | TypeError => None end.
End Realm.

Declare Scope realm_scope.
Delimit Scope realm_scope with realm.
Notation "x <- m ;; k" := (Realm.bind m (fun x => k))
  (at level 100, m at next level, right associativity) : realm_scope.
Notation "m ;; k" := (Realm.bind m (fun _ => k))
  (at level 100, right associativity) : realm_scope.

(** ** The analytics callbacks, as functions of [activityHistory] *)

Module Analytics.
Import JS.
Abbreviation Item := ActivityHistoryItem.t.

(** The variables of the loop of [getStreakInfo]. *)
Module Loop.
Record t := {
  currentStreak : Z;
  longestStreak : Z;
  streakStartDate : option timestamp;
  previousDate : timestamp
}.
End Loop.

(** [(a, b) => new Date(b.start_time).getTime() - new Date(a.start_time).getTime()] *)
Definition newest_first (a b : Item) : Z :=
  ActivityHistoryItem.start_time b - ActivityHistoryItem.start_time a.

(** One turn of [for (const activity of sortedActivities)]. *)
Definition streak_turn (v : Loop.t) (activity : Item) : Loop.t :=
  let activityDate := ActivityHistoryItem.start_time activity in
  let dayDiff := (Loop.previousDate v - activityDate) / MS_PER_DAY in
  if dayDiff <=? 1 then
    let currentStreak := Loop.currentStreak v + 1 in
    if currentStreak >? Loop.longestStreak v then
      {| Loop.currentStreak := currentStreak;
         Loop.longestStreak := currentStreak;
         Loop.streakStartDate := Some (ActivityHistoryItem.start_time activity);
         Loop.previousDate := activityDate |}
    else
      {| Loop.currentStreak := currentStreak;
         Loop.longestStreak := Loop.longestStreak v;
         Loop.streakStartDate := Loop.streakStartDate v;
         Loop.previousDate := activityDate |}
  else
    {| Loop.currentStreak := 1;
       Loop.longestStreak := Loop.longestStreak v;
       Loop.streakStartDate := Loop.streakStartDate v;
       Loop.previousDate := activityDate |}.

(** What [getStreakInfo] computes once [sortedActivities] is at hand. *)
Definition streak_of_sorted (sortedActivities : list Item) : StreakInfo.t :=
  match sortedActivities with
  | [] =>
      {| StreakInfo.currentStreak := 0;
         StreakInfo.longestStreak := 0;
         StreakInfo.lastActivityDate := None;
         StreakInfo.streakStartDate := None;
         StreakInfo.streakHistory := [] |}
  | newest :: _ =>
      let lastActivityDate := ActivityHistoryItem.start_time newest in
      let v := fold_left streak_turn sortedActivities
                 {| Loop.currentStreak := 0;
                    Loop.longestStreak := 0;
                    Loop.streakStartDate := None;
                    Loop.previousDate := lastActivityDate |} in
      {| StreakInfo.currentStreak := Loop.currentStreak v;
         StreakInfo.longestStreak := Loop.longestStreak v;
         StreakInfo.lastActivityDate := Some lastActivityDate;
         StreakInfo.streakStartDate := Loop.streakStartDate v;
         StreakInfo.streakHistory := [] |}
  end.

Definition getStreakInfo (activityHistory : list Item) : StreakInfo.t :=
  streak_of_sorted (sort newest_first activityHistory).

(** [counts[k] = (counts[k] || 0) + 1], for the dictionaries of
    [getTimeBasedStats]: their keys are the three times of day and the
    names of the weekdays, which no object inherits. *)
Definition bump (counts : Obj.t Z) (k : string) : Obj.t Z :=
  Obj.set counts k (default 0 (Obj.get counts k) + 1).

(** [Object.entries(counts).sort(([, a], [, b]) => b - a)[0]?.[0] || fallback] *)
Definition most_counted (counts : Obj.t Z) (fallback : string) : string :=
  match sort (fun a b => snd b - snd a) (Obj.entries counts) with
  | [] => fallback
  | (k, _) :: _ => or_else k fallback
  end.

Definition sum_by (f : Item -> Z) (l : list Item) : Z :=
  fold_left (fun sum activity => sum + f activity) l 0.

Definition len {A} (l : list A) : Z := Z.of_nat (List.length l).

(** A property of [categoryCounts]: a number of items, or the string that
    [+ 1] makes of a value found on the prototype (the text of a function,
    or of a start time, followed by "1"), which does not read as a
    number. *)
Inductive counted : Type :=
| Times (n : Z)
| Garbled.

(** [counts[k] = (counts[k] || 0) + 1] with [k] taken from the log.  An
    assignment to ["__proto__"] of a value that is no object changes
    nothing. *)
Definition count_category (realm : Realm.t) (counts : Obj.t counted) (k : string)
  : Obj.t counted :=
  match Realm.lookup realm counts k with
  | Realm.Own (Times n) => Obj.set counts k (Times (n + 1))
  | Realm.Own Garbled => Obj.set counts k Garbled
  | Realm.Vacant => Obj.set counts k (Times 1)
  | Realm.Primitive => Obj.set counts k Garbled
  | Realm.Shared host =>
      if String.eqb host "__proto__" then counts else Obj.set counts k Garbled
  end.

(** [([, a], [, b]) => b - a]: NaN, that is zero for the sort, as soon as
    one of the two is not a number. *)
Definition by_count (a b : string * counted) : Z :=
  match snd a, snd b with
  | Times x, Times y => y - x
  | _, _ => 0
  end.

Definition numbers (entries : list (string * counted)) : list Z :=
  flat_map (fun e => match snd e with Times n => [n] | Garbled => [] end) entries.

(** [by_count] is a consistent comparator on the entries: they are all
    numbers, or the numbers among them are all the same. *)
Definition consistent (entries : list (string * counted)) : bool :=
  (List.length (numbers entries) =? List.length entries)%nat
  || match numbers entries with
     | [] => true
     | n :: rest => forallb (Z.eqb n) rest
     end.

(** [Object.entries(counts).sort(([, a], [, b]) => b - a)[0]?.[0] || fallback] *)
Definition most_frequent `{Engine} (counts : Obj.t counted) (fallback : string) : string :=
  let entries := Obj.entries counts in
  let sorted :=
    if consistent entries then sort by_count entries
    else arrange _ by_count entries in
  match sorted with
  | [] => fallback
  | (k, _) :: _ => or_else k fallback
  end.

(** The record [getActivityStats] returns, given the array that [filter]
    produced and the result of its call to [getStreakInfo]. *)
Definition activity_stats_of `{Engine} (realm : Realm.t)
           (activityHistory completedActivities : list Item)
           (streaks : StreakInfo.t) : ActivityStats.t :=
  let totalDuration := sum_by ActivityHistoryItem.duration completedActivities in
  let categoryCounts :=
    fold_left (fun counts activity =>
                 count_category realm counts (ActivityHistoryItem.category activity))
              completedActivities [] in
  let mostFrequentCategory := most_frequent categoryCounts "None" in
  {| ActivityStats.totalActivities := len activityHistory;
     ActivityStats.completedActivities := len completedActivities;
     ActivityStats.totalDuration := totalDuration;
     ActivityStats.averageDuration :=
       if len completedActivities =? 0 then of_Z 0
       else div (of_Z totalDuration) (of_Z (len completedActivities));
     ActivityStats.mostFrequentCategory := mostFrequentCategory;
     ActivityStats.completionRate :=
       if len activityHistory =? 0 then of_Z 0
       else mul (div (of_Z (len completedActivities)) (of_Z (len activityHistory)))
                (of_Z 100);
     ActivityStats.longestStreak := StreakInfo.longestStreak streaks;
     ActivityStats.currentStreak := StreakInfo.currentStreak streaks;
     ActivityStats.totalPoints := sum_by ActivityHistoryItem.points completedActivities;
     ActivityStats.averagePointsPerActivity :=
       if len completedActivities =? 0 then of_Z 0
       else div (of_Z (sum_by ActivityHistoryItem.points completedActivities))
                (of_Z (len completedActivities)) |}.

(** [getActivityStats] reads the realm and writes nothing on it: its
    assignments create properties of [categoryCounts]. *)
Definition getActivityStats `{Engine} (activityHistory : list Item) (realm : Realm.t)
  : ActivityStats.t :=
  activity_stats_of realm activityHistory
    (List.filter ActivityHistoryItem.completed activityHistory)
    (getStreakInfo activityHistory).

(** The bucket [getCategoryStats] creates for a category. *)
Definition new_category : CategoryStats.entry :=
  {| CategoryStats.count := 0;
     CategoryStats.totalDuration := 0;
     CategoryStats.averageDuration := of_Z 0;
     CategoryStats.completionRate := of_Z 0;
     CategoryStats.lastActivity := None |}.

(** The five assignments of the loop body, on a bucket. *)
Definition category_update (e : CategoryStats.entry) (activity : Item)
  : CategoryStats.entry :=
  let count := CategoryStats.count e + 1 in
  let totalDuration := CategoryStats.totalDuration e + ActivityHistoryItem.duration activity in
  {| CategoryStats.count := count;
     CategoryStats.totalDuration := totalDuration;
     CategoryStats.averageDuration := div (of_Z totalDuration) (of_Z count);
     CategoryStats.completionRate :=
       div (of_Z (if ActivityHistoryItem.completed activity then 1 else 0)) (of_Z count);
     CategoryStats.lastActivity := Some (ActivityHistoryItem.start_time activity) |}.

(** The same five assignments, on an object found on the prototype. *)
Definition category_written (activity : Item) (w : Realm.written) : Realm.written :=
  {| Realm.count := true;
     Realm.totalDuration := true;
     Realm.averageDuration := true;
     Realm.completionRate := true;
     Realm.lastActivity := Some (ActivityHistoryItem.start_time activity);
     Realm.recommended := Realm.recommended w;
     Realm.accepted := Realm.accepted w;
     Realm.accuracy := Realm.accuracy w |}.

Local Open Scope realm_scope.

(** The body of the [forEach] of [getCategoryStats], on the pair of
    [categoryStats] and [totalActivities].  The test [!categoryStats[category]]
    creates a bucket only where the lookup finds nothing truthy; the
    assignments that follow go to whatever the lookup finds. *)
Definition category_turn (acc : Obj.t CategoryStats.entry * Z) (activity : Item)
  : Realm.M (Obj.t CategoryStats.entry * Z) :=
  let (categoryStats, totalActivities) := acc in
  let category := first_word (ActivityHistoryItem.activity_title activity) in
  fun realm =>
    match Realm.lookup realm categoryStats category with
    | Realm.Own e =>
        Realm.ret (Obj.set categoryStats category (category_update e activity),
                   totalActivities + 1) realm
    | Realm.Vacant =>
        Realm.ret (Obj.set categoryStats category (category_update new_category activity),
                   totalActivities + 1) realm
    | Realm.Shared host =>
        (Realm.write host (category_written activity) ;;
         Realm.ret (categoryStats, totalActivities + 1)) realm
    | Realm.Primitive => Realm.throw realm
    end.

Definition getCategoryStats (activityHistory : list Item) : Realm.M CategoryStats.t :=
  acc <- Realm.forEach category_turn activityHistory ([], 0) ;;
  let (categoryStats, totalActivities) := acc : Obj.t CategoryStats.entry * Z in
  let categoryDistribution :=
    List.map (fun '(category, stats) =>
                (category,
                 mul (div (of_Z (CategoryStats.count stats)) (of_Z totalActivities))
                     (of_Z 100)))
             (Obj.entries categoryStats) in
  let sortedCategories :=
    sort (fun a b => CategoryStats.count (snd b) - CategoryStats.count (snd a))
         (Obj.entries categoryStats) in
  Realm.ret
    {| CategoryStats.categories := categoryStats;
       CategoryStats.mostFrequentCategory :=
         match sortedCategories with
         | [] => "None"
         | (k, _) :: _ => or_else k "None"
         end;
       CategoryStats.leastFrequentCategory :=
         match List.last (List.map Some sortedCategories) None with
         | None => "None"
         | Some (k, _) => or_else k "None"
         end;
       CategoryStats.categoryDistribution := categoryDistribution |}.

Section Dated.
Context `{DateAPI}.

(** [hours < 12 ? 'morning' : hours < 17 ? 'afternoon' : 'evening'] *)
Definition timeOfDay_of (t : timestamp) : string :=
  if getHours t <? 12 then "morning"
  else if getHours t <? 17 then "afternoon" else "evening".

(** [Math.ceil(n / 7)] for an integer [n]. *)
Definition ceil_div7 (n : Z) : Z := - ((- n) / 7).

(** The five objects the [forEach] of [getTimeBasedStats] fills.  Their
    keys are dates ("2024-05-17"), labels of weeks and months ("2024-W3",
    "2024-5"), the three times of day and the English names of the
    weekdays: no object inherits a property of such a name, and the other
    callbacks leave none behind, so every lookup stays within the
    object. *)
Record time_acc := {
  dailyStats : Obj.t TimeBasedStats.daily;
  weeklyStats : Obj.t TimeBasedStats.weekly;
  monthlyStats : Obj.t TimeBasedStats.monthly;
  timeOfDayCounts : Obj.t Z;
  dayOfWeekCounts : Obj.t Z
}.

Definition time_turn (acc : time_acc) (activity : Item) : time_acc :=
  let date := ActivityHistoryItem.start_time activity in
  let dayKey := toISODate date in
  let weekKey :=
    (toString (getFullYear date) ++ "-W"
       ++ toString (ceil_div7 (getDate date + getDay date)))%string in
  let monthKey :=
    (toString (getFullYear date) ++ "-" ++ toString (getMonth date + 1))%string in
  let timeOfDay := timeOfDay_of date in
  let dayOfWeek := weekdayLong date in
  let word := first_word (ActivityHistoryItem.activity_title activity) in
  let d :=
    match Obj.get (dailyStats acc) dayKey with
    | Some d => d
    | None => {| TimeBasedStats.d_count := 0;
                 TimeBasedStats.d_duration := 0;
                 TimeBasedStats.d_categories := [] |}
    end in
  let w :=
    match Obj.get (weeklyStats acc) weekKey with
    | Some w => w
    | None => {| TimeBasedStats.w_count := 0;
                 TimeBasedStats.w_duration := 0;
                 TimeBasedStats.w_averageDuration := of_Z 0 |}
    end in
  let m :=
    match Obj.get (monthlyStats acc) monthKey with
    | Some m => m
    | None => {| TimeBasedStats.m_count := 0;
                 TimeBasedStats.m_duration := 0;
                 TimeBasedStats.m_mostActiveDay := "" |}
    end in
  {| dailyStats :=
       Obj.set (dailyStats acc) dayKey
         {| TimeBasedStats.d_count := TimeBasedStats.d_count d + 1;
            TimeBasedStats.d_duration :=
              TimeBasedStats.d_duration d + ActivityHistoryItem.duration activity;
            TimeBasedStats.d_categories :=
              if existsb (String.eqb word) (TimeBasedStats.d_categories d)
              then TimeBasedStats.d_categories d
              else TimeBasedStats.d_categories d ++ [word] |};
     weeklyStats :=
       Obj.set (weeklyStats acc) weekKey
         {| TimeBasedStats.w_count := TimeBasedStats.w_count w + 1;
            TimeBasedStats.w_duration :=
              TimeBasedStats.w_duration w + ActivityHistoryItem.duration activity;
            TimeBasedStats.w_averageDuration :=
              div (of_Z (TimeBasedStats.w_duration w + ActivityHistoryItem.duration activity))
                  (of_Z (TimeBasedStats.w_count w + 1)) |};
     monthlyStats :=
       Obj.set (monthlyStats acc) monthKey
         {| TimeBasedStats.m_count := TimeBasedStats.m_count m + 1;
            TimeBasedStats.m_duration :=
              TimeBasedStats.m_duration m + ActivityHistoryItem.duration activity;
            TimeBasedStats.m_mostActiveDay := TimeBasedStats.m_mostActiveDay m |};
     timeOfDayCounts := bump (timeOfDayCounts acc) timeOfDay;
     dayOfWeekCounts := bump (dayOfWeekCounts acc) dayOfWeek |}.

Definition getTimeBasedStats (activityHistory : list Item) : TimeBasedStats.t :=
  let acc := fold_left time_turn activityHistory
               {| dailyStats := []; weeklyStats := []; monthlyStats := [];
                  timeOfDayCounts := []; dayOfWeekCounts := [] |} in
  {| TimeBasedStats.dailyStats := dailyStats acc;
     TimeBasedStats.weeklyStats := weeklyStats acc;
     TimeBasedStats.monthlyStats := monthlyStats acc;
     TimeBasedStats.bestTimeOfDay := most_counted (timeOfDayCounts acc) "unknown";
     TimeBasedStats.mostActiveDay := most_counted (dayOfWeekCounts acc) "unknown" |}.

(** The objects and counters of the [forEach] of [getRecommendationStats]. *)
Record rec_acc := {
  categoryPreferences : Obj.t RecommendationStats.pref;
  timeBasedPreferences : Obj.t RecommendationStats.pref;
  totalRecommendations : Z;
  acceptedRecommendations : Z
}.

(** The bucket [getRecommendationStats] creates for a key. *)
Definition new_pref : RecommendationStats.pref :=
  {| RecommendationStats.recommended := 0;
     RecommendationStats.accepted := 0;
     RecommendationStats.accuracy := of_Z 0 |}.

(** A bucket after [recommended++], the conditional [accepted++] and the
    recomputation of [accuracy]. *)
Definition pref_update (p : RecommendationStats.pref) (completed : bool)
  : RecommendationStats.pref :=
  let recommended := RecommendationStats.recommended p + 1 in
  let accepted := RecommendationStats.accepted p + (if completed then 1 else 0) in
  {| RecommendationStats.recommended := recommended;
     RecommendationStats.accepted := accepted;
     RecommendationStats.accuracy :=
       mul (div (of_Z accepted) (of_Z recommended)) (of_Z 100) |}.

(** The same assignments, on an object found on the prototype. *)
Definition pref_written (completed : bool) (w : Realm.written) : Realm.written :=
  {| Realm.count := Realm.count w;
     Realm.totalDuration := Realm.totalDuration w;
     Realm.averageDuration := Realm.averageDuration w;
     Realm.completionRate := Realm.completionRate w;
     Realm.lastActivity := Realm.lastActivity w;
     Realm.recommended := true;
     Realm.accepted := Realm.accepted w || completed;
     Realm.accuracy := true |}.

(** The update of [timeBasedPreferences[timeOfDay]]: the key is one of
    the three times of day. *)
Definition tally (prefs : Obj.t RecommendationStats.pref) (k : string) (completed : bool)
  : Obj.t RecommendationStats.pref :=
  Obj.set prefs k (pref_update (default new_pref (Obj.get prefs k)) completed).

(** The update of [categoryPreferences[category]]: the key comes from the
    log. *)
Definition tally_category (prefs : Obj.t RecommendationStats.pref) (k : string)
           (completed : bool) : Realm.M (Obj.t RecommendationStats.pref) :=
  fun realm =>
    match Realm.lookup realm prefs k with
    | Realm.Own p => Realm.ret (Obj.set prefs k (pref_update p completed)) realm
    | Realm.Vacant => Realm.ret (Obj.set prefs k (pref_update new_pref completed)) realm
    | Realm.Shared host =>
        (Realm.write host (pref_written completed) ;; Realm.ret prefs) realm
    | Realm.Primitive => Realm.throw realm
    end.

Definition rec_turn (acc : rec_acc) (activity : Item) : Realm.M rec_acc :=
  let category := first_word (ActivityHistoryItem.activity_title activity) in
  let timeOfDay := timeOfDay_of (ActivityHistoryItem.start_time activity) in
  let completed := ActivityHistoryItem.completed activity in
  categoryPreferences' <- tally_category (categoryPreferences acc) category completed ;;
  Realm.ret
    {| categoryPreferences := categoryPreferences';
       timeBasedPreferences := tally (timeBasedPreferences acc) timeOfDay completed;
       totalRecommendations := totalRecommendations acc + 1;
       acceptedRecommendations :=
         acceptedRecommendations acc + (if completed then 1 else 0) |}.

Definition getRecommendationStats (activityHistory : list Item)
  : Realm.M RecommendationStats.t :=
  acc <- Realm.forEach rec_turn activityHistory
           {| categoryPreferences := []; timeBasedPreferences := [];
              totalRecommendations := 0; acceptedRecommendations := 0 |} ;;
  Realm.ret
    {| RecommendationStats.totalRecommendations := totalRecommendations acc;
       RecommendationStats.acceptedRecommendations := acceptedRecommendations acc;
       RecommendationStats.recommendationAccuracy :=
         mul (div (of_Z (acceptedRecommendations acc)) (of_Z (totalRecommendations acc)))
             (of_Z 100);
       RecommendationStats.categoryPreferences := categoryPreferences acc;
       RecommendationStats.timeBasedPreferences := timeBasedPreferences acc |}.
End Dated.

End Analytics.

(** ** The callbacks over arrays held by reference

    [activityHistory] is an array object that the callbacks receive by
    reference.  Of the array methods they call, [sort] rearranges its
    receiver in place, while the spread [[...a]] and [filter] allocate a
    new array; [forEach], [reduce], [find] and the [for-of] loop only
    read.  The heap maps a reference to the contents of its array; the
    realm is passed alongside. *)

Module Store.
Abbreviation Item := ActivityHistoryItem.t.
Abbreviation ref := positive.
Abbreviation heap := (gmap positive (list ActivityHistoryItem.t)).

Definition St (A : Type) : Type := heap -> A * heap.

Definition ret {A} (a : A) : St A := fun h => (a, h).
Definition bind {A B} (m : St A) (k : A -> St B) : St B :=
  fun h => let (a, h') := m h in k a h'.

Declare Scope store_scope.
Delimit Scope store_scope with store.
Notation "x <- m ;; k" := (bind m (fun x => k))
  (at level 100, m at next level, right associativity) : store_scope.

Definition contents (h : heap) (r : ref) : list Item := default [] (h !! r).

(** Reading the elements of the array behind [r]. *)
Definition read (r : ref) : St (list Item) := fun h => (contents h r, h).

(** Allocation of a new array. *)
Definition alloc (l : list Item) : St ref :=
  fun h => let r := fresh (dom h) in (r, <[r := l]> h).

(** [[...r]] *)
Definition spread (r : ref) : St ref := fun h => alloc (contents h r) h.

(** [r.filter(p)] *)
Definition filter (p : Item -> bool) (r : ref) : St ref :=
  fun h => alloc (List.filter p (contents h r)) h.

(** [r.sort(cmp)]: sorts the receiver in place and returns it. *)
Definition sort (cmp : Item -> Item -> Z) (r : ref) : St ref :=
  fun h => (r, alter (JS.sort cmp) r h).

Local Open Scope store_scope.

Definition getStreakInfo (activityHistory : ref) : St StreakInfo.t :=
  copy <- spread activityHistory ;;
  sortedActivities <- sort Analytics.newest_first copy ;;
  sorted <- read sortedActivities ;;
  ret (Analytics.streak_of_sorted sorted).

Definition getActivityStats `{JS.Engine} (realm : Realm.t) (activityHistory : ref)
  : St ActivityStats.t :=
  completedActivities <- filter ActivityHistoryItem.completed activityHistory ;;
  completed <- read completedActivities ;;
  streaks <- getStreakInfo activityHistory ;;
  history <- read activityHistory ;;
  ret (Analytics.activity_stats_of realm history completed streaks).

Definition getCategoryStats (realm : Realm.t) (activityHistory : ref)
  : St (JS.completion CategoryStats.t * Realm.t) :=
  history <- read activityHistory ;;
  ret (Analytics.getCategoryStats history realm).

Definition getTimeBasedStats `{DateAPI} (activityHistory : ref) : St TimeBasedStats.t :=
  history <- read activityHistory ;;
  ret (Analytics.getTimeBasedStats history).

Definition getRecommendationStats `{DateAPI} (realm : Realm.t) (activityHistory : ref)
  : St (JS.completion RecommendationStats.t * Realm.t) :=
  history <- read activityHistory ;;
  ret (Analytics.getRecommendationStats history realm).
End Store.

(** ** The provider: state, browser storage, backend and the lifecycle

    The state of [AppProvider] is one record; a [set...] call takes effect
    at once and every operation sees the state left by the one before it.
    The backend and the clock are oracles indexed by the number of
    interactions made so far, so that a server may answer the same request
    differently at different moments. *)

Module App.
Import JS.
Abbreviation Item := ActivityHistoryItem.t.

(** What a [throw] or a rejected promise carries: an [Error] with its
    message, or some other value. *)
Inductive thrown : Type :=
| ErrorObj (message : string)
| NotAnError.

(** [err instanceof Error ? err.message : fallback] *)
Definition message_or (e : thrown) (fallback : string) : string :=
  match e with ErrorObj m => m | NotAnError => fallback end.

Inductive response (A : Type) : Type :=
| Resolved (a : A)
| Rejected (e : thrown).
Arguments Resolved {A} a.
Arguments Rejected {A} e.

(** A value kept in [localStorage]: text that [JSON.parse] turns into a
    value of the expected shape, or text on which it throws. *)
Inductive stored (A : Type) : Type :=
| Parses (a : A)
| Corrupt.
Arguments Parses {A} a.
Arguments Corrupt {A}.

Module Storage.
Record t := {
  sessionId : option string;
  activityHistory : option (stored (list Item));
  activityProgress : option (stored (Obj.t Q));
  userPreferences : option (stored UserPreferences.t)
}.
End Storage.

Module State.
Record t := {
  sessionId : option string;
  preferences : UserPreferences.t;
  activeActivity : option Activity.t;
  activityHistory : list Item;
  isLoading : bool;
  error : option string;
  activityProgress : Obj.t Q;
  startTime : option timestamp;
  completedSteps : list string
}.
End State.

Inductive request : Type :=
| GetSession (sessionId : string)
| CreateSession (userId : string)
| GetActivity (activityId : string)
| CompleteActivity (activityId sessionId : string) (duration : Z) (completedSteps : list Z).

Record World := {
  state : State.t;
  localStorage : Storage.t;
  tick : nat;               (* interactions with clock and backend so far *)
  sent : list request       (* requests issued, oldest first *)
}.

Record Backend := {
  now : nat -> timestamp;
  getSession : nat -> string -> response SessionResponse.t;
  createSession : nat -> string -> response SessionResponse.t;
  getActivity : nat -> string -> response (option Activity.t);
  completeActivityApi : nat -> string -> string -> Z -> list Z -> response unit
}.

(** How a call ends: it returns, it throws, or the fuel of the model ran
    out before its promise settled. *)
Inductive outcome (A : Type) : Type :=
| Returned (a : A)
| Threw (e : thrown)
| Pending.
Arguments Returned {A} a.
Arguments Threw {A} e.
Arguments Pending {A}.

Definition M (A : Type) : Type := World -> outcome A * World.

Definition ret {A} (a : A) : M A := fun w => (Returned a, w).
Definition bind {A B} (m : M A) (k : A -> M B) : M B :=
  fun w =>
    match m w with
    | (Returned a, w') => k a w'
    | (Threw e, w') => (Threw e, w')
    | (Pending, w') => (Pending, w')
    end.
Definition throw {A} (e : thrown) : M A := fun w => (Threw e, w).
Definition pending {A} : M A := fun w => (Pending, w).

Declare Scope app_scope.
Delimit Scope app_scope with app.
Notation "x <- m ;; k" := (bind m (fun x => k))
  (at level 100, m at next level, right associativity) : app_scope.
Notation "m ;; k" := (bind m (fun _ => k))
  (at level 100, right associativity) : app_scope.

(** [try { body } catch (e) { handler e }] *)
Definition try_catch {A} (body : M A) (handler : thrown -> M A) : M A :=
  fun w =>
    match body w with
    | (Threw e, w') => handler e w'
    | r => r
    end.

(** [try { body } finally { cleanup }] *)
Definition finally {A} (body : M A) (cleanup : M unit) : M A :=
  fun w =>
    match body w with
    | (Pending, w') => (Pending, w')
    | (r, w') =>
        match cleanup w' with
        | (Returned _, w'') => (r, w'')
        | (Threw e, w'') => (Threw e, w'')
        | (Pending, w'') => (Pending, w'')
        end
    end.

Definition get_state : M State.t := fun w => (Returned (state w), w).

Definition modify (f : State.t -> State.t) : M unit :=
  fun w => (Returned tt,
            {| state := f (state w); localStorage := localStorage w;
               tick := tick w; sent := sent w |}).

Definition get_storage : M Storage.t := fun w => (Returned (localStorage w), w).

Definition modify_storage (f : Storage.t -> Storage.t) : M unit :=
  fun w => (Returned tt,
            {| state := state w; localStorage := f (localStorage w);
               tick := tick w; sent := sent w |}).

(** One interaction with the outside: the answer at the current tick. *)
Definition ask {A} (answer : nat -> A) : M A :=
  fun w => (Returned (answer (tick w)),
            {| state := state w; localStorage := localStorage w;
               tick := S (tick w); sent := sent w |}).

(** [await call]: the request goes out, the promise resolves or rejects. *)
Definition await {A} (r : request) (answer : nat -> response A) : M A :=
  fun w =>
    let w' := {| state := state w; localStorage := localStorage w;
                 tick := S (tick w); sent := sent w ++ [r] |} in
    match answer (tick w) with
    | Resolved a => (Returned a, w')
    | Rejected e => (Threw e, w')
    end.

(** The state setters of the provider. *)
Definition setSessionId (v : option string) : M unit :=
  modify (fun s =>
    {| State.sessionId := v; State.preferences := State.preferences s;
       State.activeActivity := State.activeActivity s;
       State.activityHistory := State.activityHistory s;
       State.isLoading := State.isLoading s; State.error := State.error s;
       State.activityProgress := State.activityProgress s;
       State.startTime := State.startTime s;
       State.completedSteps := State.completedSteps s |}).

Definition setPreferences (v : UserPreferences.t) : M unit :=
  modify (fun s =>
    {| State.sessionId := State.sessionId s; State.preferences := v;
       State.activeActivity := State.activeActivity s;
       State.activityHistory := State.activityHistory s;
       State.isLoading := State.isLoading s; State.error := State.error s;
       State.activityProgress := State.activityProgress s;
       State.startTime := State.startTime s;
       State.completedSteps := State.completedSteps s |}).

Definition setActiveActivity (v : option Activity.t) : M unit :=
  modify (fun s =>
    {| State.sessionId := State.sessionId s; State.preferences := State.preferences s;
       State.activeActivity := v; State.activityHistory := State.activityHistory s;
       State.isLoading := State.isLoading s; State.error := State.error s;
       State.activityProgress := State.activityProgress s;
       State.startTime := State.startTime s;
       State.completedSteps := State.completedSteps s |}).

(** [setActivityHistory] takes the updater form, [prev => ...]. *)
Definition setActivityHistory (f : list Item -> list Item) : M unit :=
  modify (fun s =>
    {| State.sessionId := State.sessionId s; State.preferences := State.preferences s;
       State.activeActivity := State.activeActivity s;
       State.activityHistory := f (State.activityHistory s);
       State.isLoading := State.isLoading s; State.error := State.error s;
       State.activityProgress := State.activityProgress s;
       State.startTime := State.startTime s;
       State.completedSteps := State.completedSteps s |}).

Definition setIsLoading (v : bool) : M unit :=
  modify (fun s =>
    {| State.sessionId := State.sessionId s; State.preferences := State.preferences s;
       State.activeActivity := State.activeActivity s;
       State.activityHistory := State.activityHistory s; State.isLoading := v;
       State.error := State.error s; State.activityProgress := State.activityProgress s;
       State.startTime := State.startTime s;
       State.completedSteps := State.completedSteps s |}).

Definition setError (v : option string) : M unit :=
  modify (fun s =>
    {| State.sessionId := State.sessionId s; State.preferences := State.preferences s;
       State.activeActivity := State.activeActivity s;
       State.activityHistory := State.activityHistory s;
       State.isLoading := State.isLoading s; State.error := v;
       State.activityProgress := State.activityProgress s;
       State.startTime := State.startTime s;
       State.completedSteps := State.completedSteps s |}).

Definition setActivityProgress (v : Obj.t Q) : M unit :=
  modify (fun s =>
    {| State.sessionId := State.sessionId s; State.preferences := State.preferences s;
       State.activeActivity := State.activeActivity s;
       State.activityHistory := State.activityHistory s;
       State.isLoading := State.isLoading s; State.error := State.error s;
       State.activityProgress := v; State.startTime := State.startTime s;
       State.completedSteps := State.completedSteps s |}).

Definition setStartTime (v : option timestamp) : M unit :=
  modify (fun s =>
    {| State.sessionId := State.sessionId s; State.preferences := State.preferences s;
       State.activeActivity := State.activeActivity s;
       State.activityHistory := State.activityHistory s;
       State.isLoading := State.isLoading s; State.error := State.error s;
       State.activityProgress := State.activityProgress s; State.startTime := v;
       State.completedSteps := State.completedSteps s |}).

Definition setCompletedSteps (v : list string) : M unit :=
  modify (fun s =>
    {| State.sessionId := State.sessionId s; State.preferences := State.preferences s;
       State.activeActivity := State.activeActivity s;
       State.activityHistory := State.activityHistory s;
       State.isLoading := State.isLoading s; State.error := State.error s;
       State.activityProgress := State.activityProgress s;
       State.startTime := State.startTime s; State.completedSteps := v |}).
(** [JSON.parse(text)] *)
Definition JSON_parse {A} (text : stored A) : M A :=
  match text with
  | Parses a => ret a
  | Corrupt => throw (ErrorObj "Unexpected token in JSON")
  end.

(** [localStorage.getItem(key)] followed by the test [if (value)]: an
    absent key and an empty text both fail the test. *)
Definition present (v : option string) : option string :=
  match v with
  | Some s => if truthy s then Some s else None
  | None => None
  end.

Local Open Scope app_scope.

Section Operations.
Variable backend : Backend.

(** The inner function [loadSavedData] of [initializeSession]. *)
Definition loadSavedData : M unit :=
  try_catch
    (ls <- get_storage ;;
     match Storage.activityHistory ls with
     | Some storedHistory =>
         history <- JSON_parse storedHistory ;;
         setActivityHistory (fun _ => history)
     | None => ret tt
     end ;;
     match Storage.activityProgress ls with
     | Some storedProgress =>
         progress <- JSON_parse storedProgress ;;
         setActivityProgress progress
     | None => ret tt
     end ;;
     match Storage.userPreferences ls with
     | Some storedPreferences =>
         prefs <- JSON_parse storedPreferences ;;
         setPreferences prefs
     | None => ret tt
     end)
    (fun _ => setError (Some "Failed to load saved data")).

Definition initializeSession : M unit :=
  finally
    (try_catch
       (setIsLoading true ;;
        ls <- get_storage ;;
        match present (Storage.sessionId ls) with
        | Some storedSessionId =>
            session <- await (GetSession storedSessionId)
                             (fun n => getSession backend n storedSessionId) ;;
            setSessionId (Some (SessionResponse.session_id session)) ;;
            setPreferences (SessionResponse.preferences session) ;;
            loadSavedData
        | None =>
            t <- ask (now backend) ;;
            let userId := ("user-" ++ toString t)%string in
            newSession <- await (CreateSession userId)
                                (fun n => createSession backend n userId) ;;
            setSessionId (Some (SessionResponse.session_id newSession)) ;;
            modify_storage (fun ls =>
              {| Storage.sessionId := Some (SessionResponse.session_id newSession);
                 Storage.activityHistory := Storage.activityHistory ls;
                 Storage.activityProgress := Storage.activityProgress ls;
                 Storage.userPreferences := Storage.userPreferences ls |})
        end)
       (fun err => setError (Some (message_or err "Failed to initialize session"))))
    (setIsLoading false).

(** [activity.category || activity.categories[0] || 'general'] *)
Definition category_of (activity : Activity.t) : string :=
  match present (Activity.category activity) with
  | Some c => c
  | None =>
      match present (head (Activity.categories activity)) with
      | Some c => c
      | None => "general"
      end
  end.

(** [startActivity].  Inside [AppProvider] the name [startActivity] is
    the constant being defined, which hides the function of the same
    name imported from [services/api]: the call at the end of the
    [try] block re-enters this very function.  [fuel] bounds the depth
    of re-entry; when it is used up the call is still [Pending]. *)
Fixpoint startActivity (fuel : nat) (activityId : string) : M unit :=
  match fuel with
  | O => pending
  | S fuel' =>
      finally
        (try_catch
           (setIsLoading true ;;
            fetched <- await (GetActivity activityId)
                             (fun n => getActivity backend n activityId) ;;
            match fetched with
            | None => throw (ErrorObj "Activity not found")
            | Some activity =>
                startTime <- ask (now backend) ;;
                setStartTime (Some startTime) ;;
                setActiveActivity (Some activity) ;;
                setCompletedSteps [] ;;
                stamp <- ask (now backend) ;;
                let newActivity :=
                  {| ActivityHistoryItem.id := toString stamp;
                     ActivityHistoryItem.activity_id := Activity.id activity;
                     ActivityHistoryItem.activity_title := Activity.title activity;
                     ActivityHistoryItem.start_time := startTime;
                     ActivityHistoryItem.completed_at := None;
                     ActivityHistoryItem.duration := 0;
                     ActivityHistoryItem.completed := false;
                     ActivityHistoryItem.progress := 0;
                     ActivityHistoryItem.category := category_of activity;
                     ActivityHistoryItem.points := 0;
                     ActivityHistoryItem.completed_steps := [];
                     ActivityHistoryItem.mood_level := None |} in
                setActivityHistory (fun prev => prev ++ [newActivity]) ;;
                startActivity fuel' activityId
            end)
           (fun error =>
              setError (Some (message_or error "Failed to start activity"))))
        (setIsLoading false)
  end.

(** [activityHistory.find(a => a.id === activityId)] *)
Definition find_by_id (activityId : string) (history : list Item) : option Item :=
  List.find (fun a => String.eqb (ActivityHistoryItem.id a) activityId) history.

(** [completeActivity].  The difference of the two times, its quotient by
    1000 and the product [moodLevel * 10] are operations on doubles; a
    mood level and a span of time are far below the range where one of
    them overflows. *)
Definition completeActivity (activityId : string) (moodLevel : Q) : M unit :=
  finally
    (try_catch
       (setIsLoading true ;;
        s <- get_state ;;
        match find_by_id activityId (State.activityHistory s), State.startTime s with
        | Some activeActivity, Some startTime =>
            endTime <- ask (now backend) ;;
            ls <- get_storage ;;
            let sessionId :=
              match present (Storage.sessionId ls) with
              | Some sid => sid
              | None => "current-session"
              end in
            let durationInSeconds :=
              Math_round (nearest (nearest (inject_Z (endTime - startTime))
                                   / inject_Z 1000)) in
            await (CompleteActivity activityId sessionId durationInSeconds [])
                  (fun n => completeActivityApi backend n activityId sessionId
                                                durationInSeconds []) ;;
            stamp <- ask (now backend) ;;
            let newActivity :=
              {| ActivityHistoryItem.id := toString stamp;
                 ActivityHistoryItem.activity_id := ActivityHistoryItem.id activeActivity;
                 ActivityHistoryItem.activity_title :=
                   ActivityHistoryItem.activity_title activeActivity;
                 ActivityHistoryItem.start_time := startTime;
                 ActivityHistoryItem.completed_at := Some endTime;
                 ActivityHistoryItem.completed := true;
                 ActivityHistoryItem.progress := 1;
                 ActivityHistoryItem.category := ActivityHistoryItem.category activeActivity;
                 ActivityHistoryItem.points := Math_floor (nearest (moodLevel * inject_Z 10));
                 ActivityHistoryItem.completed_steps := [];
                 ActivityHistoryItem.mood_level := Some moodLevel;
                 ActivityHistoryItem.duration := durationInSeconds |} in
            setActivityHistory (fun prev => prev ++ [newActivity]) ;;
            setActiveActivity None ;;
            setStartTime None ;;
            setCompletedSteps []
        | _, _ => throw (ErrorObj "Activity not found or not started")
        end)
       (fun error =>
          setError (Some (message_or error "Failed to complete activity"))))
    (setIsLoading false).
End Operations.
End App.

(** ** Notions used to state the properties *)

Module Props.
Abbreviation Item := ActivityHistoryItem.t.

(** Every item of [l], read in order starting after a date [prev], lies less
    than two days before the one in front of it: the test [dayDiff <= 1] of
    the streak loop succeeds at each of them. *)
Fixpoint close_run (prev : timestamp) (l : list Item) : Prop :=
  match l with
  | [] => True
  | a :: l' =>
      (prev - ActivityHistoryItem.start_time a) / MS_PER_DAY <= 1
      /\ close_run (ActivityHistoryItem.start_time a) l'
  end.

(** All items of a log were started on calendar day [d]. *)
Definition all_on_day (d : Z) (log : list Item) : Prop :=
  Forall (fun a => calendar_day (ActivityHistoryItem.start_time a) = d) log.

(** A history item of the given activity, title, category, start,
    completion flag and duration, as the provider would have recorded it. *)
Definition item (activity_id title category : string) (start : timestamp)
           (completed : bool) (duration : Z) : Item :=
  {| ActivityHistoryItem.id := JS.toString start;
     ActivityHistoryItem.activity_id := activity_id;
     ActivityHistoryItem.activity_title := title;
     ActivityHistoryItem.start_time := start;
     ActivityHistoryItem.completed_at := if completed then Some (start + 1000 * duration) else None;
     ActivityHistoryItem.completed := completed;
     ActivityHistoryItem.progress := if completed then 1%Q else 0%Q;
     ActivityHistoryItem.category := category;
     ActivityHistoryItem.points := 0;
     ActivityHistoryItem.completed_steps := [];
     ActivityHistoryItem.mood_level := None;
     ActivityHistoryItem.duration := duration |}.

(** Noon of the [n]-th day after the epoch. *)
Definition noon (n : Z) : timestamp := n * MS_PER_DAY + 12 * 3600000.

(** One activity at noon on each of the days 19000, 19001 and 19002. *)
Definition three_days : list Item :=
  [ item "yoga-1" "Morning Yoga" "Physical" (noon 19000) true 600;
    item "yoga-1" "Morning Yoga" "Physical" (noon 19001) true 600;
    item "yoga-1" "Morning Yoga" "Physical" (noon 19002) true 600 ].

(** The same log after one more activity at noon of day 19004. *)
Definition three_days_then_gap : list Item :=
  three_days ++ [ item "yoga-1" "Morning Yoga" "Physical" (noon 19004) true 600 ].

(** The same three days, then an activity ten minutes into day 19004, the
    third one having been started ten minutes before the end of day 19002. *)
Definition late_then_early : list Item :=
  [ item "yoga-1" "Morning Yoga" "Physical" (noon 19000) true 600;
    item "yoga-1" "Morning Yoga" "Physical" (noon 19001) true 600;
    item "walk-1" "Evening Walk" "Physical" (19003 * MS_PER_DAY - 600000) true 300;
    item "yoga-1" "Morning Yoga" "Physical" (19004 * MS_PER_DAY + 600000) true 600 ].

(** Two activities on day 19000, one in the morning and one in the
    evening. *)
Definition twice_a_day : list Item :=
  [ item "yoga-1" "Morning Yoga" "Physical" (19000 * MS_PER_DAY + 8 * 3600000) true 600;
    item "walk-1" "Evening Walk" "Physical" (19000 * MS_PER_DAY + 19 * 3600000) true 900 ].

(** The log of the category scenario of the specification. *)
Definition category_scenario : list Item :=
  [ item "stretch-1" "Physical Stretch" "Physical" (noon 19000) true 30;
    item "walk-2" "Physical Walk" "Physical" (noon 19001) false 0;
    item "pause-1" "Mindfulness Pause" "Mindfulness" (noon 19002) true 15 ].

(** An entry of the catalogue. *)
Definition yoga : Activity.t :=
  {| Activity.id := "yoga-1";
     Activity.title := "Morning Yoga";
     Activity.description := "Ten minutes of stretching";
     Activity.duration := 10;
     Activity.difficulty := "beginner";
     Activity.categories := ["Physical"; "Mindfulness"];
     Activity.steps := ["Stand"; "Stretch"; "Breathe"];
     Activity.benefits := ["Flexibility"];
     Activity.category := None |}.

(** [defaultPreferences] of the provider. *)
Definition defaultPreferences : UserPreferences.t :=
  {| UserPreferences.difficulty_level := "beginner";
     UserPreferences.preferred_duration := "short";
     UserPreferences.favorite_activities := [];
     UserPreferences.categories := [];
     UserPreferences.notifications := true |}.

(** The state of the provider when it is mounted: the initial values of its
    [useState] calls. *)
Definition initial_state : App.State.t :=
  {| App.State.sessionId := None;
     App.State.preferences := defaultPreferences;
     App.State.activeActivity := None;
     App.State.activityHistory := [];
     App.State.isLoading := true;
     App.State.error := None;
     App.State.activityProgress := [];
     App.State.startTime := None;
     App.State.completedSteps := [] |}.

(** A browser that was used before: it holds the session id and a snapshot
    of the three-day log, of some progress and of the preferences. *)
Definition returning_world : App.World :=
  {| App.state := initial_state;
     App.localStorage :=
       {| App.Storage.sessionId := Some "session-1";
          App.Storage.activityHistory := Some (App.Parses three_days);
          App.Storage.activityProgress := Some (App.Parses [("yoga-1", 1 # 2)]);
          App.Storage.userPreferences := Some (App.Parses defaultPreferences) |};
     App.tick := 0%nat;
     App.sent := [] |}.

(** A session that is up, with an empty log and no activity under way. *)
Definition ready_world : App.World :=
  {| App.state :=
       {| App.State.sessionId := Some "session-1";
          App.State.preferences := defaultPreferences;
          App.State.activeActivity := None;
          App.State.activityHistory := [];
          App.State.isLoading := false;
          App.State.error := None;
          App.State.activityProgress := [];
          App.State.startTime := None;
          App.State.completedSteps := [] |};
     App.localStorage :=
       {| App.Storage.sessionId := Some "session-1";
          App.Storage.activityHistory := None;
          App.Storage.activityProgress := None;
          App.Storage.userPreferences := None |};
     App.tick := 0%nat;
     App.sent := [] |}.

Definition session_1 : SessionResponse.t :=
  {| SessionResponse.session_id := "session-1";
     SessionResponse.user_id := "user-1700000000000";
     SessionResponse.preferences := defaultPreferences;
     SessionResponse.activity_history := [] |}.

(** A clock that starts at 1700000000000 and moves one millisecond per
    interaction. *)
Definition clock (n : nat) : timestamp := 1700000000000 + Z.of_nat n.

Definition network_error {A} : App.response A :=
  App.Rejected (App.ErrorObj "Network Error").

(** A backend that answers every request; its catalogue holds [yoga]. *)
Definition steady : App.Backend :=
  {| App.now := clock;
     App.getSession := fun _ _ => App.Resolved session_1;
     App.createSession := fun _ _ => App.Resolved session_1;
     App.getActivity := fun _ activityId =>
       if String.eqb activityId "yoga-1" then App.Resolved (Some yoga)
       else App.Rejected (App.ErrorObj "Request failed with status code 404");
     App.completeActivityApi := fun _ _ _ _ _ => App.Resolved tt |}.

(** The same backend, whose catalogue stops answering after the first
    request. *)
Definition once : App.Backend :=
  {| App.now := clock;
     App.getSession := fun _ _ => App.Resolved session_1;
     App.createSession := fun _ _ => App.Resolved session_1;
     App.getActivity := fun n activityId =>
       if (n <? 1)%nat then App.getActivity steady n activityId else network_error;
     App.completeActivityApi := fun _ _ _ _ _ => App.Resolved tt |}.

(** No connection: every request is rejected. *)
Definition offline : App.Backend :=
  {| App.now := clock;
     App.getSession := fun _ _ => network_error;
     App.createSession := fun _ _ => network_error;
     App.getActivity := fun _ _ => network_error;
     App.completeActivityApi := fun _ _ _ _ _ => network_error |}.

(** The state a provider is left in by a call. *)
Definition state_after {A} (r : App.outcome A * App.World) : App.State.t :=
  App.state (snd r).

(** A callback, run on a heap where [r] holds [log], returns what the
    function [f] of the log gives and leaves every array that was on the
    heap as it was, the log among them. *)
Definition leaves_arrays {A} (run : Store.ref -> Store.St A)
           (f : list Item -> A) (h : Store.heap) (r : Store.ref) (log : list Item) : Prop :=
  fst (run r h) = f log
  /\ h ⊆ snd (run r h)
  /\ snd (run r h) !! r = Some log.

(** The key under which the category and the recommendation statistics
    file an item: the first word of its title. *)
Definition key (a : Item) : string :=
  JS.first_word (ActivityHistoryItem.activity_title a).

(** In the realm, a lookup of [k] in an empty dictionary finds nothing
    truthy: no object and no string. *)
Definition vacant (realm : Realm.t) (k : string) : bool :=
  match Realm.inherited realm k with
  | Some (Realm.Object _) | Some (Realm.Text _) => false
  | Some Realm.Not_a_number | None => true
  end.

(** [Object.prototype] carries no [lastActivity]. *)
Definition no_text (realm : Realm.t) : Prop :=
  Realm.lastActivity (Realm.on realm "__proto__") = None.

(** An engine that arranges by the same insertion whatever the
    comparator. *)
Definition insertion_engine : JS.Engine := {| JS.arrange := @JS.sort |}.

(** A log of two activities whose titles begin with property names. *)
Definition inherited_titles : list Item :=
  [ item "review-1" "lastActivity review" "Mindfulness" (noon 19000) true 300;
    item "stretch-2" "__proto__ stretch" "Physical" (noon 19001) true 600 ].

(** A log with an activity whose title begins with "constructor". *)
Definition constructor_title : list Item :=
  [ item "yoga-1" "Morning Yoga" "Physical" (noon 19000) true 600;
    item "build-1" "constructor yoga" "Physical" (noon 19001) true 600 ].

(** [r] is a start record of [activity]: not completed, with the id, the
    title and the category of the catalogue entry. *)
Definition start_record_of (activity : Activity.t) (r : Item) : Prop :=
  ActivityHistoryItem.activity_id r = Activity.id activity
  /\ ActivityHistoryItem.activity_title r = Activity.title activity
  /\ ActivityHistoryItem.category r = App.category_of activity
  /\ ActivityHistoryItem.completed r = false
  /\ ActivityHistoryItem.completed_at r = None.

(** One array on the heap: the three-day log behind reference 1. *)
Definition three_days_heap : Store.heap := {[ 1%positive := three_days ]}.
End Props.

(** ** The other operations of the provider *)

Module Provider.
Import JS App.
Abbreviation Item := ActivityHistoryItem.t.
Local Open Scope app_scope.

(** [await call] for a call of [services/api] that the request log of the
    world has no entry for: the clock of interactions moves, the promise
    resolves or rejects. *)
Definition call {A} (answer : nat -> App.response A) : App.M A :=
  fun w =>
    let w' := {| App.state := App.state w; App.localStorage := App.localStorage w;
                 App.tick := S (App.tick w); App.sent := App.sent w |} in
    match answer (App.tick w) with
    | App.Resolved a => (App.Returned a, w')
    | App.Rejected e => (App.Threw e, w')
    end.

(** [localStorage.setItem('activityHistory', JSON.stringify(history))] *)
Definition store_history (history : list Item) : App.M unit :=
  App.modify_storage (fun ls =>
    {| App.Storage.sessionId := App.Storage.sessionId ls;
       App.Storage.activityHistory := Some (App.Parses history);
       App.Storage.activityProgress := App.Storage.activityProgress ls;
       App.Storage.userPreferences := App.Storage.userPreferences ls |}).

(** [localStorage.setItem('activityProgress', JSON.stringify(progress))] *)
Definition store_progress (progress : Obj.t Q) : App.M unit :=
  App.modify_storage (fun ls =>
    {| App.Storage.sessionId := App.Storage.sessionId ls;
       App.Storage.activityHistory := App.Storage.activityHistory ls;
       App.Storage.activityProgress := Some (App.Parses progress);
       App.Storage.userPreferences := App.Storage.userPreferences ls |}).

(** [localStorage.setItem('userPreferences', JSON.stringify(preferences))] *)
Definition store_preferences (preferences : UserPreferences.t) : App.M unit :=
  App.modify_storage (fun ls =>
    {| App.Storage.sessionId := App.Storage.sessionId ls;
       App.Storage.activityHistory := App.Storage.activityHistory ls;
       App.Storage.activityProgress := App.Storage.activityProgress ls;
       App.Storage.userPreferences := Some (App.Parses preferences) |}).

(** The four [localStorage.removeItem] calls of [resetSession]. *)
Definition remove_items : App.M unit :=
  App.modify_storage (fun _ =>
    {| App.Storage.sessionId := None;
       App.Storage.activityHistory := None;
       App.Storage.activityProgress := None;
       App.Storage.userPreferences := None |}).

Definition clearError : App.M unit := App.setError None.

(** What [getActivityProgress] returns: the progress, or what the lookup
    found on the prototype when the progress map has no entry for the
    id. *)
Inductive progress_value : Type :=
| Progress (p : Q)
| Inherited (v : Realm.value).

(** [activityProgress[activityId] || 0]: zero and NaN are falsy. *)
Definition getActivityProgress (activityId : string) (s : App.State.t) (realm : Realm.t)
  : progress_value :=
  match Obj.get (App.State.activityProgress s) activityId with
  | Some progress => Progress (if Qzero progress then 0%Q else progress)
  | None =>
      match Realm.inherited realm activityId with
      | Some (Realm.Object host) => Inherited (Realm.Object host)
      | Some (Realm.Text t) => Inherited (Realm.Text t)
      | Some Realm.Not_a_number | None => Progress 0%Q
      end
  end.

(** [updateActivityProgress]: the updater builds [{...prev, [activityId]:
    progress}], writes it to local storage and returns it. *)
Definition updateActivityProgress (activityId : string) (progress : Q) : App.M unit :=
  s <- App.get_state ;;
  let updated := Obj.set (App.State.activityProgress s) activityId progress in
  store_progress updated ;;
  App.setActivityProgress updated.

Section Operations.
Variable backend : App.Backend.

(** [updatePreferences] of [services/api], answering at a given moment. *)
Variable updatePreferences : nat -> string -> UserPreferences.t -> App.response unit.

(** The property [activityHistory] of a session object as the backend sent
    it, when the object has one that is truthy.  (The declared type of the
    response names its history [activity_history]; the function reads
    [activityHistory].) *)
Variable activityHistory_of : SessionResponse.t -> option (list Item).

Definition refreshActivityHistory : App.M unit :=
  s <- App.get_state ;;
  match App.present (App.State.sessionId s) with
  | None => App.setError (Some "No active session")
  | Some sessionId =>
      App.finally
        (App.try_catch
           (App.setIsLoading true ;;
            session <- App.await (App.GetSession sessionId)
                                 (fun n => App.getSession backend n sessionId) ;;
            match activityHistory_of session with
            | Some history =>
                App.setActivityHistory (fun _ => history) ;;
                store_history history
            | None => App.ret tt
            end)
           (fun err =>
              App.setError
                (Some (App.message_or err "Failed to refresh activity history"))))
        (App.setIsLoading false)
  end.

Definition updateUserPreferences (newPreferences : UserPreferences.t) : App.M unit :=
  App.finally
    (App.try_catch
       (App.setIsLoading true ;;
        s <- App.get_state ;;
        match App.present (App.State.sessionId s) with
        | None => App.throw (App.ErrorObj "No active session")
        | Some sessionId =>
            call (fun n => updatePreferences n sessionId newPreferences) ;;
            App.setPreferences newPreferences ;;
            store_preferences newPreferences
        end)
       (fun err =>
          App.setError (Some (App.message_or err "Failed to update preferences"))))
    (App.setIsLoading false).

Definition resetSession : App.M unit :=
  App.finally
    (App.try_catch
       (App.setIsLoading true ;;
        remove_items ;;
        App.setSessionId None ;;
        App.setActivityHistory (fun _ => []) ;;
        App.setActivityProgress [] ;;
        App.setPreferences Props.defaultPreferences ;;
        App.setActiveActivity None ;;
        App.setStartTime None ;;
        App.setCompletedSteps [] ;;
        App.initializeSession backend)
       (fun err =>
          App.setError (Some (App.message_or err "Failed to reset session"))))
    (App.setIsLoading false).
End Operations.
End Provider.

(** ** Further notions used to state properties *)

Module Counts.
Import Props.
Abbreviation Item := ActivityHistoryItem.t.

(** The number of items of a log that satisfy [p]. *)
Definition count (p : Item -> bool) (log : list Item) : Z :=
  Analytics.len (List.filter p log).

(** The item falls into the bucket [k] of the category and recommendation
    statistics: [k] is the first word of its title. *)
Definition titled (k : string) (a : Item) : bool := String.eqb (key a) k.

(** The item has category [c]. *)
Definition in_category (c : string) (a : Item) : bool :=
  String.eqb (ActivityHistoryItem.category a) c.

(** The sum of the durations of the items that satisfy [p]. *)
Definition duration_of (p : Item -> bool) (log : list Item) : Z :=
  Analytics.sum_by ActivityHistoryItem.duration (List.filter p log).

(** The start time of the last item that satisfies [p], if there is one. *)
Definition last_start (p : Item -> bool) (log : list Item) : option timestamp :=
  match List.rev (List.filter p log) with
  | [] => None
  | a :: _ => Some (ActivityHistoryItem.start_time a)
  end.

(** The comparator that sorts in descending order of [key],
    [(a, b) => key(b) - key(a)], and the order it produces. *)
Definition desc {A} (key : A -> Z) (a b : A) : Z := key b - key a.
Definition not_below {A} (key : A -> Z) (a b : A) : Prop := key b <= key a.

(** The object of counters that a loop [counts[g(a)] = (counts[g(a)] || 0) + 1]
    over [l] leaves, starting from [o]. *)
Definition tallied (g : Item -> string) (l : list Item) (o : JS.Obj.t Z) : JS.Obj.t Z :=
  fold_left (fun counts a => Analytics.bump counts (g a)) l o.

(** What [startActivity] reports when the fetch of the activity does not
    deliver one: the message of the rejection, or "Activity not found" for
    an empty answer. *)
Definition fetch_failure (r : App.response (option Activity.t)) : option string :=
  match r with
  | App.Resolved (Some _) => None
  | App.Resolved None => Some "Activity not found"
  | App.Rejected e => Some (App.message_or e "Failed to start activity")
  end.

(** The value a key of local storage parses to, when the key is there and
    its text is well formed. *)
Definition parsed {A} (v : option (App.stored A)) : option A :=
  match v with
  | Some (App.Parses a) => Some a
  | _ => None
  end.

(** The key is absent or its text is well formed. *)
Definition readable {A} (v : option (App.stored A)) : Prop := v <> Some App.Corrupt.

(** A finite number between 0 and 100. *)
Definition percentage (x : JS.number) : Prop :=
  match x with
  | JS.Finite q => (0 <= q)%Q /\ (q <= 100)%Q
  | _ => False
  end.

(** [x] is a finite number within [2^-45] of [a / b * 100]: the ratio up
    to the rounding of the division and of the product. *)
Definition is_ratio_100 (x : JS.number) (a b : Z) : Prop :=
  match x with
  | JS.Finite q =>
      (Qabs (q - inject_Z a / inject_Z b * inject_Z 100) <= 1 # 35184372088832)%Q
  | _ => False
  end.

(** The turn of the loop of [getCategoryStats] on the dictionary, for an
    item whose key leads to a bucket of the dictionary. *)
Definition own_turn (categoryStats : JS.Obj.t CategoryStats.entry) (a : Item)
  : JS.Obj.t CategoryStats.entry :=
  JS.Obj.set categoryStats (key a)
    (Analytics.category_update
       (default Analytics.new_category (JS.Obj.get categoryStats (key a))) a).

(** The items whose key is no inherited name. *)
Definition filed (log : list Item) : list Item :=
  List.filter (fun a => negb (Realm.is_inherited (key a))) log.

(** No key of the dictionary is an inherited name. *)
Definition no_inherited_key {V} (o : JS.Obj.t V) : Prop :=
  forall k, Realm.is_inherited k = true -> JS.Obj.get o k = None.

(** The dictionary of numbers as [categoryCounts] holds it. *)
Definition as_counted (o : JS.Obj.t Z) : JS.Obj.t Analytics.counted :=
  List.map (fun e => (fst e, Analytics.Times (snd e))) o.
End Counts.

(** * Properties *)

Import Props Counts.

(** ** Sorting *)

Section SortFacts.
Context {A : Type} (cmp : A -> A -> Z).

Lemma insert_length (x : A) (l : list A) :
  List.length (JS.insert cmp x l) = S (List.length l).
Proof.
  induction l as [|y l IH]; simpl; [reflexivity|].
  destruct (cmp x y <=? 0); simpl; [reflexivity|].
  now rewrite IH.
Qed.

Lemma sort_length (l : list A) : List.length (JS.sort cmp l) = List.length l.
Proof.
  induction l as [|x l IH]; simpl; [reflexivity|].
  now rewrite insert_length, IH.
Qed.

Lemma insert_Forall (P : A -> Prop) (x : A) (l : list A) :
  P x -> Forall P l -> Forall P (JS.insert cmp x l).
Proof.
  intros Hx Hl. induction Hl as [|y l Hy Hl IH]; simpl.
  - now constructor.
  - destruct (cmp x y <=? 0); repeat constructor; assumption.
Qed.

Lemma sort_Forall (P : A -> Prop) (l : list A) :
  Forall P l -> Forall P (JS.sort cmp l).
Proof.
  induction 1 as [|x l Hx Hl IH]; simpl; [constructor|].
  now apply insert_Forall.
Qed.
End SortFacts.

(** Sorting in descending order of a key. *)

Lemma insert_perm {A} (cmp : A -> A -> Z) (x : A) (l : list A) :
  Permutation (JS.insert cmp x l) (x :: l).
Proof.
  induction l as [|y l IH]; simpl; [reflexivity|].
  destruct (cmp x y <=? 0); [reflexivity|].
  rewrite IH. apply perm_swap.
Qed.

Lemma sort_perm {A} (cmp : A -> A -> Z) (l : list A) :
  Permutation (JS.sort cmp l) l.
Proof.
  induction l as [|x l IH]; simpl; [reflexivity|].
  rewrite insert_perm. now constructor.
Qed.

Section Descending.
Context {A : Type} (key : A -> Z).

Lemma insert_desc_sorted (x : A) (l : list A) :
  StronglySorted (not_below key) l -> StronglySorted (not_below key) (JS.insert (desc key) x l).
Proof.
  induction 1 as [|y l Hl IH Hy]; simpl.
  - repeat constructor.
  - unfold desc at 1. destruct (Z.leb_spec (key y - key x) 0) as [Hle|Hgt].
    + constructor; [now constructor|].
      constructor; [unfold not_below; lia|].
      eapply Forall_impl; [exact Hy|]. unfold not_below. intros z Hz. lia.
    + constructor; [exact IH|].
      apply insert_Forall; [unfold not_below; lia | exact Hy].
Qed.

Lemma sort_desc_sorted (l : list A) : StronglySorted (not_below key) (JS.sort (desc key) l).
Proof.
  induction l as [|x l IH]; simpl; [constructor|].
  now apply insert_desc_sorted.
Qed.

(** The first element of the sorted array has the greatest key of all. *)
Lemma sort_desc_head (l : list A) (x : A) (rest : list A) :
  JS.sort (desc key) l = x :: rest -> In x l /\ List.Forall (fun y => key y <= key x) l.
Proof.
  intros Es.
  pose proof (sort_perm (desc key) l) as Hperm.
  pose proof (sort_desc_sorted l) as Hsorted.
  rewrite Es in Hperm, Hsorted.
  split.
  - eapply Permutation_in; [exact Hperm | now left].
  - apply StronglySorted_inv in Hsorted as [_ Hall].
    eapply Permutation_Forall; [exact Hperm|].
    constructor; [lia | exact Hall].
Qed.

Lemma map_key_sorted (l : list A) :
  StronglySorted (not_below key) l ->
  StronglySorted (fun s t : Z => t <= s) (List.map key l).
Proof.
  induction 1 as [|a l Hl IH Ha]; simpl; constructor; [exact IH|].
  apply List.Forall_map. exact Ha.
Qed.

(** Sorting two arrangements of the same elements gives the same sequence
    of keys. *)
Lemma sort_desc_keys_perm (l1 l2 : list A) :
  Permutation l1 l2 ->
  List.map key (JS.sort (desc key) l1) = List.map key (JS.sort (desc key) l2).
Proof.
  intros Hperm.
  assert (Hanti : AntiSymm eq (fun s t : Z => t <= s)) by (intros s t Hst Hts; lia).
  apply (StronglySorted_unique (fun s t : Z => t <= s)).
  - apply map_key_sorted, sort_desc_sorted.
  - apply map_key_sorted, sort_desc_sorted.
  - apply Permutation_map.
    rewrite (sort_perm (desc key) l1), (sort_perm (desc key) l2). exact Hperm.
Qed.
End Descending.

(** ** Doubles *)

Section Doubles.
Import JS.
Local Open Scope Q_scope.

Lemma pow2_pos (e : Z) : 0 < pow2 e.
Proof. apply Qpower_0_lt. reflexivity. Qed.

Lemma pow2_add (a b : Z) : pow2 (a + b) == pow2 a * pow2 b.
Proof. apply Qpower_plus. discriminate. Qed.

Lemma pow2_le (a b : Z) : (a <= b)%Z -> pow2 a <= pow2 b.
Proof. intros H. apply Qpower_le_compat_l; [exact H | discriminate]. Qed.

Lemma pow2_lt (a b : Z) : (a < b)%Z -> pow2 a < pow2 b.
Proof. intros H. apply Qpower_lt_compat_l; [exact H | reflexivity]. Qed.

Lemma pow2_lt_inv (a b : Z) : pow2 a < pow2 b -> (a < b)%Z.
Proof. intros H. apply (Qpower_lt_compat_l_inv 2); [exact H | reflexivity]. Qed.

Lemma pow2_cancel (e : Z) : pow2 (- e) * pow2 e == 1.
Proof. rewrite <- pow2_add. now replace (- e + e)%Z with 0%Z by lia. Qed.

Lemma pow2_Z (n : Z) : (0 <= n)%Z -> pow2 n == inject_Z (2 ^ n).
Proof. intros H. unfold pow2. now rewrite Zpower_Qpower. Qed.

(** The binade of a positive number. *)
Lemma binade_spec (a : Q) : 0 < a -> pow2 (binade a) <= a /\ a < pow2 (binade a + 1).
Proof.
  intros Ha. destruct a as [n d]. unfold binade. cbn [Qnum Qden].
  assert (Hn : (0 < n)%Z) by (unfold Qlt in Ha; simpl in Ha; lia).
  pose proof (Z.log2_spec n Hn) as [Hn1 Hn2].
  pose proof (Z.log2_spec (Z.pos d) ltac:(lia)) as [Hd1 Hd2].
  pose proof (Z.log2_nonneg n) as Hln.
  pose proof (Z.log2_nonneg (Z.pos d)) as Hld.
  set (ln := Z.log2 n) in *. set (ld := Z.log2 (Z.pos d)) in *.
  assert (Hlow : pow2 (ln - ld - 1) <= n # d).
  { apply Qmult_le_r with (z := pow2 (ld + 1)); [apply pow2_pos|].
    rewrite <- pow2_add. replace (ln - ld - 1 + (ld + 1))%Z with ln by lia.
    rewrite !pow2_Z by lia. unfold Qle, Qmult, inject_Z. simpl.
    rewrite Z.mul_1_r, Pos.mul_1_r. unfold Z.succ in *. nia. }
  assert (Hhigh : (n # d) < pow2 (ln - ld + 1)).
  { apply Qmult_lt_r with (z := pow2 ld); [apply pow2_pos|].
    rewrite <- pow2_add. replace (ln - ld + 1 + ld)%Z with (ln + 1)%Z by lia.
    rewrite !pow2_Z by lia. unfold Qlt, Qmult, inject_Z. simpl.
    rewrite Z.mul_1_r, Pos.mul_1_r. unfold Z.succ in *. nia. }
  destruct (Qle_bool (pow2 (ln - ld)) (n # d)) eqn:E.
  - apply Qle_bool_iff in E. split; assumption.
  - split; [exact Hlow|].
    replace (ln - ld - 1 + 1)%Z with (ln - ld)%Z by lia.
    apply Qnot_le_lt. intros H. apply Qle_bool_iff in H. congruence.
Qed.

Lemma binade_le (a b : Q) : 0 < a -> a <= b -> (binade a <= binade b)%Z.
Proof.
  intros Ha Hab.
  destruct (binade_spec a Ha) as [Ha1 _].
  destruct (binade_spec b ltac:(lra)) as [_ Hb2].
  assert (H : pow2 (binade a) < pow2 (binade b + 1)) by lra.
  apply pow2_lt_inv in H. lia.
Qed.

Lemma ulp_exponent_le (a b : Q) : 0 < a -> a <= b -> (ulp_exponent a <= ulp_exponent b)%Z.
Proof. intros Ha Hab. unfold ulp_exponent. pose proof (binade_le a b Ha Hab). lia. Qed.

(** Rounding to the nearest integer, halves to the even one. *)
Lemma round_half_even_cases (x : Q) :
  let f := Qfloor x in
  (round_half_even x = f /\ x - inject_Z f <= 1 # 2)
  \/ (round_half_even x = (f + 1)%Z /\ 1 # 2 <= x - inject_Z f).
Proof.
  cbv zeta. unfold round_half_even.
  destruct (Qcompare_spec (x - inject_Z (Qfloor x)) (1 # 2)) as [E|E|E].
  - destruct (Z.even (Qfloor x)); [left | right]; split; try reflexivity; lra.
  - left. split; [reflexivity | lra].
  - right. split; [reflexivity | lra].
Qed.

Lemma floor_bounds (x : Q) : inject_Z (Qfloor x) <= x /\ x < inject_Z (Qfloor x) + 1.
Proof.
  split; [apply Qfloor_le|].
  pose proof (Qlt_floor x) as H. rewrite inject_Z_plus in H. exact H.
Qed.

Lemma round_half_even_near (x : Q) :
  inject_Z (round_half_even x) - (1 # 2) <= x /\ x <= inject_Z (round_half_even x) + (1 # 2).
Proof.
  pose proof (floor_bounds x) as [Hf1 Hf2].
  destruct (round_half_even_cases x) as [[-> H]|[-> H]];
    rewrite ?inject_Z_plus; change (inject_Z 1) with 1; split; lra.
Qed.

Lemma round_half_even_Z (z : Z) : round_half_even (inject_Z z) = z.
Proof.
  unfold round_half_even. rewrite Qfloor_Z.
  destruct (Qcompare_spec (inject_Z z - inject_Z z) (1 # 2)) as [E|E|E]; try reflexivity; lra.
Qed.

Lemma round_half_even_mono (x y : Q) : x <= y -> (round_half_even x <= round_half_even y)%Z.
Proof.
  intros Hxy.
  pose proof (Qfloor_resp_le x y Hxy) as Hf.
  pose proof (floor_bounds x) as [Hx1 Hx2].
  pose proof (floor_bounds y) as [Hy1 Hy2].
  destruct (Z.eq_dec (Qfloor x) (Qfloor y)) as [E|Hne].
  - unfold round_half_even. rewrite E.
    destruct (Qcompare_spec (x - inject_Z (Qfloor y)) (1 # 2)) as [Ex|Ex|Ex];
      destruct (Qcompare_spec (y - inject_Z (Qfloor y)) (1 # 2)) as [Ey|Ey|Ey];
      try lia; try (exfalso; lra); destruct (Z.even (Qfloor y)); try lia; exfalso; lra.
  - assert (Hlt : (Qfloor x + 1 <= Qfloor y)%Z) by lia.
    destruct (round_half_even_cases x) as [[-> _]|[-> _]];
      destruct (round_half_even_cases y) as [[-> _]|[-> _]]; lia.
Qed.

Lemma round_half_even_nonneg (x : Q) : 0 <= x -> (0 <= round_half_even x)%Z.
Proof.
  intros H. rewrite <- (round_half_even_Z 0). now apply round_half_even_mono.
Qed.

(** ** Rounding a positive rational to a double *)

Lemma nearest_pos_nonneg (a : Q) : 0 < a -> 0 <= nearest_pos a.
Proof.
  intros Ha. unfold nearest_pos.
  apply Qmult_le_0_compat; [|apply Qlt_le_weak, pow2_pos].
  change 0 with (inject_Z 0). rewrite <- Zle_Qle. apply round_half_even_nonneg.
  apply Qmult_le_0_compat; [lra | apply Qlt_le_weak, pow2_pos].
Qed.

(** The scaled significand lies between [2^52] (for a normal number) and
    [2^53]. *)
Lemma scaled_upper (a : Q) :
  0 < a -> a * pow2 (- ulp_exponent a) < pow2 53.
Proof.
  intros Ha. destruct (binade_spec a Ha) as [_ H2].
  apply Qmult_lt_r with (z := pow2 (ulp_exponent a)); [apply pow2_pos|].
  rewrite <- Qmult_assoc, pow2_cancel, Qmult_1_r, <- pow2_add.
  eapply Qlt_le_trans; [exact H2|]. apply pow2_le. unfold ulp_exponent. lia.
Qed.

Lemma scaled_lower (a : Q) :
  0 < a -> (-1074 < ulp_exponent a)%Z -> pow2 52 <= a * pow2 (- ulp_exponent a).
Proof.
  intros Ha He. destruct (binade_spec a Ha) as [H1 _].
  apply Qmult_le_r with (z := pow2 (ulp_exponent a)); [apply pow2_pos|].
  rewrite <- Qmult_assoc, pow2_cancel, Qmult_1_r, <- pow2_add.
  eapply Qle_trans; [|exact H1]. apply pow2_le. unfold ulp_exponent in *. lia.
Qed.

Lemma nearest_pos_mono (a b : Q) : 0 < a -> a <= b -> nearest_pos a <= nearest_pos b.
Proof.
  intros Ha Hab.
  assert (Hb : 0 < b) by lra.
  pose proof (ulp_exponent_le a b Ha Hab) as He.
  unfold nearest_pos.
  destruct (Z.eq_dec (ulp_exponent a) (ulp_exponent b)) as [E|Hne].
  - rewrite E. apply Qmult_le_compat_r; [|apply Qlt_le_weak, pow2_pos].
    rewrite <- Zle_Qle. apply round_half_even_mono.
    apply Qmult_le_compat_r; [exact Hab | apply Qlt_le_weak, pow2_pos].
  - assert (Hlt : (ulp_exponent a + 1 <= ulp_exponent b)%Z) by lia.
    assert (Ha53 : (round_half_even (a * pow2 (- ulp_exponent a)) <= 2 ^ 53)%Z).
    { rewrite <- (round_half_even_Z (2 ^ 53)). apply round_half_even_mono.
      rewrite <- pow2_Z by lia. apply Qlt_le_weak, scaled_upper, Ha. }
    assert (Hb52 : (2 ^ 52 <= round_half_even (b * pow2 (- ulp_exponent b)))%Z).
    { rewrite <- (round_half_even_Z (2 ^ 52)). apply round_half_even_mono.
      rewrite <- pow2_Z by lia. apply scaled_lower; [exact Hb|].
      unfold ulp_exponent in *. lia. }
    apply Qle_trans with (inject_Z (2 ^ 53) * pow2 (ulp_exponent a)).
    { apply Qmult_le_compat_r; [now rewrite <- Zle_Qle | apply Qlt_le_weak, pow2_pos]. }
    apply Qle_trans with (inject_Z (2 ^ 52) * pow2 (ulp_exponent b)).
    2:{ apply Qmult_le_compat_r; [now rewrite <- Zle_Qle | apply Qlt_le_weak, pow2_pos]. }
    rewrite <- !pow2_Z by lia. rewrite <- !pow2_add. apply pow2_le. lia.
Qed.

(** A double is within half a unit in the last place. *)
Lemma nearest_pos_error (a : Q) (B : Z) :
  0 < a -> a < pow2 (B + 1) ->
  Qabs (nearest_pos a - a) <= pow2 (Z.max (B - 52) (-1074) - 1).
Proof.
  intros Ha HB.
  assert (Hbin : (binade a <= B)%Z).
  { destruct (binade_spec a Ha) as [H1 _].
    assert (H : pow2 (binade a) < pow2 (B + 1)) by lra.
    apply pow2_lt_inv in H. lia. }
  set (e := ulp_exponent a).
  apply Qle_trans with (pow2 (e - 1)); [|apply pow2_le; unfold e, ulp_exponent; lia].
  unfold nearest_pos. fold e.
  set (s := a * pow2 (- e)).
  pose proof (round_half_even_near s) as [H1 H2].
  set (m := inject_Z (round_half_even s)) in *.
  assert (Ea : a == s * pow2 e)
    by (unfold s; rewrite <- Qmult_assoc, pow2_cancel; ring).
  assert (Eh : pow2 (e - 1) == (1 # 2) * pow2 e).
  { replace (e - 1)%Z with (-1 + e)%Z by lia. rewrite pow2_add. reflexivity. }
  pose proof (pow2_pos e) as Hp.
  assert (Hlo : 0 <= (m - s + (1 # 2)) * pow2 e)
    by (apply Qmult_le_0_compat; lra).
  assert (Hhi : 0 <= ((1 # 2) - (m - s)) * pow2 e)
    by (apply Qmult_le_0_compat; lra).
  assert (Ed : m * pow2 e - a == (m - s) * pow2 e) by (rewrite Ea; ring).
  apply Qabs_Qle_condition. rewrite Eh, Ed.
  split; lra.
Qed.

Lemma round_half_even_Qeq (x y : Q) : x == y -> round_half_even x = round_half_even y.
Proof.
  intros E. unfold round_half_even. rewrite (Qfloor_comp x y E).
  assert (Ec : (x - inject_Z (Qfloor y) ?= 1 # 2) = (y - inject_Z (Qfloor y) ?= 1 # 2)).
  { apply Qcompare_comp; [|reflexivity]. apply Qplus_comp; [exact E | reflexivity]. }
  now rewrite Ec.
Qed.

(** ** The double nearest to a rational that is not negative *)

Lemma nearest_Qeq (p q : Q) : p == q -> nearest p = nearest q.
Proof. intros E. unfold nearest. now rewrite (Qred_complete _ _ E). Qed.

Lemma nearest_of_pos (q : Q) : 0 < q -> nearest q = Qred (nearest_pos (Qred q)).
Proof.
  intros Hq. unfold nearest.
  assert (H : 0 < Qred q) by now rewrite Qred_correct.
  unfold Qlt in H. simpl in H. rewrite Z.mul_1_r in H.
  destruct (Qnum (Qred q)); [lia | reflexivity | lia].
Qed.

Lemma nearest_of_zero (q : Q) : q == 0 -> nearest q = 0.
Proof. intros E. now rewrite (nearest_Qeq q 0 E). Qed.

Lemma nearest_nonneg (a : Q) : 0 <= a -> 0 <= nearest a.
Proof.
  intros Ha. destruct (Qle_lt_or_eq _ _ Ha) as [Hpos|E].
  - rewrite (nearest_of_pos a Hpos), (Qred_correct (nearest_pos (Qred a))).
    apply nearest_pos_nonneg. now rewrite (Qred_correct a).
  - rewrite (nearest_of_zero a); [apply Qle_refl | now symmetry].
Qed.

Lemma nearest_mono (a b : Q) : 0 <= a -> a <= b -> nearest a <= nearest b.
Proof.
  intros Ha Hab. destruct (Qle_lt_or_eq _ _ Ha) as [Hpos|E].
  - rewrite (nearest_of_pos a Hpos), (nearest_of_pos b) by lra.
    rewrite (Qred_correct (nearest_pos (Qred a))), (Qred_correct (nearest_pos (Qred b))).
    apply nearest_pos_mono; rewrite ?(Qred_correct a), ?(Qred_correct b); assumption.
  - rewrite (nearest_of_zero a) by now symmetry.
    apply nearest_nonneg. lra.
Qed.

Lemma nearest_error (a : Q) (B : Z) :
  0 <= a -> a < pow2 (B + 1) ->
  Qabs (nearest a - a) <= pow2 (Z.max (B - 52) (-1074) - 1).
Proof.
  intros Ha HB. destruct (Qle_lt_or_eq _ _ Ha) as [Hpos|E].
  - rewrite (nearest_of_pos a Hpos), (Qred_correct (nearest_pos (Qred a))).
    assert (E : nearest_pos (Qred a) - a == nearest_pos (Qred a) - Qred a)
      by (apply Qplus_comp; [reflexivity | apply Qopp_comp; symmetry; apply Qred_correct]).
    rewrite E.
    apply nearest_pos_error; rewrite (Qred_correct a); assumption.
  - rewrite (nearest_of_zero a) by now symmetry.
    rewrite <- E. apply Qlt_le_weak, pow2_pos.
Qed.

(** A significand below [2^53] with an exponent of at least -1074 is a
    double. *)
Lemma nearest_exact (z k : Z) :
  (0 <= z < 2 ^ 53)%Z -> (-1074 <= k)%Z ->
  nearest (inject_Z z * pow2 k) == inject_Z z * pow2 k.
Proof.
  intros Hz Hk. destruct (Z.eq_dec z 0%Z) as [->|Hne].
  - rewrite nearest_of_zero; ring.
  - pose proof (pow2_pos k) as Hp.
    assert (Hz' : 0 < inject_Z z)
      by (change 0 with (inject_Z 0); rewrite <- Zlt_Qlt; lia).
    assert (Hpos : 0 < inject_Z z * pow2 k) by (apply Qmult_lt_0_compat; assumption).
    rewrite (nearest_of_pos _ Hpos),
      (Qred_correct (nearest_pos (Qred (inject_Z z * pow2 k)))).
    set (a := Qred (inject_Z z * pow2 k)).
    assert (Ea : a == inject_Z z * pow2 k) by apply Qred_correct.
    assert (Ha : 0 < a) by now rewrite Ea.
    assert (He : (ulp_exponent a <= k)%Z).
    { destruct (binade_spec a Ha) as [H1 _].
      assert (H : pow2 (binade a) < pow2 (53 + k)).
      { eapply Qle_lt_trans; [exact H1|]. rewrite Ea, pow2_add.
        apply Qmult_lt_compat_r; [exact Hp|].
        rewrite pow2_Z by lia. rewrite <- Zlt_Qlt. lia. }
      apply pow2_lt_inv in H. unfold ulp_exponent. lia. }
    unfold nearest_pos. set (e := ulp_exponent a) in *.
    assert (Es : a * pow2 (- e) == inject_Z (z * 2 ^ (k - e))).
    { rewrite Ea, inject_Z_mult, <- pow2_Z by lia.
      replace (k - e)%Z with (k + - e)%Z by lia. rewrite pow2_add. ring. }
    rewrite (round_half_even_Qeq _ _ Es), round_half_even_Z.
    rewrite inject_Z_mult, <- pow2_Z by lia.
    rewrite <- Qmult_assoc, <- pow2_add.
    now replace (k - e + e)%Z with k by lia.
Qed.

Lemma nearest_Z (z : Z) : (0 <= z < 2 ^ 53)%Z -> nearest (inject_Z z) == inject_Z z.
Proof.
  intros Hz. rewrite (nearest_Qeq (inject_Z z) (inject_Z z * pow2 0)) by (unfold pow2; simpl; ring).
  rewrite nearest_exact by lia. unfold pow2. simpl. ring.
Qed.

Lemma Qneg_Qeq (p q : Q) : p == q -> Qneg p = Qneg q.
Proof.
  unfold Qeq, Qneg. intros E.
  destruct (Z.ltb_spec (Qnum p) 0), (Z.ltb_spec (Qnum q) 0); try reflexivity; nia.
Qed.

Lemma double_Qeq (p q : Q) : p == q -> double p = double q.
Proof. intros E. unfold double. now rewrite (nearest_Qeq p q E), (Qneg_Qeq p q E). Qed.

(** A rational between zero and a double below [2^1024] rounds to a
    double in the same range. *)
Lemma double_bounded (q c : Q) :
  0 <= q -> q <= c -> nearest c == c -> c < pow2 1024 ->
  double q = Finite (nearest q) /\ 0 <= nearest q /\ nearest q <= c.
Proof.
  intros Hq Hqc Ec Hc.
  pose proof (nearest_nonneg q Hq) as Hn.
  pose proof (nearest_mono q c Hq Hqc) as Hm. rewrite Ec in Hm.
  split; [|split; assumption].
  unfold double. cbv zeta.
  destruct (Qle_bool (pow2 1024) (Qabs (nearest q))) eqn:E; [|reflexivity].
  apply Qle_bool_iff in E. rewrite Qabs_pos in E by exact Hn. lra.
Qed.

(** The percentage of [a] in [b], two counters: its value is a double
    between 0 and 100, within [2^-45] of the exact ratio. *)
Lemma percentage_of_counters (a b : Z) :
  (0 <= a <= b)%Z -> (0 < b)%Z ->
  exists x y,
    div (of_Z a) (of_Z b) = Finite x /\ 0 <= x /\ x <= 1
    /\ mul (Finite x) (of_Z 100) = Finite y /\ 0 <= y /\ y <= 100
    /\ Qabs (y - inject_Z a / inject_Z b * inject_Z 100) <= 1 # 35184372088832.
Proof.
  intros Hab Hb.
  assert (Hb' : 0 < inject_Z b)
    by (change 0 with (inject_Z 0); rewrite <- Zlt_Qlt; lia).
  assert (Ha' : 0 <= inject_Z a)
    by (change 0 with (inject_Z 0); rewrite <- Zle_Qle; lia).
  assert (Hab' : inject_Z a <= inject_Z b) by (rewrite <- Zle_Qle; lia).
  set (r := inject_Z a / inject_Z b).
  assert (Hr0 : 0 <= r).
  { unfold r. apply Qle_shift_div_l; [exact Hb'|]. lra. }
  assert (Hr1 : r <= 1).
  { unfold r. apply Qle_shift_div_r; [exact Hb'|]. lra. }
  destruct (double_bounded r 1 Hr0 Hr1) as (Ex & Hx0 & Hx1);
    [reflexivity | vm_compute; reflexivity |].
  set (x := nearest r) in *.
  assert (Hs0 : 0 <= x * inject_Z 100) by (apply Qmult_le_0_compat; [lra | discriminate]).
  assert (Hs1 : x * inject_Z 100 <= 100).
  { change 100 with (1 * inject_Z 100). apply Qmult_le_compat_r; [exact Hx1 | discriminate]. }
  destruct (double_bounded (x * inject_Z 100) 100 Hs0 Hs1) as (Ey & Hy0 & Hy1);
    [reflexivity | vm_compute; reflexivity |].
  exists x, (nearest (x * inject_Z 100)).
  split.
  { unfold div, of_Z, Qzero. cbn [Qnum inject_Z].
    destruct (Z.eqb_spec b 0) as [|_]; [lia | exact Ex]. }
  split; [exact Hx0|]. split; [exact Hx1|].
  split; [exact Ey|]. split; [exact Hy0|]. split; [exact Hy1|].
  pose proof (nearest_error r 0 Hr0 ltac:(apply Qle_lt_trans with 1; [exact Hr1 | reflexivity]))
    as Herr1.
  pose proof (nearest_error (x * inject_Z 100) 6 Hs0
                ltac:(apply Qle_lt_trans with 100; [exact Hs1 | reflexivity])) as Herr2.
  fold x in Herr1.
  change (pow2 (Z.max (0 - 52) (-1074) - 1)) with (pow2 (-53)) in Herr1.
  change (pow2 (Z.max (6 - 52) (-1074) - 1)) with (pow2 (-47)) in Herr2.
  apply Qabs_Qle_condition in Herr1 as [H1 H2].
  apply Qabs_Qle_condition in Herr2 as [H3 H4].
  assert (E53 : pow2 (-53) == 1 # 9007199254740992) by reflexivity.
  assert (E47 : pow2 (-47) == 1 # 140737488355328) by reflexivity.
  rewrite E53 in H1, H2. rewrite E47 in H3, H4.
  change (inject_Z 100) with 100 in *.
  apply Qabs_Qle_condition. split; lra.
Qed.
End Doubles.

(** ** The streak loop *)

Lemma ms_per_day_pos : 0 < MS_PER_DAY.
Proof. reflexivity. Qed.

(** A date that falls at most one calendar day after another passes the test
    [dayDiff <= 1] against it. *)
Lemma next_day_close (s t : timestamp) :
  calendar_day s <= calendar_day t + 1 -> (s - t) / MS_PER_DAY <= 1.
Proof.
  unfold calendar_day. intros Hst.
  pose proof ms_per_day_pos as Hpos.
  pose proof (Z.div_mod s MS_PER_DAY ltac:(lia)) as Es.
  pose proof (Z.div_mod t MS_PER_DAY ltac:(lia)) as Et.
  pose proof (Z.mod_pos_bound s MS_PER_DAY Hpos) as Bs.
  pose proof (Z.mod_pos_bound t MS_PER_DAY Hpos) as Bt.
  assert ((s - t) / MS_PER_DAY < 2); [|lia].
  apply Z.div_lt_upper_bound; [assumption|].
  assert (MS_PER_DAY * (s / MS_PER_DAY) <= MS_PER_DAY * (t / MS_PER_DAY + 1))
    by (apply Z.mul_le_mono_nonneg_l; lia).
  lia.
Qed.

(** Two dates of one calendar day pass the test, whichever comes first. *)
Lemma same_day_close (d s t : timestamp) :
  calendar_day s = d -> calendar_day t = d -> (s - t) / MS_PER_DAY <= 1.
Proof. intros Hs Ht. apply next_day_close. lia. Qed.

(** The calendar day is monotone in the date. *)
Lemma earlier_day_earlier_date (s t : timestamp) :
  calendar_day s < calendar_day t -> s < t.
Proof.
  unfold calendar_day. intros Hst.
  pose proof ms_per_day_pos as Hpos.
  destruct (Z.lt_ge_cases s t) as [|Hge]; [assumption|].
  pose proof (Z.div_le_mono t s MS_PER_DAY Hpos Hge). lia.
Qed.

Lemma all_on_day_close_run (d prev : timestamp) (l : list Item) :
  calendar_day prev = d -> all_on_day d l -> close_run prev l.
Proof.
  intros Hprev Hl. revert prev Hprev.
  induction Hl as [|a l Ha Hl IH]; intros prev Hprev; simpl; [exact I|].
  split; [eapply same_day_close; eassumption | now apply IH].
Qed.

(** Along a close run the loop adds one to both counters at every item. *)
Lemma streak_turns_close_run (l : list Item) (v : Analytics.Loop.t) :
  Analytics.Loop.longestStreak v = Analytics.Loop.currentStreak v ->
  close_run (Analytics.Loop.previousDate v) l ->
  let v' := fold_left Analytics.streak_turn l v in
  Analytics.Loop.currentStreak v' = Analytics.Loop.currentStreak v + Analytics.len l
  /\ Analytics.Loop.longestStreak v' = Analytics.Loop.currentStreak v'.
Proof.
  revert v. induction l as [|a l IH]; intros v Heq Hrun; simpl.
  - unfold Analytics.len; simpl. split; [lia | assumption].
  - destruct Hrun as [Hclose Hrun].
    assert (Hturn : Analytics.streak_turn v a
                    = {| Analytics.Loop.currentStreak := Analytics.Loop.currentStreak v + 1;
                         Analytics.Loop.longestStreak := Analytics.Loop.currentStreak v + 1;
                         Analytics.Loop.streakStartDate :=
                           Some (ActivityHistoryItem.start_time a);
                         Analytics.Loop.previousDate := ActivityHistoryItem.start_time a |}).
    { unfold Analytics.streak_turn.
      apply Z.leb_le in Hclose. rewrite Hclose.
      assert (Hgt : (Analytics.Loop.currentStreak v + 1 >? Analytics.Loop.longestStreak v) = true)
        by (apply Z.gtb_lt; lia).
      now rewrite Hgt. }
    rewrite Hturn.
    match goal with
    | |- context [fold_left _ l ?v1] => specialize (IH v1 eq_refl Hrun)
    end.
    simpl in IH. destruct IH as [IHc IHl]. split; [|assumption].
    rewrite IHc. unfold Analytics.len. simpl List.length. lia.
Qed.

(** A log sorted into a close run yields a streak of as many days as it has
    items. *)
Lemma streak_of_close_run (a : Item) (l : list Item) :
  close_run (ActivityHistoryItem.start_time a) (a :: l) ->
  StreakInfo.currentStreak (Analytics.streak_of_sorted (a :: l)) = Analytics.len (a :: l)
  /\ StreakInfo.longestStreak (Analytics.streak_of_sorted (a :: l)) = Analytics.len (a :: l).
Proof.
  intros Hrun. unfold Analytics.streak_of_sorted.
  set (v0 := {| Analytics.Loop.currentStreak := 0;
                Analytics.Loop.longestStreak := 0;
                Analytics.Loop.streakStartDate := None;
                Analytics.Loop.previousDate := ActivityHistoryItem.start_time a |}).
  destruct (streak_turns_close_run (a :: l) v0 eq_refl Hrun) as [Hc Hl].
  cbn [StreakInfo.currentStreak StreakInfo.longestStreak].
  rewrite Hl, Hc. simpl Analytics.Loop.currentStreak. lia.
Qed.

(** C10.  Whatever the log, [getStreakInfo] returns the empty array as
    [streakHistory]: the field is initialised to [[]] and no statement of
    the function adds to it. *)
Theorem getStreakInfo_streakHistory_empty (activityHistory : list Item) :
  StreakInfo.streakHistory (Analytics.getStreakInfo activityHistory) = [].
Proof.
  unfold Analytics.getStreakInfo, Analytics.streak_of_sorted.
  destruct (JS.sort Analytics.newest_first activityHistory); reflexivity.
Qed.

(** C4.  The streak loop does not set same-day items apart: for a log whose
    items were all started on one calendar day, [currentStreak] and
    [longestStreak] both equal the number of items, so [n] activities on a
    single day are reported as a streak of [n], where the specification
    counts that day once. *)
Theorem same_day_items_inflate_streak (d : Z) (activityHistory : list Item) :
  all_on_day d activityHistory ->
  StreakInfo.currentStreak (Analytics.getStreakInfo activityHistory)
    = Analytics.len activityHistory
  /\ StreakInfo.longestStreak (Analytics.getStreakInfo activityHistory)
    = Analytics.len activityHistory.
Proof.
  intros Hday. unfold Analytics.getStreakInfo.
  pose proof (sort_Forall Analytics.newest_first _ _ Hday) as Hsorted.
  pose proof (sort_length Analytics.newest_first activityHistory) as Hlen.
  destruct (JS.sort Analytics.newest_first activityHistory) as [|a l] eqn:Es.
  - destruct activityHistory; [split; reflexivity | discriminate].
  - assert (Hrun : close_run (ActivityHistoryItem.start_time a) (a :: l)).
    { apply (all_on_day_close_run d); [|exact Hsorted].
      now inversion Hsorted. }
    destruct (streak_of_close_run a l Hrun) as [Hc Hl].
    rewrite Hc, Hl. unfold Analytics.len. rewrite Hlen. split; reflexivity.
Qed.

Lemma same_day_items_inflate_streak_witness :
  all_on_day 19000 twice_a_day
  /\ StreakInfo.currentStreak (Analytics.getStreakInfo twice_a_day) = 2
  /\ StreakInfo.longestStreak (Analytics.getStreakInfo twice_a_day) = 2.
Proof.
  assert (H : all_on_day 19000 twice_a_day) by (repeat constructor).
  split; [exact H|].
  exact (same_day_items_inflate_streak 19000 twice_a_day H).
Defined.

(** X26.  One activity on each of three consecutive calendar days, logged in
    that order, yields [currentStreak = 3] and [longestStreak = 3], at
    whatever time of day each was started. *)
Lemma three_consecutive_days_streak (d : Z) (a b c : Item) :
  calendar_day (ActivityHistoryItem.start_time a) = d ->
  calendar_day (ActivityHistoryItem.start_time b) = d + 1 ->
  calendar_day (ActivityHistoryItem.start_time c) = d + 2 ->
  StreakInfo.currentStreak (Analytics.getStreakInfo [a; b; c]) = 3
  /\ StreakInfo.longestStreak (Analytics.getStreakInfo [a; b; c]) = 3.
Proof.
  intros Ha Hb Hc.
  assert (Hab : ActivityHistoryItem.start_time a < ActivityHistoryItem.start_time b)
    by (apply earlier_day_earlier_date; lia).
  assert (Hbc : ActivityHistoryItem.start_time b < ActivityHistoryItem.start_time c)
    by (apply earlier_day_earlier_date; lia).
  assert (Es : JS.sort Analytics.newest_first [a; b; c] = [c; b; a]).
  { unfold JS.sort, Analytics.newest_first. simpl.
    destruct (Z.leb_spec (ActivityHistoryItem.start_time c - ActivityHistoryItem.start_time b) 0);
      [lia|].
    simpl.
    destruct (Z.leb_spec (ActivityHistoryItem.start_time c - ActivityHistoryItem.start_time a) 0);
      [lia|].
    simpl.
    destruct (Z.leb_spec (ActivityHistoryItem.start_time b - ActivityHistoryItem.start_time a) 0);
      [lia|].
    reflexivity. }
  unfold Analytics.getStreakInfo. rewrite Es.
  apply (streak_of_close_run c [b; a]).
  simpl. repeat split; apply next_day_close; lia.
Qed.

Lemma three_consecutive_days_streak_witness :
  StreakInfo.currentStreak (Analytics.getStreakInfo three_days) = 3
  /\ StreakInfo.longestStreak (Analytics.getStreakInfo three_days) = 3.
Proof.
  unfold three_days.
  apply (three_consecutive_days_streak 19000); vm_compute; reflexivity.
Defined.

(** C3.  On the three-day log [getStreakInfo] reports [currentStreak = 3].
    After a further activity on the fifth day the loop, which walks from
    the newest item to the oldest, does reset the counter at the gap but
    then counts the three older days again: the function returns
    [currentStreak = 3], not 1, with [longestStreak = 3].  When the gap is
    shorter than 48 hours on the clock (23:50 of the third day, 00:10 of
    the fifth) the test [dayDiff <= 1] sees no gap at all and both
    counters reach 4. *)
Theorem streak_after_gap_is_not_reset :
  StreakInfo.currentStreak (Analytics.getStreakInfo three_days) = 3
  /\ Analytics.getStreakInfo three_days_then_gap
     = {| StreakInfo.currentStreak := 3;
          StreakInfo.longestStreak := 3;
          StreakInfo.lastActivityDate := Some (noon 19004);
          StreakInfo.streakStartDate := Some (noon 19000);
          StreakInfo.streakHistory := [] |}
  /\ StreakInfo.currentStreak (Analytics.getStreakInfo late_then_early) = 4
  /\ StreakInfo.longestStreak (Analytics.getStreakInfo late_then_early) = 4.
Proof. repeat split; vm_compute; reflexivity. Qed.

Lemma newest_first_desc :
  Analytics.newest_first = desc ActivityHistoryItem.start_time.
Proof. reflexivity. Qed.

(** The first turn of the loop, at the newest item itself. *)
Lemma streak_first_turn (a : Item) :
  Analytics.streak_turn
    {| Analytics.Loop.currentStreak := 0;
       Analytics.Loop.longestStreak := 0;
       Analytics.Loop.streakStartDate := None;
       Analytics.Loop.previousDate := ActivityHistoryItem.start_time a |} a
  = {| Analytics.Loop.currentStreak := 1;
       Analytics.Loop.longestStreak := 1;
       Analytics.Loop.streakStartDate := Some (ActivityHistoryItem.start_time a);
       Analytics.Loop.previousDate := ActivityHistoryItem.start_time a |}.
Proof.
  unfold Analytics.streak_turn. cbn [Analytics.Loop.previousDate].
  rewrite Z.sub_diag, Z.div_0_l by (pose proof ms_per_day_pos; lia).
  reflexivity.
Qed.

Lemma streak_turn_bounds (v : Analytics.Loop.t) (a : Item) (n : Z) :
  1 <= Analytics.Loop.currentStreak v <= Analytics.Loop.longestStreak v ->
  Analytics.Loop.longestStreak v <= n ->
  1 <= Analytics.Loop.currentStreak (Analytics.streak_turn v a)
    <= Analytics.Loop.longestStreak (Analytics.streak_turn v a)
  /\ Analytics.Loop.longestStreak (Analytics.streak_turn v a) <= n + 1.
Proof.
  intros Hcur Hlong. unfold Analytics.streak_turn.
  destruct (_ <=? 1); [|cbn; lia].
  destruct (Z.gtb_spec (Analytics.Loop.currentStreak v + 1) (Analytics.Loop.longestStreak v));
    cbn; lia.
Qed.

Lemma streak_turns_bounds (l : list Item) (v : Analytics.Loop.t) (n : Z) :
  1 <= Analytics.Loop.currentStreak v <= Analytics.Loop.longestStreak v ->
  Analytics.Loop.longestStreak v <= n ->
  1 <= Analytics.Loop.currentStreak (fold_left Analytics.streak_turn l v)
    <= Analytics.Loop.longestStreak (fold_left Analytics.streak_turn l v)
  /\ Analytics.Loop.longestStreak (fold_left Analytics.streak_turn l v)
     <= n + Analytics.len l.
Proof.
  revert v n. induction l as [|a l IH]; intros v n Hcur Hlong; simpl.
  - unfold Analytics.len. simpl. lia.
  - destruct (streak_turn_bounds v a n Hcur Hlong) as [Hc Hl].
    destruct (IH _ (n + 1) Hc Hl) as [Hc' Hl'].
    split; [exact Hc'|].
    unfold Analytics.len in *. simpl List.length. lia.
Qed.

(** X1.  The two counters of [getStreakInfo] are ordered and bounded by the
    size of the log: [currentStreak <= longestStreak <= length], and
    [currentStreak] is at least 1 as soon as the log has an item. *)
Theorem getStreakInfo_bounds (activityHistory : list Item) :
  Z.min 1 (Analytics.len activityHistory)
    <= StreakInfo.currentStreak (Analytics.getStreakInfo activityHistory)
    <= StreakInfo.longestStreak (Analytics.getStreakInfo activityHistory)
  /\ StreakInfo.longestStreak (Analytics.getStreakInfo activityHistory)
     <= Analytics.len activityHistory.
Proof.
  unfold Analytics.getStreakInfo.
  pose proof (sort_length Analytics.newest_first activityHistory) as Hlen.
  destruct (JS.sort Analytics.newest_first activityHistory) as [|a l].
  - destruct activityHistory; [|discriminate].
    unfold Analytics.streak_of_sorted, Analytics.len. simpl. lia.
  - unfold Analytics.streak_of_sorted.
    cbn [fold_left StreakInfo.currentStreak StreakInfo.longestStreak].
    rewrite streak_first_turn.
    match goal with
    | |- context [fold_left _ l ?v] =>
        destruct (streak_turns_bounds l v 1 ltac:(cbn; lia) ltac:(cbn; lia)) as [Hc Hl]
    end.
    unfold Analytics.len in *. rewrite <- Hlen. simpl List.length. lia.
Qed.

(** The date the loop keeps in [streakStartDate] is the start of an item it
    has gone through. *)
Lemma streak_turns_start_date (l : list Item) (v : Analytics.Loop.t) (seen : list Item) :
  (exists b, In b seen
             /\ Analytics.Loop.streakStartDate v = Some (ActivityHistoryItem.start_time b)) ->
  exists b, In b (seen ++ l)
            /\ Analytics.Loop.streakStartDate (fold_left Analytics.streak_turn l v)
               = Some (ActivityHistoryItem.start_time b).
Proof.
  revert v seen. induction l as [|a l IH]; intros v seen (b & Hb & Hv); simpl.
  - exists b. rewrite app_nil_r. now split.
  - replace (seen ++ a :: l) with ((seen ++ [a]) ++ l) by now rewrite <- app_assoc.
    apply IH. unfold Analytics.streak_turn.
    destruct (_ <=? 1); [destruct (_ >? _)|]; cbn.
    + exists a. split; [apply in_or_app; right; now left | reflexivity].
    + exists b. split; [apply in_or_app; now left | exact Hv].
    + exists b. split; [apply in_or_app; now left | exact Hv].
Qed.

(** X2.  Whatever the order of the log, [lastActivityDate] is the latest
    start time in it, and [streakStartDate] is the start time of one of its
    items; both are null exactly on the empty log. *)
Theorem getStreakInfo_dates (activityHistory : list Item) :
  match StreakInfo.lastActivityDate (Analytics.getStreakInfo activityHistory) with
  | None =>
      activityHistory = []
      /\ StreakInfo.streakStartDate (Analytics.getStreakInfo activityHistory) = None
  | Some latest =>
      (exists a, In a activityHistory /\ ActivityHistoryItem.start_time a = latest)
      /\ List.Forall (fun a => ActivityHistoryItem.start_time a <= latest) activityHistory
      /\ exists b, In b activityHistory
                   /\ StreakInfo.streakStartDate (Analytics.getStreakInfo activityHistory)
                      = Some (ActivityHistoryItem.start_time b)
  end.
Proof.
  unfold Analytics.getStreakInfo. rewrite newest_first_desc.
  pose proof (sort_perm (desc ActivityHistoryItem.start_time) activityHistory) as Hperm.
  destruct (JS.sort (desc ActivityHistoryItem.start_time) activityHistory) as [|a l] eqn:Es.
  - apply Permutation_nil in Hperm. subst. cbn. split; reflexivity.
  - destruct (sort_desc_head ActivityHistoryItem.start_time _ _ _ Es) as [Hin Hmax].
    unfold Analytics.streak_of_sorted.
    cbn [fold_left StreakInfo.lastActivityDate StreakInfo.streakStartDate].
    rewrite streak_first_turn.
    split; [exists a; now split|]. split; [exact Hmax|].
    match goal with
    | |- context [fold_left _ l ?v] =>
        destruct (streak_turns_start_date l v [a]) as (b & Hb & Hstart);
          [exists a; split; [now left | reflexivity]|]
    end.
    exists b. split; [|exact Hstart].
    eapply Permutation_in; [exact Hperm | exact Hb].
Qed.

Lemma streak_turn_ext (v : Analytics.Loop.t) (a b : Item) :
  ActivityHistoryItem.start_time a = ActivityHistoryItem.start_time b ->
  Analytics.streak_turn v a = Analytics.streak_turn v b.
Proof. intros E. unfold Analytics.streak_turn. now rewrite E. Qed.

Lemma streak_of_sorted_ext (l1 l2 : list Item) :
  List.map ActivityHistoryItem.start_time l1 = List.map ActivityHistoryItem.start_time l2 ->
  Analytics.streak_of_sorted l1 = Analytics.streak_of_sorted l2.
Proof.
  assert (Hfold : forall l1 l2 v,
             List.map ActivityHistoryItem.start_time l1
             = List.map ActivityHistoryItem.start_time l2 ->
             fold_left Analytics.streak_turn l1 v = fold_left Analytics.streak_turn l2 v).
  { clear. induction l1 as [|a l1 IH]; intros [|b l2] v E; try discriminate; [reflexivity|].
    simpl in E. injection E as Eab E. simpl.
    rewrite (streak_turn_ext v a b Eab). now apply IH. }
  intros E. destruct l1 as [|a l1], l2 as [|b l2]; try discriminate; [reflexivity|].
  unfold Analytics.streak_of_sorted.
  rewrite (Hfold _ _ _ E). simpl in E. injection E as Eab _. now rewrite Eab.
Qed.

(** X3.  [getStreakInfo] does not depend on the order in which the log
    lists its items: two logs with the same items give the same result. *)
Theorem getStreakInfo_order_independent (log1 log2 : list Item) :
  Permutation log1 log2 ->
  Analytics.getStreakInfo log1 = Analytics.getStreakInfo log2.
Proof.
  intros Hperm. unfold Analytics.getStreakInfo.
  apply streak_of_sorted_ext. rewrite newest_first_desc.
  now apply sort_desc_keys_perm.
Qed.

Lemma getStreakInfo_order_independent_witness :
  Permutation (List.rev three_days_then_gap) three_days_then_gap
  /\ Analytics.getStreakInfo (List.rev three_days_then_gap)
     = Analytics.getStreakInfo three_days_then_gap.
Proof.
  assert (H : Permutation (List.rev three_days_then_gap) three_days_then_gap)
    by (symmetry; apply Permutation_rev).
  split; [exact H|].
  exact (getStreakInfo_order_independent _ _ H).
Defined.

(** ** Objects used as dictionaries *)

Lemma obj_get_set_same {V} (o : JS.Obj.t V) (k : string) (v : V) :
  JS.Obj.get (JS.Obj.set o k v) k = Some v.
Proof.
  induction o as [|[k' v'] o IH]; simpl.
  - now rewrite String.eqb_refl.
  - destruct (String.eqb k' k) eqn:E; simpl.
    + now rewrite String.eqb_refl.
    + now rewrite E.
Qed.

Lemma obj_get_set {V} (o : JS.Obj.t V) (k c : string) (v : V) :
  JS.Obj.get (JS.Obj.set o k v) c = if String.eqb k c then Some v else JS.Obj.get o c.
Proof.
  induction o as [|[k' v'] o IH]; simpl; [reflexivity|].
  destruct (String.eqb_spec k' k) as [->|Hne]; simpl.
  - destruct (String.eqb k c); reflexivity.
  - rewrite IH. destruct (String.eqb_spec k' c) as [->|Hne'].
    + destruct (String.eqb_spec k c) as [->|_]; [congruence | reflexivity].
    + reflexivity.
Qed.

Lemma obj_get_In {V} (o : JS.Obj.t V) (k : string) (v : V) :
  JS.Obj.get o k = Some v -> In (k, v) o.
Proof.
  induction o as [|[k' v'] o IH]; simpl; [discriminate|].
  destruct (String.eqb_spec k' k) as [->|Hne].
  - intros [= ->]. now left.
  - intros H. right. now apply IH.
Qed.

Lemma obj_set_keys {V} (o : JS.Obj.t V) (k : string) (v : V) :
  List.map fst (JS.Obj.set o k v) = List.map fst o
  \/ (~ In k (List.map fst o) /\ List.map fst (JS.Obj.set o k v) = List.map fst o ++ [k]).
Proof.
  induction o as [|[k' v'] o IH]; simpl.
  - right. split; [tauto | reflexivity].
  - destruct (String.eqb_spec k' k) as [->|Hne]; simpl; [now left|].
    destruct IH as [IH|[Hnot IH]].
    + left. now rewrite IH.
    + right. split; [intros [?|?]; [congruence | tauto] | now rewrite IH].
Qed.

Lemma obj_set_NoDup {V} (o : JS.Obj.t V) (k : string) (v : V) :
  List.NoDup (List.map fst o) -> List.NoDup (List.map fst (JS.Obj.set o k v)).
Proof.
  intros Hnd. destruct (obj_set_keys o k v) as [E|[Hnot E]]; rewrite E; [exact Hnd|].
  apply List.NoDup_app; [exact Hnd | repeat constructor; simpl; tauto |].
  intros x Hx [<-|[]]. contradiction.
Qed.

Lemma obj_In_get {V} (o : JS.Obj.t V) (k : string) (v : V) :
  List.NoDup (List.map fst o) -> In (k, v) o -> JS.Obj.get o k = Some v.
Proof.
  induction o as [|[k' v'] o IH]; simpl; [tauto|].
  intros Hnd [[= -> ->]|Hin].
  - now rewrite String.eqb_refl.
  - inversion Hnd as [|? ? Hnot Hnd']; subst.
    destruct (String.eqb_spec k' k) as [->|Hne]; [|now apply IH].
    exfalso. apply Hnot. change k with (fst (k, v)). now apply in_map.
Qed.

Lemma filter_split_perm {A} (p : A -> bool) (l : list A) :
  Permutation (List.filter p l ++ List.filter (fun x => negb (p x)) l) l.
Proof.
  induction l as [|x l IH]; simpl; [reflexivity|].
  destruct (p x); simpl.
  - now constructor.
  - rewrite <- Permutation_middle. now constructor.
Qed.

(** [Object.entries] lists every property of the object once. *)
Lemma entries_perm {V} (o : JS.Obj.t V) : Permutation (JS.Obj.entries o) o.
Proof.
  unfold JS.Obj.entries. rewrite sort_perm. apply filter_split_perm.
Qed.

(** ** Counting by key *)

Section Tally.
Context (g : Item -> string).

Lemma count_nonneg (p : Item -> bool) (l : list Item) : 0 <= count p l.
Proof. unfold count, Analytics.len. lia. Qed.

Lemma count_cons (p : Item -> bool) (a : Item) (l : list Item) :
  count p (a :: l) = (if p a then 1 else 0) + count p l.
Proof.
  unfold count, Analytics.len. simpl. destruct (p a); simpl List.length; lia.
Qed.

Lemma tallied_get (l : list Item) (o : JS.Obj.t Z) (c : string) :
  JS.Obj.get (tallied g l o) c
  = if count (fun a => String.eqb (g a) c) l =? 0 then JS.Obj.get o c
    else Some (default 0 (JS.Obj.get o c) + count (fun a => String.eqb (g a) c) l).
Proof.
  revert o. induction l as [|a l IH]; intros o; [reflexivity|].
  unfold tallied in *. simpl fold_left. rewrite IH, count_cons.
  unfold Analytics.bump. rewrite obj_get_set.
  pose proof (count_nonneg (fun a => String.eqb (g a) c) l) as Hpos.
  destruct (String.eqb_spec (g a) c) as [->|Hne].
  - cbn [default].
    destruct (Z.eqb_spec (count (fun a0 => String.eqb (g a0) c) l) 0) as [E|E];
      destruct (Z.eqb_spec (1 + count (fun a0 => String.eqb (g a0) c) l) 0); try lia.
    + rewrite E. apply f_equal. unfold id. lia.
    + apply f_equal. unfold id. lia.
  - reflexivity.
Qed.

Lemma tallied_NoDup (l : list Item) (o : JS.Obj.t Z) :
  List.NoDup (List.map fst o) -> List.NoDup (List.map fst (tallied g l o)).
Proof.
  revert o. induction l as [|a l IH]; intros o Hnd; [exact Hnd|].
  apply IH. now apply obj_set_NoDup.
Qed.

(** The key [most_counted] picks is one that no other key outnumbers. *)
Lemma most_counted_max (l : list Item) (fallback : string) :
  match l with
  | [] => Analytics.most_counted (tallied g l []) fallback = fallback
  | _ :: _ =>
      exists top,
        Analytics.most_counted (tallied g l []) fallback = JS.or_else top fallback
        /\ 0 < count (fun a => String.eqb (g a) top) l
        /\ forall c, count (fun a => String.eqb (g a) c) l
                     <= count (fun a => String.eqb (g a) top) l
  end.
Proof.
  destruct l as [|a0 l0]; [reflexivity|].
  set (l := a0 :: l0).
  assert (Hget : forall c, JS.Obj.get (tallied g l []) c
                           = if count (fun a => String.eqb (g a) c) l =? 0 then None
                             else Some (count (fun a => String.eqb (g a) c) l))
    by (intros c; rewrite tallied_get; reflexivity).
  pose proof (tallied_NoDup l [] (List.NoDup_nil _)) as Hnd.
  pose proof (entries_perm (tallied g l [])) as Hperm.
  unfold Analytics.most_counted.
  change (fun a b : string * Z => snd b - snd a) with (desc (@snd string Z)).
  destruct (JS.sort (desc snd) (JS.Obj.entries (tallied g l []))) as [|[top n] rest] eqn:Es.
  - exfalso.
    pose proof (sort_perm (desc snd) (JS.Obj.entries (tallied g l []))) as Hs.
    rewrite Es in Hs. apply Permutation_nil in Hs. rewrite Hs in Hperm.
    apply Permutation_nil in Hperm.
    specialize (Hget (g a0)). rewrite Hperm in Hget. subst l.
    rewrite count_cons, String.eqb_refl in Hget.
    pose proof (count_nonneg (fun a => String.eqb (g a) (g a0)) l0).
    destruct (Z.eqb_spec (1 + count (fun a => String.eqb (g a) (g a0)) l0) 0);
      [lia | discriminate].
  - destruct (sort_desc_head snd _ _ _ Es) as [Hin Hmax]. cbn [snd] in Hmax.
    assert (Htop : JS.Obj.get (tallied g l []) top = Some n).
    { apply obj_In_get; [exact Hnd|]. eapply Permutation_in; eassumption. }
    rewrite Hget in Htop.
    pose proof (count_nonneg (fun a => String.eqb (g a) top) l).
    destruct (Z.eqb_spec (count (fun a => String.eqb (g a) top) l) 0); [discriminate|].
    injection Htop as <-.
    exists top. split; [reflexivity|]. split; [lia|].
    intros c. specialize (Hget c).
    destruct (Z.eqb_spec (count (fun a => String.eqb (g a) c) l) 0) as [->|Hc]; [lia|].
    apply obj_get_In in Hget.
    rewrite List.Forall_forall in Hmax.
    apply (Hmax (c, count (fun a => String.eqb (g a) c) l)).
    eapply Permutation_in; [symmetry; exact Hperm | exact Hget].
Qed.
End Tally.

(** ** Ratios of counters *)

(** [a / b * 100] for counters [0 <= a <= b], [b] not zero: a finite number
    between 0 and 100, the ratio up to rounding. *)
Lemma ratio_100_percentage (a b : Z) :
  0 <= a <= b -> 0 < b ->
  percentage (JS.mul (JS.div (JS.of_Z a) (JS.of_Z b)) (JS.of_Z 100))
  /\ is_ratio_100 (JS.mul (JS.div (JS.of_Z a) (JS.of_Z b)) (JS.of_Z 100)) a b.
Proof.
  intros Hab Hb.
  destruct (percentage_of_counters a b Hab Hb) as (x & y & Ex & _ & _ & Ey & Hy0 & Hy1 & Herr).
  rewrite Ex, Ey. split; [split; assumption | exact Herr].
Qed.

(** [n / n * 100] is exactly 100. *)
Lemma ratio_100_full (n : Z) :
  0 < n -> JS.mul (JS.div (JS.of_Z n) (JS.of_Z n)) (JS.of_Z 100) = JS.of_Z 100.
Proof.
  intros Hn. unfold JS.of_Z, JS.div, JS.Qzero. cbn [Qnum inject_Z].
  destruct (Z.eqb_spec n 0) as [|_]; [lia|].
  rewrite (double_Qeq (inject_Z n / inject_Z n) 1).
  - vm_compute. reflexivity.
  - apply Qmult_inv_r. unfold Qeq, inject_Z. simpl. lia.
Qed.

(** ** Aggregates of the empty log *)

(** C1.  On the empty log four of the five callbacks return their zero or
    empty aggregate, two of them through the guard [length ? ... : 0].
    [getRecommendationStats] has no such guard: it divides zero accepted
    by zero total recommendations, and its [recommendationAccuracy] is
    NaN, not 0.  None of them throws or touches the realm. *)
Theorem empty_log_recommendation_accuracy_is_NaN `{DateAPI} `{JS.Engine} (realm : Realm.t) :
  Analytics.getStreakInfo []
  = {| StreakInfo.currentStreak := 0;
       StreakInfo.longestStreak := 0;
       StreakInfo.lastActivityDate := None;
       StreakInfo.streakStartDate := None;
       StreakInfo.streakHistory := [] |}
  /\ Analytics.getActivityStats [] realm
     = {| ActivityStats.totalActivities := 0;
          ActivityStats.completedActivities := 0;
          ActivityStats.totalDuration := 0;
          ActivityStats.averageDuration := JS.of_Z 0;
          ActivityStats.mostFrequentCategory := "None";
          ActivityStats.completionRate := JS.of_Z 0;
          ActivityStats.longestStreak := 0;
          ActivityStats.currentStreak := 0;
          ActivityStats.totalPoints := 0;
          ActivityStats.averagePointsPerActivity := JS.of_Z 0 |}
  /\ Analytics.getCategoryStats [] realm
     = (JS.Normal {| CategoryStats.categories := [];
                     CategoryStats.mostFrequentCategory := "None";
                     CategoryStats.leastFrequentCategory := "None";
                     CategoryStats.categoryDistribution := [] |},
        realm)
  /\ Analytics.getTimeBasedStats []
     = {| TimeBasedStats.dailyStats := [];
          TimeBasedStats.weeklyStats := [];
          TimeBasedStats.monthlyStats := [];
          TimeBasedStats.bestTimeOfDay := "unknown";
          TimeBasedStats.mostActiveDay := "unknown" |}
  /\ Analytics.getRecommendationStats [] realm
     = (JS.Normal {| RecommendationStats.totalRecommendations := 0;
                     RecommendationStats.acceptedRecommendations := 0;
                     RecommendationStats.recommendationAccuracy := JS.NaN;
                     RecommendationStats.categoryPreferences := [];
                     RecommendationStats.timeBasedPreferences := [] |},
        realm)
  /\ option_map RecommendationStats.recommendationAccuracy
       (Realm.returned (Analytics.getRecommendationStats [] realm))
     <> Some (JS.of_Z 0).
Proof.
  repeat split; try reflexivity.
  cbn. discriminate.
Qed.

(** ** Activity statistics *)

Lemma len_filter_le {A} (p : A -> bool) (l : list A) :
  0 <= Analytics.len (List.filter p l) <= Analytics.len l.
Proof.
  unfold Analytics.len. pose proof (List.filter_length_le p l). lia.
Qed.

(** X4.  [completionRate] of [getActivityStats] is 0 on the empty log and
    otherwise (completed items / items) * 100 as doubles compute it, a
    finite number within [2^-45] of the exact ratio; in both cases it lies
    between 0 and 100. *)
Theorem getActivityStats_completionRate `{JS.Engine} (activityHistory : list Item)
        (realm : Realm.t) :
  percentage (ActivityStats.completionRate (Analytics.getActivityStats activityHistory realm))
  /\ match activityHistory with
     | [] =>
         ActivityStats.completionRate (Analytics.getActivityStats activityHistory realm)
         = JS.of_Z 0
     | _ :: _ =>
         is_ratio_100
           (ActivityStats.completionRate (Analytics.getActivityStats activityHistory realm))
           (count ActivityHistoryItem.completed activityHistory)
           (Analytics.len activityHistory)
     end.
Proof.
  unfold Analytics.getActivityStats, Analytics.activity_stats_of.
  cbn [ActivityStats.completionRate].
  destruct activityHistory as [|a l].
  - cbn. split; [split; discriminate | reflexivity].
  - set (log := a :: l).
    assert (Hpos : 0 < Analytics.len log)
      by (unfold Analytics.len, log; simpl List.length; lia).
    destruct (Z.eqb_spec (Analytics.len log) 0) as [|_]; [lia|].
    apply ratio_100_percentage; [apply len_filter_le | exact Hpos].
Qed.

(** X5.  When every item of a log that is not empty is completed,
    [completionRate] is exactly 100. *)
Theorem getActivityStats_all_completed `{JS.Engine} (activityHistory : list Item)
        (realm : Realm.t) :
  activityHistory <> [] ->
  forallb ActivityHistoryItem.completed activityHistory = true ->
  ActivityStats.completionRate (Analytics.getActivityStats activityHistory realm)
  = JS.of_Z 100.
Proof.
  intros Hne Hall.
  unfold Analytics.getActivityStats, Analytics.activity_stats_of.
  cbn [ActivityStats.completionRate].
  assert (Hfilter : List.filter ActivityHistoryItem.completed activityHistory
                    = activityHistory).
  { clear Hne. induction activityHistory as [|a l IH]; [reflexivity|].
    simpl in Hall. apply andb_prop in Hall as [Ha Hl].
    simpl. rewrite Ha. now rewrite IH. }
  rewrite Hfilter.
  assert (Hpos : 0 < Analytics.len activityHistory).
  { destruct activityHistory; [congruence|].
    unfold Analytics.len. simpl List.length. lia. }
  destruct (Z.eqb_spec (Analytics.len activityHistory) 0) as [|_]; [lia|].
  now apply ratio_100_full.
Qed.

Lemma getActivityStats_all_completed_witness :
  three_days <> []
  /\ forallb ActivityHistoryItem.completed three_days = true
  /\ ActivityStats.completionRate
       (@Analytics.getActivityStats insertion_engine three_days Realm.pristine)
     = JS.of_Z 100.
Proof.
  assert (Hne : three_days <> []) by discriminate.
  split; [exact Hne|]. split; [reflexivity|].
  exact (@getActivityStats_all_completed insertion_engine three_days Realm.pristine
           Hne eq_refl).
Defined.

(** The dictionary of [getActivityStats] while every category it meets
    leads to nothing truthy on the prototype: a dictionary of numbers. *)
Lemma as_counted_get (o : JS.Obj.t Z) (k : string) :
  JS.Obj.get (as_counted o) k = option_map Analytics.Times (JS.Obj.get o k).
Proof.
  induction o as [|[k' v] o IH]; simpl; [reflexivity|].
  destruct (String.eqb k' k); [reflexivity | exact IH].
Qed.

Lemma as_counted_set (o : JS.Obj.t Z) (k : string) (v : Z) :
  JS.Obj.set (as_counted o) k (Analytics.Times v) = as_counted (JS.Obj.set o k v).
Proof.
  induction o as [|[k' v'] o IH]; simpl; [reflexivity|].
  destruct (String.eqb k' k); simpl; [reflexivity | now rewrite IH].
Qed.

Lemma count_category_vacant (realm : Realm.t) (o : JS.Obj.t Z) (k : string) :
  vacant realm k = true ->
  Analytics.count_category realm (as_counted o) k = as_counted (Analytics.bump o k).
Proof.
  intros Hv. unfold Analytics.count_category, Realm.lookup, Analytics.bump.
  rewrite as_counted_get. destruct (JS.Obj.get o k) as [n|]; simpl.
  - apply as_counted_set.
  - unfold vacant in Hv.
    destruct (Realm.inherited realm k) as [[host| |t]|]; try discriminate;
      apply as_counted_set.
Qed.

Lemma tallied_counted (g : Item -> string) (realm : Realm.t) (l : list Item) :
  forall o,
    Forall (fun a => vacant realm (g a) = true) l ->
    fold_left (fun counts a => Analytics.count_category realm counts (g a)) l (as_counted o)
    = as_counted (tallied g l o).
Proof.
  induction l as [|a l IH]; intros o Hl; [reflexivity|].
  inversion Hl as [|? ? Ha Hl']; subst. simpl.
  rewrite (count_category_vacant realm o (g a) Ha). now apply IH.
Qed.

Lemma insert_map {A B} (f : A -> B) (cmp : A -> A -> Z) (cmp' : B -> B -> Z) :
  (forall a b, cmp' (f a) (f b) = cmp a b) ->
  forall x l, JS.insert cmp' (f x) (List.map f l) = List.map f (JS.insert cmp x l).
Proof.
  intros Hcmp x l. induction l as [|y l IH]; simpl; [reflexivity|].
  rewrite Hcmp. destruct (cmp x y <=? 0); simpl; [reflexivity | now rewrite IH].
Qed.

Lemma sort_map {A B} (f : A -> B) (cmp : A -> A -> Z) (cmp' : B -> B -> Z) :
  (forall a b, cmp' (f a) (f b) = cmp a b) ->
  forall l, JS.sort cmp' (List.map f l) = List.map f (JS.sort cmp l).
Proof.
  intros Hcmp l. induction l as [|x l IH]; simpl; [reflexivity|].
  rewrite IH. now apply insert_map.
Qed.

Lemma filter_map_key {A B} (f : A -> B) (p : A -> bool) (q : B -> bool) :
  (forall a, q (f a) = p a) ->
  forall l, List.filter q (List.map f l) = List.map f (List.filter p l).
Proof.
  intros Hpq l. induction l as [|x l IH]; simpl; [reflexivity|].
  rewrite Hpq. destruct (p x); simpl; now rewrite IH.
Qed.

Lemma entries_counted (o : JS.Obj.t Z) :
  JS.Obj.entries (as_counted o) = as_counted (JS.Obj.entries o).
Proof.
  unfold JS.Obj.entries, as_counted.
  rewrite List.map_app. f_equal.
  - rewrite (filter_map_key _ JS.Obj.is_index) by reflexivity.
    now apply sort_map.
  - now apply filter_map_key.
Qed.

Lemma numbers_counted (l : list (string * Z)) :
  Analytics.numbers (as_counted l) = List.map snd l.
Proof. induction l as [|[k n] l IH]; simpl; [reflexivity | now rewrite IH]. Qed.

Lemma most_frequent_counted `{JS.Engine} (o : JS.Obj.t Z) (fallback : string) :
  Analytics.most_frequent (as_counted o) fallback = Analytics.most_counted o fallback.
Proof.
  unfold Analytics.most_frequent, Analytics.most_counted.
  rewrite entries_counted.
  assert (Hc : Analytics.consistent (as_counted (JS.Obj.entries o)) = true).
  { unfold Analytics.consistent. rewrite numbers_counted.
    unfold as_counted. rewrite !List.length_map, Nat.eqb_refl. reflexivity. }
  rewrite Hc.
  unfold as_counted at 1.
  rewrite (sort_map _ (fun a b : string * Z => snd b - snd a)) by reflexivity.
  destruct (JS.sort _ (JS.Obj.entries o)) as [|[k n] rest]; reflexivity.
Qed.

(** X6.  While no completed item has a category that leads to an object or
    a string on the prototype, [mostFrequentCategory] of [getActivityStats]
    is "None" when no item is completed; otherwise it names a category
    that has at least one completed item and that no category exceeds in
    completed items (the empty category name is shown as "None"). *)
Theorem getActivityStats_mostFrequentCategory `{JS.Engine} (activityHistory : list Item)
        (realm : Realm.t) :
  Forall (fun a => ActivityHistoryItem.completed a = true ->
                   vacant realm (ActivityHistoryItem.category a) = true) activityHistory ->
  match List.filter ActivityHistoryItem.completed activityHistory with
  | [] =>
      ActivityStats.mostFrequentCategory (Analytics.getActivityStats activityHistory realm)
      = "None"
  | completedActivities =>
      exists top,
        ActivityStats.mostFrequentCategory (Analytics.getActivityStats activityHistory realm)
        = JS.or_else top "None"
        /\ 0 < count (in_category top) completedActivities
        /\ forall c, count (in_category c) completedActivities
                     <= count (in_category top) completedActivities
  end.
Proof.
  intros Hvacant.
  unfold Analytics.getActivityStats, Analytics.activity_stats_of.
  cbn [ActivityStats.mostFrequentCategory].
  assert (Hcompleted : Forall (fun a => vacant realm (ActivityHistoryItem.category a) = true)
                              (List.filter ActivityHistoryItem.completed activityHistory)).
  { apply List.Forall_forall. intros a Ha. apply List.filter_In in Ha as [Hin Hc].
    rewrite List.Forall_forall in Hvacant. now apply Hvacant. }
  change (@nil (string * Analytics.counted)) with (as_counted []).
  rewrite (tallied_counted ActivityHistoryItem.category realm _ [] Hcompleted).
  rewrite most_frequent_counted.
  pose proof (most_counted_max ActivityHistoryItem.category
                (List.filter ActivityHistoryItem.completed activityHistory) "None") as Hmax.
  destruct (List.filter ActivityHistoryItem.completed activityHistory); exact Hmax.
Qed.

Lemma getActivityStats_mostFrequentCategory_witness :
  Forall (fun a => ActivityHistoryItem.completed a = true ->
                   vacant Realm.pristine (ActivityHistoryItem.category a) = true)
         category_scenario
  /\ ActivityStats.mostFrequentCategory
       (@Analytics.getActivityStats insertion_engine category_scenario Realm.pristine)
     = "Physical"
  /\ exists top,
       JS.or_else top "None" = "Physical"
       /\ forall c, count (in_category c)
                          (List.filter ActivityHistoryItem.completed category_scenario)
                    <= count (in_category top)
                             (List.filter ActivityHistoryItem.completed category_scenario).
Proof.
  assert (Hv : Forall (fun a => ActivityHistoryItem.completed a = true ->
                                vacant Realm.pristine (ActivityHistoryItem.category a) = true)
                      category_scenario)
    by (repeat constructor).
  split; [exact Hv|]. split; [vm_compute; reflexivity|].
  pose proof (@getActivityStats_mostFrequentCategory insertion_engine category_scenario
                Realm.pristine Hv) as H.
  cbn [List.filter category_scenario item ActivityHistoryItem.completed] in H.
  destruct H as (top & Htop & _ & Hmax).
  exists top. split; [|exact Hmax].
  rewrite <- Htop. vm_compute. reflexivity.
Defined.

(** ** Category statistics *)

Lemma count_snoc (p : Item -> bool) (l : list Item) (a : Item) :
  count p (l ++ [a]) = count p l + (if p a then 1 else 0).
Proof.
  unfold count, Analytics.len. rewrite List.filter_app, List.length_app. simpl.
  destruct (p a); simpl List.length; lia.
Qed.

Lemma duration_of_snoc (p : Item -> bool) (l : list Item) (a : Item) :
  duration_of p (l ++ [a])
  = duration_of p l + (if p a then ActivityHistoryItem.duration a else 0).
Proof.
  unfold duration_of, Analytics.sum_by. rewrite List.filter_app, fold_left_app. simpl.
  destruct (p a); simpl; lia.
Qed.

Lemma last_start_snoc (p : Item -> bool) (l : list Item) (a : Item) :
  last_start p (l ++ [a])
  = if p a then Some (ActivityHistoryItem.start_time a) else last_start p l.
Proof.
  unfold last_start. rewrite List.filter_app. simpl.
  destruct (p a); [|now rewrite app_nil_r].
  now rewrite List.rev_app_distr.
Qed.

Lemma count_zero_filter (p : Item -> bool) (l : list Item) :
  count p l = 0 -> List.filter p l = [].
Proof.
  unfold count, Analytics.len. destruct (List.filter p l); [reflexivity|].
  simpl List.length. lia.
Qed.

Lemma forEach_app {A S} (body : S -> A -> Realm.M S) (l1 l2 : list A) (s : S)
      (realm : Realm.t) :
  Realm.forEach body (l1 ++ l2) s realm
  = match Realm.forEach body l1 s realm with
    | (JS.Normal s', realm') => Realm.forEach body l2 s' realm'
    | (JS.TypeError, realm') => (JS.TypeError, realm')
    end.
Proof.
  revert s realm. induction l1 as [|a l1 IH]; intros s realm; [reflexivity|].
  simpl. unfold Realm.bind. destruct (body s a realm) as [[s'|] realm']; [apply IH | reflexivity].
Qed.

Lemma is_inherited_lastActivity (k : string) :
  Realm.is_inherited k = true -> String.eqb k "lastActivity" = false.
Proof.
  intros Hk. destruct (String.eqb_spec k "lastActivity") as [->|]; [discriminate | reflexivity].
Qed.

(** A key that is no inherited name leads to an object only if the
    dictionary has it. *)
Lemma lookup_not_inherited {V} (realm : Realm.t) (o : JS.Obj.t V) (k : string) :
  Realm.is_inherited k = false ->
  match Realm.lookup realm o k with
  | Realm.Own v => JS.Obj.get o k = Some v
  | Realm.Shared _ => False
  | Realm.Primitive => JS.Obj.get o k = None /\ k = "lastActivity" /\ ~ no_text realm
  | Realm.Vacant => JS.Obj.get o k = None
  end.
Proof.
  intros Hk. unfold Realm.lookup, Realm.inherited. rewrite Hk.
  destruct (JS.Obj.get o k) as [v|]; [reflexivity|].
  destruct (String.eqb_spec k "lastActivity") as [->|_].
  - unfold no_text. destruct (Realm.lastActivity _); simpl; [|reflexivity].
    repeat split; discriminate.
  - destruct (Realm.numeric k _); reflexivity.
Qed.

Lemma lookup_inherited {V} (realm : Realm.t) (o : JS.Obj.t V) (k : string) :
  Realm.is_inherited k = true -> JS.Obj.get o k = None ->
  Realm.lookup realm o k = Realm.Shared k.
Proof.
  intros Hk Hget. unfold Realm.lookup, Realm.inherited. now rewrite Hget, Hk.
Qed.

Lemma lookup_vacant {V} (realm : Realm.t) (o : JS.Obj.t V) (k : string) :
  vacant realm k = true ->
  Realm.lookup realm o k
  = match JS.Obj.get o k with Some v => Realm.Own v | None => Realm.Vacant end.
Proof.
  unfold vacant, Realm.lookup. intros Hv.
  destruct (JS.Obj.get o k); [reflexivity|].
  destruct (Realm.inherited realm k) as [[host| |t]|]; try discriminate; reflexivity.
Qed.

Lemma no_inherited_key_set {V} (o : JS.Obj.t V) (k : string) (v : V) :
  Realm.is_inherited k = false -> no_inherited_key o ->
  no_inherited_key (JS.Obj.set o k v).
Proof.
  intros Hk Ho c Hc. rewrite obj_get_set.
  destruct (String.eqb_spec k c) as [->|_]; [congruence | now apply Ho].
Qed.

(** One turn of the loop of [getCategoryStats]: an item whose key is an
    inherited name leaves the dictionary alone, every other item is filed
    in it; the counter of items moves in both cases. *)
Lemma category_turn_filed (cs : JS.Obj.t CategoryStats.entry) (n : Z) (a : Item)
      (realm : Realm.t) :
  no_inherited_key cs ->
  match Analytics.category_turn (cs, n) a realm with
  | (JS.Normal (cs', n'), _) =>
      n' = n + 1
      /\ cs' = (if Realm.is_inherited (key a) then cs else own_turn cs a)
      /\ no_inherited_key cs'
  | (JS.TypeError, _) => key a = "lastActivity"
  end.
Proof.
  intros Hcs. unfold Analytics.category_turn. fold (key a).
  destruct (Realm.is_inherited (key a)) eqn:Hk.
  - rewrite (lookup_inherited realm cs (key a) Hk (Hcs _ Hk)).
    cbn. repeat split; assumption.
  - pose proof (lookup_not_inherited realm cs (key a) Hk) as Hl.
    unfold own_turn.
    destruct (Realm.lookup realm cs (key a)) as [e|host| |]; cbn.
    + rewrite Hl. cbn. repeat split; try reflexivity.
      now apply no_inherited_key_set.
    + contradiction.
    + tauto.
    + rewrite Hl. cbn. repeat split; try reflexivity.
      now apply no_inherited_key_set.
Qed.

Lemma filed_cons (a : Item) (l : list Item) :
  filed (a :: l) = if Realm.is_inherited (key a) then filed l else a :: filed l.
Proof. unfold filed. simpl. now destruct (Realm.is_inherited (key a)). Qed.

(** The loop of [getCategoryStats], when it comes to its end: the
    dictionary holds the items whose key is no inherited name, the counter
    has counted every item. *)
Lemma category_forEach (l : list Item) :
  forall (acc : JS.Obj.t CategoryStats.entry * Z) (realm : Realm.t),
    no_inherited_key (fst acc) ->
    match Realm.forEach Analytics.category_turn l acc realm with
    | (JS.Normal (cs', n'), _) =>
        cs' = fold_left own_turn (filed l) (fst acc)
        /\ n' = snd acc + Analytics.len l
        /\ no_inherited_key cs'
    | (JS.TypeError, _) => True
    end.
Proof.
  induction l as [|a l IH]; intros [cs n] realm Hcs; cbn [fst snd] in *.
  - cbn. unfold Analytics.len. simpl. repeat split; [lia | assumption].
  - cbn [Realm.forEach]. unfold Realm.bind.
    pose proof (category_turn_filed cs n a realm Hcs) as Hturn.
    destruct (Analytics.category_turn (cs, n) a realm) as [[[cs1 n1]|] realm1]; [|exact I].
    destruct Hturn as (-> & -> & Hcs1).
    match goal with
    | |- context [Realm.forEach _ l ?acc ?r] => specialize (IH acc r Hcs1)
    end.
    destruct (Realm.forEach Analytics.category_turn l _ realm1) as [[[cs2 n2]|] realm2];
      [|exact I].
    cbn [fst snd] in IH. destruct IH as (-> & -> & Hcs2).
    rewrite filed_cons.
    split; [now destruct (Realm.is_inherited (key a))|].
    split; [|exact Hcs2].
    unfold Analytics.len. simpl List.length. lia.
Qed.

(** While every key leads to nothing truthy on the prototype, the loop
    comes to its end, files every item and leaves the realm alone. *)
Lemma category_forEach_vacant (realm : Realm.t) (l : list Item) :
  forall (cs : JS.Obj.t CategoryStats.entry) (n : Z),
    Forall (fun a => vacant realm (key a) = true) l ->
    Realm.forEach Analytics.category_turn l (cs, n) realm
    = (JS.Normal (fold_left own_turn l cs, n + Analytics.len l), realm).
Proof.
  induction l as [|a l IH]; intros cs n Hl.
  - cbn. unfold Analytics.len. simpl. now rewrite Z.add_0_r.
  - inversion Hl as [|? ? Ha Hl']; subst.
    cbn [Realm.forEach fold_left]. unfold Realm.bind.
    assert (Hturn : Analytics.category_turn (cs, n) a realm
                    = (JS.Normal (own_turn cs a, n + 1), realm)).
    { unfold Analytics.category_turn, own_turn. fold (key a).
      rewrite (lookup_vacant realm cs (key a) Ha).
      destruct (JS.Obj.get cs (key a)); reflexivity. }
    rewrite Hturn, (IH _ _ Hl'). do 2 f_equal. f_equal.
    unfold Analytics.len. simpl List.length. lia.
Qed.

Lemma own_fold_NoDup (l : list Item) :
  List.NoDup (List.map fst (fold_left own_turn l [])).
Proof.
  induction l as [|a l IH] using rev_ind; [constructor|].
  rewrite fold_left_app. simpl. unfold own_turn at 1. now apply obj_set_NoDup.
Qed.

(** The buckets the loop of [getCategoryStats] has filled from the items
    it filed. *)
Lemma own_fold_bucket (l : list Item) (k : string) :
  match JS.Obj.get (fold_left own_turn l []) k with
  | None => count (titled k) l = 0
  | Some e =>
      CategoryStats.count e = count (titled k) l
      /\ 0 < CategoryStats.count e
      /\ CategoryStats.totalDuration e = duration_of (titled k) l
      /\ CategoryStats.averageDuration e
         = JS.div (JS.of_Z (CategoryStats.totalDuration e)) (JS.of_Z (CategoryStats.count e))
      /\ CategoryStats.lastActivity e = last_start (titled k) l
  end.
Proof.
  induction l as [|a l IH] using rev_ind; [reflexivity|].
  rewrite fold_left_app. simpl. unfold own_turn at 1.
  rewrite obj_get_set, count_snoc, duration_of_snoc, last_start_snoc.
  assert (Ht : titled k a = String.eqb (key a) k) by reflexivity.
  rewrite Ht. clear Ht.
  destruct (String.eqb_spec (key a) k) as [E|Hne].
  - rewrite E. pose proof (count_nonneg (titled k) l) as Hpos.
    destruct (JS.Obj.get (fold_left own_turn l []) k) as [e|].
    + destruct IH as (Hc & Hp & Hd & _ & _).
      cbn. repeat split; lia.
    + pose proof (count_zero_filter _ _ IH) as Hnone.
      unfold duration_of, last_start. rewrite IH, Hnone.
      cbn. repeat split; lia.
  - rewrite !Z.add_0_r. exact IH.
Qed.

(** Filing leaves out no item of a key that is no inherited name. *)
Lemma filter_filed (p : Item -> bool) (l : list Item) :
  (forall a, p a = true -> Realm.is_inherited (key a) = false) ->
  List.filter p (filed l) = List.filter p l.
Proof.
  intros Hp. unfold filed. induction l as [|a l IH]; [reflexivity|].
  simpl. destruct (Realm.is_inherited (key a)) eqn:Hk; simpl.
  - destruct (p a) eqn:Ha; [|exact IH].
    rewrite (Hp a Ha) in Hk. discriminate.
  - now rewrite IH.
Qed.

Lemma titled_filed (k : string) (l : list Item) :
  Realm.is_inherited k = false ->
  List.filter (titled k) (filed l) = List.filter (titled k) l.
Proof.
  intros Hk. apply filter_filed. intros a Ha.
  unfold titled in Ha. apply String.eqb_eq in Ha. now rewrite Ha.
Qed.

(** What [getCategoryStats] returns, in terms of its loop. *)
Lemma getCategoryStats_returned (activityHistory : list Item) (realm realm' : Realm.t)
      (stats : CategoryStats.t) :
  Analytics.getCategoryStats activityHistory realm = (JS.Normal stats, realm') ->
  CategoryStats.categories stats = fold_left own_turn (filed activityHistory) []
  /\ CategoryStats.categoryDistribution stats
     = List.map (fun e => (fst e,
                           JS.mul (JS.div (JS.of_Z (CategoryStats.count (snd e)))
                                          (JS.of_Z (Analytics.len activityHistory)))
                                  (JS.of_Z 100)))
                (JS.Obj.entries (CategoryStats.categories stats)).
Proof.
  unfold Analytics.getCategoryStats, Realm.bind.
  match goal with
  | |- context [Realm.forEach Analytics.category_turn ?l ?acc ?r] =>
      pose proof (category_forEach l acc r ltac:(intros k _; reflexivity)) as H;
        destruct (Realm.forEach Analytics.category_turn l acc r) as [[[cs n]|] realm1];
        [|discriminate]
  end.
  cbn [fst snd] in H. destruct H as (-> & -> & _). unfold Realm.ret. intros [= <- <-].
  cbn [CategoryStats.categories CategoryStats.categoryDistribution].
  split; [reflexivity|].
  apply List.map_ext. intros [k e]. reflexivity.
Qed.

(** Whatever came before, the entry of the bucket the last item of the log
    falls into carries that one item's completion flag over the count of
    the bucket: each turn of the [forEach] overwrites [completionRate]. *)
Lemma completion_rate_overwritten (activityHistory : list Item) (a : Item)
      (realm realm' : Realm.t) (stats : CategoryStats.t) :
  Realm.is_inherited (key a) = false ->
  Analytics.getCategoryStats (activityHistory ++ [a]) realm = (JS.Normal stats, realm') ->
  exists e,
    JS.Obj.get (CategoryStats.categories stats) (key a) = Some e
    /\ CategoryStats.completionRate e
       = JS.div (JS.of_Z (if ActivityHistoryItem.completed a then 1 else 0))
                (JS.of_Z (CategoryStats.count e)).
Proof.
  intros Hk Hrun.
  destruct (getCategoryStats_returned _ _ _ _ Hrun) as [-> _].
  unfold filed. rewrite List.filter_app. simpl. rewrite Hk. simpl.
  rewrite fold_left_app. simpl. unfold own_turn at 1.
  eexists. split; [apply obj_get_set_same | reflexivity].
Qed.

(** C2.  On the scenario of the specification (titles beginning with the
    name of the category) the bucket "Physical" has [count = 2], but its
    [completionRate] is 0, not 0.5: it is the flag of the second, unfinished
    item over the count.  The buckets are keyed by the first word of the
    title, not by the field [category]: the three-day log of "Morning Yoga"
    in category "Physical" has a bucket "Morning" and none named
    "Physical"; the rate of that bucket is the double nearest to 1/3. *)
Theorem category_completion_rate_of_scenario :
  (exists stats,
      Analytics.getCategoryStats category_scenario Realm.pristine
      = (JS.Normal stats, Realm.pristine)
      /\ JS.Obj.get (CategoryStats.categories stats) "Physical"
         = Some {| CategoryStats.count := 2;
                   CategoryStats.totalDuration := 30;
                   CategoryStats.averageDuration := JS.Finite 15;
                   CategoryStats.completionRate := JS.Finite 0;
                   CategoryStats.lastActivity := Some (noon 19001) |})
  /\ JS.Finite 0 <> JS.Finite (1 # 2)
  /\ (exists stats,
         Analytics.getCategoryStats three_days Realm.pristine
         = (JS.Normal stats, Realm.pristine)
         /\ JS.Obj.get (CategoryStats.categories stats) "Physical" = None
         /\ JS.Obj.get (CategoryStats.categories stats) "Morning"
            = Some {| CategoryStats.count := 3;
                      CategoryStats.totalDuration := 1800;
                      CategoryStats.averageDuration := JS.Finite 600;
                      CategoryStats.completionRate :=
                        JS.Finite (6004799503160661 # 18014398509481984);
                      CategoryStats.lastActivity := Some (noon 19002) |}).
Proof.
  split; [|split].
  - eexists. split; [vm_compute; reflexivity|]. vm_compute. reflexivity.
  - discriminate.
  - eexists. split; [vm_compute; reflexivity|]. split; vm_compute; reflexivity.
Qed.

Lemma titled_filed_inherited (k : string) (l : list Item) :
  Realm.is_inherited k = true -> List.filter (titled k) (filed l) = [].
Proof.
  intros Hk. unfold filed. induction l as [|a l IH]; [reflexivity|].
  simpl. destruct (Realm.is_inherited (key a)) eqn:Ha; simpl; [exact IH|].
  unfold titled at 1. destruct (String.eqb_spec (key a) k) as [E|_]; [congruence | exact IH].
Qed.

(** The buckets of a call of [getCategoryStats] that returned. *)
Lemma category_buckets_of_run (activityHistory : list Item) (realm realm' : Realm.t)
      (stats : CategoryStats.t) (k : string) :
  Analytics.getCategoryStats activityHistory realm = (JS.Normal stats, realm') ->
  match JS.Obj.get (CategoryStats.categories stats) k with
  | None => count (titled k) activityHistory = 0 \/ Realm.is_inherited k = true
  | Some e =>
      Realm.is_inherited k = false
      /\ CategoryStats.count e = count (titled k) activityHistory
      /\ 0 < CategoryStats.count e
      /\ CategoryStats.totalDuration e = duration_of (titled k) activityHistory
      /\ CategoryStats.averageDuration e
         = JS.div (JS.of_Z (CategoryStats.totalDuration e)) (JS.of_Z (CategoryStats.count e))
      /\ CategoryStats.lastActivity e = last_start (titled k) activityHistory
  end.
Proof.
  intros Hrun. destruct (getCategoryStats_returned _ _ _ _ Hrun) as [-> _].
  pose proof (own_fold_bucket (filed activityHistory) k) as Hb.
  unfold count, duration_of, last_start in *.
  destruct (Realm.is_inherited k) eqn:Hk.
  - rewrite (titled_filed_inherited k _ Hk) in Hb.
    destruct (JS.Obj.get _ k) as [e|]; [|now right].
    destruct Hb as (Hc & Hp & _). unfold Analytics.len in Hc. simpl in Hc. lia.
  - rewrite (titled_filed k _ Hk) in Hb.
    destruct (JS.Obj.get _ k) as [e|]; [|now left].
    split; [reflexivity | exact Hb].
Qed.

(** X7.  When [getCategoryStats] returns, it has a bucket for a first word
    [k] exactly when [k] is no inherited property name and some item's
    title begins with [k]; the [count] of the bucket is the number of
    those items, completed or not, its [totalDuration] the sum of their
    durations, its [averageDuration] their quotient, and its
    [lastActivity] the start of the last of them in the log. *)
Theorem getCategoryStats_bucket (activityHistory : list Item) (realm realm' : Realm.t)
        (stats : CategoryStats.t) (k : string) :
  Analytics.getCategoryStats activityHistory realm = (JS.Normal stats, realm') ->
  match JS.Obj.get (CategoryStats.categories stats) k with
  | None => count (titled k) activityHistory = 0 \/ Realm.is_inherited k = true
  | Some e =>
      Realm.is_inherited k = false
      /\ CategoryStats.count e = count (titled k) activityHistory
      /\ 0 < CategoryStats.count e
      /\ CategoryStats.totalDuration e = duration_of (titled k) activityHistory
      /\ CategoryStats.averageDuration e
         = JS.div (JS.of_Z (CategoryStats.totalDuration e)) (JS.of_Z (CategoryStats.count e))
      /\ CategoryStats.lastActivity e = last_start (titled k) activityHistory
  end.
Proof. apply category_buckets_of_run. Qed.

Lemma getCategoryStats_bucket_witness :
  exists stats realm',
    Analytics.getCategoryStats constructor_title Realm.pristine = (JS.Normal stats, realm')
    /\ JS.Obj.get (CategoryStats.categories stats) "constructor" = None
    /\ count (titled "constructor") constructor_title = 1
    /\ exists e,
        JS.Obj.get (CategoryStats.categories stats) "Morning" = Some e
        /\ CategoryStats.count e = count (titled "Morning") constructor_title
        /\ CategoryStats.lastActivity e = last_start (titled "Morning") constructor_title.
Proof.
  eassert (E : Analytics.getCategoryStats constructor_title Realm.pristine
               = (JS.Normal _, _)) by (vm_compute; reflexivity).
  pose proof (getCategoryStats_bucket _ _ _ _ "Morning" E) as Hm.
  simpl (JS.Obj.get _ _) in Hm. destruct Hm as (_ & Hcount & _ & _ & _ & Hlast).
  do 2 eexists. split; [exact E|].
  split; [reflexivity|]. split; [reflexivity|].
  eexists. split; [reflexivity|]. split; [exact Hcount | exact Hlast].
Defined.

(** X8.  When [getCategoryStats] returns, [categoryDistribution] has one
    entry per bucket, and the share of a bucket is (items of the bucket /
    items of the log) * 100 as doubles compute it: a finite number between
    0 and 100, within [2^-45] of the exact ratio.  The items of the log
    include those that found no bucket. *)
Theorem getCategoryStats_distribution (activityHistory : list Item) (realm realm' : Realm.t)
        (stats : CategoryStats.t) :
  Analytics.getCategoryStats activityHistory realm = (JS.Normal stats, realm') ->
  List.length (CategoryStats.categoryDistribution stats)
  = List.length (CategoryStats.categories stats)
  /\ List.Forall
       (fun share =>
          0 < count (titled (fst share)) activityHistory
          /\ percentage (snd share)
          /\ is_ratio_100 (snd share) (count (titled (fst share)) activityHistory)
                          (Analytics.len activityHistory))
       (CategoryStats.categoryDistribution stats).
Proof.
  intros Hrun.
  pose proof (fun k => category_buckets_of_run _ _ _ _ k Hrun) as Hbucket.
  destruct (getCategoryStats_returned _ _ _ _ Hrun) as [Ecs ->].
  pose proof (own_fold_NoDup (filed activityHistory)) as Hnd. rewrite <- Ecs in Hnd.
  split.
  - rewrite List.length_map. apply Permutation_length, entries_perm.
  - apply List.Forall_map. apply List.Forall_forall. intros [k e] Hin. cbn [fst snd].
    assert (Hget : JS.Obj.get (CategoryStats.categories stats) k = Some e).
    { apply obj_In_get; [exact Hnd|].
      eapply Permutation_in; [apply entries_perm | exact Hin]. }
    specialize (Hbucket k). rewrite Hget in Hbucket.
    destruct Hbucket as (_ & Hc & Hp & _).
    rewrite Hc in *. split; [exact Hp|].
    apply ratio_100_percentage.
    + split; [lia | apply len_filter_le].
    + pose proof (len_filter_le (titled k) activityHistory). unfold count in Hp. lia.
Qed.

Lemma getCategoryStats_distribution_witness :
  exists stats realm',
    Analytics.getCategoryStats constructor_title Realm.pristine = (JS.Normal stats, realm')
    /\ CategoryStats.categoryDistribution stats = [("Morning", JS.Finite 50)]
    /\ List.Forall
         (fun share => is_ratio_100 (snd share) (count (titled (fst share)) constructor_title)
                                    (Analytics.len constructor_title))
         (CategoryStats.categoryDistribution stats).
Proof.
  eassert (E : Analytics.getCategoryStats constructor_title Realm.pristine
               = (JS.Normal _, _)) by (vm_compute; reflexivity).
  destruct (getCategoryStats_distribution _ _ _ _ E) as [_ Hall].
  do 2 eexists. split; [exact E|]. split; [reflexivity|].
  eapply List.Forall_impl; [|exact Hall]. intros share (_ & _ & H). exact H.
Defined.

(** ** Recommendation statistics *)

Section Tallies.
Context (g : Item -> string).

(** The buckets that [recommended++], the conditional [accepted++] and the
    recomputed [accuracy] leave for the keys [g] in a dictionary of its
    own. *)
Lemma tally_bucket (log : list Item) (k : string) :
  match JS.Obj.get
          (fold_left (fun o a => Analytics.tally o (g a) (ActivityHistoryItem.completed a))
                     log []) k
  with
  | None => count (fun a => String.eqb (g a) k) log = 0
  | Some p =>
      RecommendationStats.recommended p = count (fun a => String.eqb (g a) k) log
      /\ 0 < RecommendationStats.recommended p
      /\ RecommendationStats.accepted p
         = count (fun a => String.eqb (g a) k && ActivityHistoryItem.completed a) log
      /\ RecommendationStats.accuracy p
         = JS.mul (JS.div (JS.of_Z (RecommendationStats.accepted p))
                          (JS.of_Z (RecommendationStats.recommended p)))
                  (JS.of_Z 100)
  end.
Proof.
  induction log as [|a l IH] using rev_ind; [reflexivity|].
  rewrite fold_left_app. simpl. unfold Analytics.tally at 1.
  rewrite obj_get_set, !count_snoc.
  pose proof (count_nonneg (fun a => String.eqb (g a) k) l) as Hpos.
  destruct (String.eqb_spec (g a) k) as [E|Hne].
  - rewrite E.
    destruct (JS.Obj.get _ k) as [p|].
    + destruct IH as (Hr & Hp & Ha & _). cbn.
      repeat split; lia.
    + pose proof (count_zero_filter _ _ IH) as Hnone.
      assert (Hnone' : count (fun a => String.eqb (g a) k && ActivityHistoryItem.completed a) l
                       = 0).
      { unfold count, Analytics.len.
        assert (E0 : List.filter
                       (fun a => String.eqb (g a) k && ActivityHistoryItem.completed a) l
                     = []); [|now rewrite E0].
        clear -Hnone. induction l as [|b l IHl]; [reflexivity|].
        simpl in *. destruct (String.eqb (g b) k); [discriminate|]. simpl. now apply IHl. }
      rewrite IH, Hnone'. cbn.
      repeat split; lia.
  - cbn. rewrite !Z.add_0_r. exact IH.
Qed.

Lemma count_and_le (p q : Item -> bool) (l : list Item) :
  0 <= count (fun a => p a && q a) l <= count p l.
Proof.
  split; [apply count_nonneg|].
  induction l as [|a l IH]; [reflexivity|].
  rewrite !count_cons. destruct (p a), (q a); simpl; lia.
Qed.
End Tallies.

(** A write on a shared object that leaves [lastActivity] alone puts no
    text on the prototype. *)
Lemma no_text_write (realm : Realm.t) (host : string) (f : Realm.written -> Realm.written) :
  (forall w, Realm.lastActivity (f w) = Realm.lastActivity w) ->
  no_text realm -> no_text (snd (Realm.write host f realm)).
Proof.
  intros Hf Hrealm. unfold no_text, Realm.write, Realm.on in *. cbn [snd].
  rewrite obj_get_set. destruct (String.eqb_spec host "__proto__") as [->|_].
  - cbn. now rewrite Hf.
  - exact Hrealm.
Qed.

Section RecommendationFacts.
Context `{DateAPI}.

(** The update of [categoryPreferences]: a key that is an inherited name
    leaves the dictionary alone; it throws only where the prototype
    carries a text. *)
Lemma tally_category_filed (prefs : JS.Obj.t RecommendationStats.pref) (k : string)
      (completed : bool) (realm : Realm.t) :
  no_inherited_key prefs ->
  match Analytics.tally_category prefs k completed realm with
  | (JS.Normal prefs', realm') =>
      prefs' = (if Realm.is_inherited k then prefs else Analytics.tally prefs k completed)
      /\ no_inherited_key prefs'
      /\ (no_text realm -> no_text realm')
  | (JS.TypeError, _) => ~ no_text realm
  end.
Proof.
  intros Hprefs. unfold Analytics.tally_category, Analytics.tally.
  destruct (Realm.is_inherited k) eqn:Hk.
  - rewrite (lookup_inherited realm prefs k Hk (Hprefs _ Hk)).
    cbn. repeat split; [assumption|].
    apply (no_text_write realm k). reflexivity.
  - pose proof (lookup_not_inherited realm prefs k Hk) as Hl.
    destruct (Realm.lookup realm prefs k) as [p|host| |]; cbn.
    + rewrite Hl. cbn. repeat split; try tauto.
      now apply no_inherited_key_set.
    + contradiction.
    + tauto.
    + rewrite Hl. cbn. repeat split; try tauto.
      now apply no_inherited_key_set.
Qed.

(** The loop of [getRecommendationStats], when it comes to its end; it
    does, unless the prototype carries a text. *)
Lemma rec_forEach (l : list Item) :
  forall (acc : Analytics.rec_acc) (realm : Realm.t),
    no_inherited_key (Analytics.categoryPreferences acc) ->
    match Realm.forEach Analytics.rec_turn l acc realm with
    | (JS.Normal acc', _) =>
        Analytics.totalRecommendations acc'
        = Analytics.totalRecommendations acc + Analytics.len l
        /\ Analytics.acceptedRecommendations acc'
           = Analytics.acceptedRecommendations acc + count ActivityHistoryItem.completed l
        /\ Analytics.categoryPreferences acc'
           = fold_left (fun o a => Analytics.tally o (key a) (ActivityHistoryItem.completed a))
                       (filed l) (Analytics.categoryPreferences acc)
        /\ Analytics.timeBasedPreferences acc'
           = fold_left (fun o a => Analytics.tally o
                                     (Analytics.timeOfDay_of (ActivityHistoryItem.start_time a))
                                     (ActivityHistoryItem.completed a))
                       l (Analytics.timeBasedPreferences acc)
        /\ no_inherited_key (Analytics.categoryPreferences acc')
    | (JS.TypeError, _) => ~ no_text realm
    end.
Proof.
  induction l as [|a l IH]; intros acc realm Hacc.
  - cbn. unfold Analytics.len, count, Analytics.len. simpl.
    rewrite !Z.add_0_r. repeat split; assumption.
  - cbn [Realm.forEach]. unfold Realm.bind at 1. unfold Analytics.rec_turn at 1.
    unfold Realm.bind at 1. fold (key a).
    pose proof (tally_category_filed (Analytics.categoryPreferences acc) (key a)
                  (ActivityHistoryItem.completed a) realm Hacc) as Hturn.
    destruct (Analytics.tally_category _ (key a) _ realm) as [[prefs1|] realm1];
      [|exact Hturn].
    destruct Hturn as (-> & Hprefs1 & Htext).
    unfold Realm.ret at 1.
    match goal with
    | |- context [Realm.forEach _ l ?acc1 ?r] => specialize (IH acc1 r Hprefs1)
    end.
    destruct (Realm.forEach Analytics.rec_turn l _ realm1) as [[acc2|] realm2];
      [|tauto].
    cbn [Analytics.totalRecommendations Analytics.acceptedRecommendations
         Analytics.categoryPreferences Analytics.timeBasedPreferences] in IH.
    destruct IH as (Ht & Ha & Hc & Hd & Hk).
    rewrite filed_cons, count_cons.
    split; [rewrite Ht; unfold Analytics.len; simpl List.length; lia|].
    split; [rewrite Ha; lia|].
    split; [rewrite Hc; now destruct (Realm.is_inherited (key a))|].
    split; [exact Hd | exact Hk].
Qed.

(** What [getRecommendationStats] returns, in terms of its loop. *)
Lemma getRecommendationStats_run (activityHistory : list Item) (realm : Realm.t) :
  match Analytics.getRecommendationStats activityHistory realm with
  | (JS.Normal stats, _) =>
      RecommendationStats.totalRecommendations stats = Analytics.len activityHistory
      /\ RecommendationStats.acceptedRecommendations stats
         = count ActivityHistoryItem.completed activityHistory
      /\ RecommendationStats.recommendationAccuracy stats
         = JS.mul (JS.div (JS.of_Z (count ActivityHistoryItem.completed activityHistory))
                          (JS.of_Z (Analytics.len activityHistory)))
                  (JS.of_Z 100)
      /\ RecommendationStats.categoryPreferences stats
         = fold_left (fun o a => Analytics.tally o (key a) (ActivityHistoryItem.completed a))
                     (filed activityHistory) []
  | (JS.TypeError, _) => ~ no_text realm
  end.
Proof.
  unfold Analytics.getRecommendationStats, Realm.bind.
  match goal with
  | |- context [Realm.forEach Analytics.rec_turn ?l ?acc ?r] =>
      pose proof (rec_forEach l acc r ltac:(intros k _; reflexivity)) as Hrun;
        destruct (Realm.forEach Analytics.rec_turn l acc r) as [[acc'|] realm1];
        [|exact Hrun]
  end.
  cbn [Analytics.totalRecommendations Analytics.acceptedRecommendations
       Analytics.categoryPreferences Analytics.timeBasedPreferences] in Hrun.
  destruct Hrun as (Ht & Ha & Hc & _).
  unfold Realm.ret.
  cbn [RecommendationStats.totalRecommendations RecommendationStats.acceptedRecommendations
       RecommendationStats.recommendationAccuracy RecommendationStats.categoryPreferences].
  rewrite Ht, Ha, Hc. repeat split; reflexivity.
Qed.

(** X9.  On a page whose prototype is untouched [getRecommendationStats]
    returns for every log; it counts every item as a recommendation and
    every completed item as an accepted one.  On a log that is not empty
    its [recommendationAccuracy] is a percentage and coincides with the
    [completionRate] of [getActivityStats]; on the empty log it is NaN. *)
Theorem getRecommendationStats_totals `{JS.Engine} (activityHistory : list Item) :
  exists stats realm',
    Analytics.getRecommendationStats activityHistory Realm.pristine
    = (JS.Normal stats, realm')
    /\ RecommendationStats.totalRecommendations stats = Analytics.len activityHistory
    /\ RecommendationStats.acceptedRecommendations stats
       = count ActivityHistoryItem.completed activityHistory
    /\ match activityHistory with
       | [] => RecommendationStats.recommendationAccuracy stats = JS.NaN
       | _ :: _ =>
           RecommendationStats.recommendationAccuracy stats
           = ActivityStats.completionRate
               (Analytics.getActivityStats activityHistory Realm.pristine)
           /\ percentage (RecommendationStats.recommendationAccuracy stats)
       end.
Proof.
  pose proof (getRecommendationStats_run activityHistory Realm.pristine) as Hrun.
  destruct (Analytics.getRecommendationStats activityHistory Realm.pristine)
    as [[stats|] realm']; [|exfalso; apply Hrun; reflexivity].
  destruct Hrun as (Ht & Ha & Hacc & _).
  exists stats, realm'. split; [reflexivity|]. split; [exact Ht|]. split; [exact Ha|].
  rewrite Hacc.
  destruct activityHistory as [|a l]; [reflexivity|].
  set (log := a :: l) in *.
  assert (Hpos : 0 < Analytics.len log)
    by (unfold Analytics.len, log; simpl List.length; lia).
  split.
  - unfold Analytics.getActivityStats, Analytics.activity_stats_of.
    cbn [ActivityStats.completionRate].
    destruct (Z.eqb_spec (Analytics.len log) 0) as [|_]; [lia | reflexivity].
  - apply ratio_100_percentage; [apply len_filter_le | exact Hpos].
Qed.

(** The buckets of a call of [getRecommendationStats] that returned. *)
Lemma preference_buckets_of_run (activityHistory : list Item) (realm realm' : Realm.t)
      (stats : RecommendationStats.t) (k : string) :
  Analytics.getRecommendationStats activityHistory realm = (JS.Normal stats, realm') ->
  match JS.Obj.get (RecommendationStats.categoryPreferences stats) k with
  | None => count (titled k) activityHistory = 0 \/ Realm.is_inherited k = true
  | Some p =>
      Realm.is_inherited k = false
      /\ RecommendationStats.recommended p = count (titled k) activityHistory
      /\ 0 < RecommendationStats.recommended p
      /\ RecommendationStats.accepted p
         = count (fun a => titled k a && ActivityHistoryItem.completed a) activityHistory
      /\ percentage (RecommendationStats.accuracy p)
      /\ is_ratio_100 (RecommendationStats.accuracy p)
                      (RecommendationStats.accepted p) (RecommendationStats.recommended p)
  end.
Proof.
  intros Hrun.
  pose proof (getRecommendationStats_run activityHistory realm) as H0.
  rewrite Hrun in H0. destruct H0 as (_ & _ & _ & ->).
  pose proof (tally_bucket key (filed activityHistory) k) as Hb.
  change (fun a => String.eqb (key a) k) with (titled k) in Hb.
  unfold count in *.
  destruct (Realm.is_inherited k) eqn:Hk.
  - rewrite (titled_filed_inherited k _ Hk) in Hb.
    destruct (JS.Obj.get _ k) as [p|]; [|now right].
    destruct Hb as (Hr & Hp & _). unfold Analytics.len in Hr. simpl in Hr. lia.
  - rewrite (titled_filed k _ Hk) in Hb.
    rewrite (filter_filed (fun a => titled k a && ActivityHistoryItem.completed a)) in Hb.
    2:{ intros a Ha. apply andb_prop in Ha as [Ha _].
        unfold titled in Ha. apply String.eqb_eq in Ha. now rewrite Ha. }
    destruct (JS.Obj.get _ k) as [p|]; [|now left].
    destruct Hb as (Hr & Hp & Ha & Hacc).
    split; [reflexivity|]. split; [exact Hr|]. split; [exact Hp|]. split; [exact Ha|].
    rewrite Hacc. apply ratio_100_percentage; [|exact Hp].
    rewrite Ha, Hr. apply (count_and_le (titled k)).
Qed.

(** X10.  When [getRecommendationStats] returns, [categoryPreferences] has
    a bucket for a first word [k] exactly when [k] is no inherited
    property name and a title begins with [k]; [recommended] is the number
    of those items, [accepted] the number of the completed ones among
    them, and [accuracy] is (accepted / recommended) * 100 as doubles
    compute it, a percentage within [2^-45] of the exact ratio. *)
Theorem getRecommendationStats_category_bucket (activityHistory : list Item)
        (realm realm' : Realm.t) (stats : RecommendationStats.t) (k : string) :
  Analytics.getRecommendationStats activityHistory realm = (JS.Normal stats, realm') ->
  match JS.Obj.get (RecommendationStats.categoryPreferences stats) k with
  | None => count (titled k) activityHistory = 0 \/ Realm.is_inherited k = true
  | Some p =>
      Realm.is_inherited k = false
      /\ RecommendationStats.recommended p = count (titled k) activityHistory
      /\ 0 < RecommendationStats.recommended p
      /\ RecommendationStats.accepted p
         = count (fun a => titled k a && ActivityHistoryItem.completed a) activityHistory
      /\ percentage (RecommendationStats.accuracy p)
      /\ is_ratio_100 (RecommendationStats.accuracy p)
                      (RecommendationStats.accepted p) (RecommendationStats.recommended p)
  end.
Proof. apply preference_buckets_of_run. Qed.
End RecommendationFacts.

Lemma getRecommendationStats_category_bucket_witness :
  exists stats realm',
    @Analytics.getRecommendationStats UTC.api constructor_title Realm.pristine
    = (JS.Normal stats, realm')
    /\ JS.Obj.get (RecommendationStats.categoryPreferences stats) "constructor" = None
    /\ exists p,
        JS.Obj.get (RecommendationStats.categoryPreferences stats) "Morning" = Some p
        /\ RecommendationStats.recommended p = count (titled "Morning") constructor_title
        /\ percentage (RecommendationStats.accuracy p).
Proof.
  eassert (E : @Analytics.getRecommendationStats UTC.api constructor_title Realm.pristine
               = (JS.Normal _, _)) by (vm_compute; reflexivity).
  pose proof (@getRecommendationStats_category_bucket UTC.api _ _ _ _ "Morning" E) as Hm.
  simpl (JS.Obj.get _ _) in Hm. destruct Hm as (_ & Hr & _ & _ & Hp & _).
  do 2 eexists. split; [exact E|]. split; [reflexivity|].
  eexists. split; [reflexivity|]. split; [exact Hr | exact Hp].
Defined.

(** ** What the analytics callbacks leave behind *)

Section RealmFacts.
Context `{DateAPI}.

Lemma rec_forEach_vacant (realm : Realm.t) (l : list Item) :
  Forall (fun a => vacant realm (key a) = true) l ->
  forall acc : Analytics.rec_acc,
  exists acc', Realm.forEach Analytics.rec_turn l acc realm = (JS.Normal acc', realm).
Proof.
  induction 1 as [|a l Ha Hl IH]; intros acc; [now exists acc|].
  cbn [Realm.forEach]. unfold Realm.bind at 1. unfold Analytics.rec_turn at 1.
  unfold Realm.bind at 1. fold (key a).
  assert (Hturn : exists prefs,
             Analytics.tally_category (Analytics.categoryPreferences acc) (key a)
                                      (ActivityHistoryItem.completed a) realm
             = (JS.Normal prefs, realm)).
  { unfold Analytics.tally_category. rewrite (lookup_vacant realm _ (key a) Ha).
    destruct (JS.Obj.get _ (key a)); eexists; reflexivity. }
  destruct Hturn as (prefs & ->). unfold Realm.ret at 1. apply IH.
Qed.

(** X28.  While no title begins with a word that leads to an object or to
    a string on the prototype, [getCategoryStats] and
    [getRecommendationStats] return, with every item filed in a bucket, and
    leave the realm as they found it: called again, they return the
    same. *)
Theorem analytics_leave_the_realm (activityHistory : list Item) (realm : Realm.t) :
  Forall (fun a => vacant realm (key a) = true) activityHistory ->
  (exists stats,
      Analytics.getCategoryStats activityHistory realm = (JS.Normal stats, realm)
      /\ CategoryStats.categories stats = fold_left own_turn activityHistory []
      /\ Realm.bind (Analytics.getCategoryStats activityHistory)
                    (fun _ => Analytics.getCategoryStats activityHistory) realm
         = (JS.Normal stats, realm))
  /\ (exists stats,
         Analytics.getRecommendationStats activityHistory realm = (JS.Normal stats, realm)
         /\ RecommendationStats.totalRecommendations stats = Analytics.len activityHistory
         /\ Realm.bind (Analytics.getRecommendationStats activityHistory)
                       (fun _ => Analytics.getRecommendationStats activityHistory) realm
            = (JS.Normal stats, realm)).
Proof.
  intros Hvacant. split.
  - assert (E : exists stats,
               Analytics.getCategoryStats activityHistory realm = (JS.Normal stats, realm)
               /\ CategoryStats.categories stats = fold_left own_turn activityHistory []).
    { unfold Analytics.getCategoryStats, Realm.bind.
      rewrite (category_forEach_vacant realm activityHistory _ _ Hvacant).
      unfold Realm.ret. eexists. split; reflexivity. }
    destruct E as (stats & E & Hcs). exists stats.
    split; [exact E|]. split; [exact Hcs|].
    unfold Realm.bind. now rewrite E.
  - assert (E : exists stats,
               Analytics.getRecommendationStats activityHistory realm
               = (JS.Normal stats, realm)).
    { unfold Analytics.getRecommendationStats, Realm.bind.
      match goal with
      | |- context [Realm.forEach Analytics.rec_turn _ ?acc _] =>
          destruct (rec_forEach_vacant realm activityHistory Hvacant acc) as (acc' & ->)
      end.
      unfold Realm.ret. eexists. reflexivity. }
    destruct E as (stats & E). exists stats.
    pose proof (getRecommendationStats_run activityHistory realm) as Hrun.
    rewrite E in Hrun. destruct Hrun as (Ht & _).
    split; [exact E|]. split; [exact Ht|].
    unfold Realm.bind. now rewrite E.
Qed.
End RealmFacts.

Lemma analytics_leave_the_realm_witness :
  Forall (fun a => vacant Realm.pristine (key a) = true) three_days
  /\ exists stats,
       Analytics.getCategoryStats three_days Realm.pristine = (JS.Normal stats, Realm.pristine)
       /\ List.map fst (CategoryStats.categories stats) = ["Morning"].
Proof.
  assert (Hv : Forall (fun a => vacant Realm.pristine (key a) = true) three_days)
    by (repeat constructor).
  split; [exact Hv|].
  destruct (@analytics_leave_the_realm UTC.api three_days Realm.pristine Hv)
    as [(stats & E & Hcs & _) _].
  exists stats. split; [exact E|]. rewrite Hcs. reflexivity.
Defined.

(** A new array leaves the arrays already on the heap as they were. *)
Lemma alloc_extends (l : list Item) (h : Store.heap) :
  h ⊆ snd (Store.alloc l h) /\ snd (Store.alloc l h) !! fst (Store.alloc l h) = Some l
  /\ h !! fst (Store.alloc l h) = None.
Proof.
  unfold Store.alloc. cbn [fst snd].
  assert (Hfresh : h !! fresh (dom h) = None)
    by (apply not_elem_of_dom, is_fresh).
  split; [now apply insert_subseteq|].
  split; [apply lookup_insert_eq | exact Hfresh].
Qed.

Lemma contents_lookup (h : Store.heap) (r : Store.ref) (log : list Item) :
  h !! r = Some log -> Store.contents h r = log.
Proof. unfold Store.contents. now intros ->. Qed.

(** [getStreakInfo] sorts a copy: the result is that of the function of the
    log, and the heap only gains the sorted copy. *)
Lemma getStreakInfo_run (h : Store.heap) (r : Store.ref) (log : list Item) :
  h !! r = Some log ->
  fst (Store.getStreakInfo r h) = Analytics.getStreakInfo log
  /\ h ⊆ snd (Store.getStreakInfo r h).
Proof.
  intros Hr. unfold Store.getStreakInfo, Store.bind, Store.spread, Store.sort,
    Store.read, Store.ret.
  rewrite (contents_lookup h r log Hr).
  destruct (alloc_extends log h) as (Hsub & Hnew & Hfresh).
  destruct (Store.alloc log h) as [copy h1] eqn:Ealloc. cbn [fst snd] in *.
  assert (Hsorted : alter (JS.sort Analytics.newest_first) copy h1 !! copy
                    = Some (JS.sort Analytics.newest_first log))
    by (rewrite lookup_alter_eq, Hnew; reflexivity).
  split.
  - unfold Analytics.getStreakInfo. now rewrite (contents_lookup _ _ _ Hsorted).
  - apply map_subseteq_spec. intros i x Hi.
    assert (Hne : copy <> i) by congruence.
    rewrite lookup_alter_ne by exact Hne.
    eapply lookup_weaken; eassumption.
Qed.

Lemma getActivityStats_run `{JS.Engine} (realm : Realm.t) (h : Store.heap)
      (r : Store.ref) (log : list Item) :
  h !! r = Some log ->
  fst (Store.getActivityStats realm r h) = Analytics.getActivityStats log realm
  /\ h ⊆ snd (Store.getActivityStats realm r h).
Proof.
  intros Hr. unfold Store.getActivityStats, Store.bind, Store.filter, Store.read, Store.ret.
  rewrite (contents_lookup h r log Hr).
  destruct (alloc_extends (List.filter ActivityHistoryItem.completed log) h)
    as (Hsub & Hnew & Hfresh).
  destruct (Store.alloc (List.filter ActivityHistoryItem.completed log) h)
    as [completedActivities h1] eqn:Ealloc.
  cbn [fst snd] in *.
  assert (Hr1 : h1 !! r = Some log) by (eapply lookup_weaken; eassumption).
  destruct (getStreakInfo_run h1 r log Hr1) as [Hres Hsub1].
  destruct (Store.getStreakInfo r h1) as [streaks h2]. cbn [fst snd] in *.
  assert (Hr2 : h2 !! r = Some log) by (eapply lookup_weaken; eassumption).
  assert (Hc2 : h2 !! completedActivities
                = Some (List.filter ActivityHistoryItem.completed log))
    by (eapply lookup_weaken; eassumption).
  split.
  - rewrite (contents_lookup _ _ _ Hnew), (contents_lookup _ _ _ Hr2), Hres.
    reflexivity.
  - etransitivity; eassumption.
Qed.

(** A callback that computes its result and extends the heap leaves the
    arrays it found. *)
Lemma leaves_arrays_of_run {A} (run : Store.ref -> Store.St A) (f : list Item -> A)
      (h : Store.heap) (r : Store.ref) (log : list Item) :
  h !! r = Some log ->
  fst (run r h) = f log /\ h ⊆ snd (run r h) ->
  leaves_arrays run f h r log.
Proof.
  intros Hr [Hres Hsub]. unfold leaves_arrays.
  split; [exact Hres|]. split; [exact Hsub|].
  eapply lookup_weaken; eassumption.
Qed.

Lemma read_only_run {A} (f : list Item -> A) (h : Store.heap) (r : Store.ref)
      (log : list Item) :
  h !! r = Some log ->
  fst (Store.bind (Store.read r) (fun history => Store.ret (f history)) h) = f log
  /\ h ⊆ snd (Store.bind (Store.read r) (fun history => Store.ret (f history)) h).
Proof.
  intros Hr. unfold Store.bind, Store.read, Store.ret. cbn [fst snd].
  now rewrite (contents_lookup h r log Hr).
Qed.

(** X27.  Each of the five callbacks, run on a heap whose reference
    [activityHistory] holds a log, computes the function of that log and of
    the realm given in [Analytics], and leaves the log and every other
    array on the heap as they were: [getStreakInfo] sorts a copy, [filter]
    allocates, the loops only read. *)
Theorem analytics_leave_arrays `{DateAPI} `{JS.Engine} (h : Store.heap)
        (activityHistory : Store.ref) (log : list Item) (realm : Realm.t) :
  h !! activityHistory = Some log ->
  leaves_arrays Store.getStreakInfo Analytics.getStreakInfo h activityHistory log
  /\ leaves_arrays (Store.getActivityStats realm)
                   (fun log => Analytics.getActivityStats log realm) h activityHistory log
  /\ leaves_arrays (Store.getCategoryStats realm)
                   (fun log => Analytics.getCategoryStats log realm) h activityHistory log
  /\ leaves_arrays Store.getTimeBasedStats Analytics.getTimeBasedStats h activityHistory log
  /\ leaves_arrays (Store.getRecommendationStats realm)
                   (fun log => Analytics.getRecommendationStats log realm)
                   h activityHistory log.
Proof.
  intros Hr. split; [|split; [|split; [|split]]]; apply leaves_arrays_of_run; try exact Hr.
  - now apply getStreakInfo_run.
  - now apply getActivityStats_run.
  - now apply (read_only_run (fun log => Analytics.getCategoryStats log realm)).
  - now apply (read_only_run Analytics.getTimeBasedStats).
  - now apply (read_only_run (fun log => Analytics.getRecommendationStats log realm)).
Qed.

Lemma analytics_leave_arrays_witness :
  three_days_heap !! 1%positive = Some three_days
  /\ leaves_arrays Store.getStreakInfo Analytics.getStreakInfo
                   three_days_heap 1%positive three_days
  /\ snd (Store.getStreakInfo 1%positive three_days_heap) !! 1%positive = Some three_days.
Proof.
  assert (Hr : three_days_heap !! 1%positive = Some three_days) by reflexivity.
  split; [exact Hr|].
  pose proof (@analytics_leave_arrays UTC.api insertion_engine three_days_heap 1%positive
                three_days Realm.pristine Hr) as (Hstreak & _).
  split; [exact Hstreak|]. exact (proj2 (proj2 Hstreak)).
Defined.

(** C9.  The callbacks do not change the log, but two of them are not
    functions of the log alone.  On a log with a title that begins with
    "lastActivity" and one that begins with "__proto__", [getCategoryStats]
    returns, with one bucket; for the second title it has found
    [Object.prototype] where it looked for a bucket and has written its
    five fields on it, so that every object of the page now inherits a
    [lastActivity].  The same call on the same log then finds that string
    where it looks for the bucket "lastActivity" and throws on the first
    assignment; so does [getRecommendationStats], which returned before. *)
Theorem getCategoryStats_twice_differs :
  let h : Store.heap := {[ 1%positive := inherited_titles ]} in
  snd (Store.getCategoryStats Realm.pristine 1%positive h) = h
  /\ exists stats realm1,
      Analytics.getCategoryStats inherited_titles Realm.pristine = (JS.Normal stats, realm1)
      /\ List.map fst (CategoryStats.categories stats) = ["lastActivity"]
      /\ Realm.on realm1 "__proto__"
         = {| Realm.count := true;
              Realm.totalDuration := true;
              Realm.averageDuration := true;
              Realm.completionRate := true;
              Realm.lastActivity := Some (noon 19001);
              Realm.recommended := false;
              Realm.accepted := false;
              Realm.accuracy := false |}
      /\ realm1 <> Realm.pristine
      /\ Analytics.getCategoryStats inherited_titles realm1 = (JS.TypeError, realm1)
      /\ Realm.returned (@Analytics.getRecommendationStats UTC.api inherited_titles
                                                            Realm.pristine)
         <> None
      /\ @Analytics.getRecommendationStats UTC.api inherited_titles realm1
         = (JS.TypeError, realm1).
Proof.
  cbv zeta. split; [reflexivity|].
  do 2 eexists. split; [vm_compute; reflexivity|].
  split; [reflexivity|]. split; [reflexivity|]. split; [discriminate|].
  split; [vm_compute; reflexivity|]. split; [vm_compute; discriminate|].
  vm_compute. reflexivity.
Qed.

(** ** Time-based statistics *)

Lemma count_pos_exists (p : Item -> bool) (l : list Item) :
  0 < count p l -> exists a, In a l /\ p a = true.
Proof.
  induction l as [|a l IH]; [unfold count, Analytics.len; simpl; lia|].
  rewrite count_cons. destruct (p a) eqn:Ea.
  - intros _. exists a. split; [now left | exact Ea].
  - intros Hl. destruct (IH ltac:(lia)) as (b & Hb & Hpb).
    exists b. split; [now right | exact Hpb].
Qed.

Section TimeFacts.
Context `{DateAPI}.

Lemma time_fold (log : list Item) (acc : Analytics.time_acc) :
  Analytics.timeOfDayCounts (fold_left Analytics.time_turn log acc)
  = tallied (fun a => Analytics.timeOfDay_of (ActivityHistoryItem.start_time a)) log
            (Analytics.timeOfDayCounts acc)
  /\ Analytics.dayOfWeekCounts (fold_left Analytics.time_turn log acc)
     = tallied (fun a => weekdayLong (ActivityHistoryItem.start_time a)) log
               (Analytics.dayOfWeekCounts acc).
Proof.
  revert acc. induction log as [|a l IH]; intros acc; [split; reflexivity|].
  simpl. destruct (IH (Analytics.time_turn acc a)) as [Ht Hd].
  rewrite Ht, Hd. split; reflexivity.
Qed.

Lemma timeOfDay_of_cases (t : timestamp) :
  Analytics.timeOfDay_of t = "morning" \/ Analytics.timeOfDay_of t = "afternoon"
  \/ Analytics.timeOfDay_of t = "evening".
Proof.
  unfold Analytics.timeOfDay_of.
  destruct (getHours t <? 12); [now left|].
  destruct (getHours t <? 17); [right; now left | right; now right].
Qed.

(** X11.  On the empty log [bestTimeOfDay] and [mostActiveDay] are
    "unknown".  Otherwise [bestTimeOfDay] is one of "morning", "afternoon"
    and "evening", a time of day at which some activity was started and
    which no other time of day exceeds in activities; [mostActiveDay] is in
    the same way a weekday that no other exceeds. *)
Theorem getTimeBasedStats_best (activityHistory : list Item) :
  match activityHistory with
  | [] =>
      TimeBasedStats.bestTimeOfDay (Analytics.getTimeBasedStats activityHistory) = "unknown"
      /\ TimeBasedStats.mostActiveDay (Analytics.getTimeBasedStats activityHistory)
         = "unknown"
  | _ :: _ =>
      (exists top,
          TimeBasedStats.bestTimeOfDay (Analytics.getTimeBasedStats activityHistory) = top
          /\ (top = "morning" \/ top = "afternoon" \/ top = "evening")
          /\ 0 < count (fun a => String.eqb
                                   (Analytics.timeOfDay_of (ActivityHistoryItem.start_time a))
                                   top) activityHistory
          /\ forall c,
              count (fun a => String.eqb
                                (Analytics.timeOfDay_of (ActivityHistoryItem.start_time a))
                                c) activityHistory
              <= count (fun a => String.eqb
                                   (Analytics.timeOfDay_of (ActivityHistoryItem.start_time a))
                                   top) activityHistory)
      /\ (exists day,
             TimeBasedStats.mostActiveDay (Analytics.getTimeBasedStats activityHistory)
             = JS.or_else day "unknown"
             /\ 0 < count (fun a => String.eqb (weekdayLong (ActivityHistoryItem.start_time a))
                                               day) activityHistory
             /\ forall c,
                 count (fun a => String.eqb (weekdayLong (ActivityHistoryItem.start_time a)) c)
                       activityHistory
                 <= count (fun a => String.eqb (weekdayLong (ActivityHistoryItem.start_time a))
                                               day) activityHistory)
  end.
Proof.
  unfold Analytics.getTimeBasedStats.
  cbn [TimeBasedStats.bestTimeOfDay TimeBasedStats.mostActiveDay].
  match goal with
  | |- context [fold_left Analytics.time_turn _ ?init] =>
      destruct (time_fold activityHistory init) as [Ht Hd]
  end.
  rewrite Ht, Hd. cbn [Analytics.timeOfDayCounts Analytics.dayOfWeekCounts].
  pose proof (most_counted_max
                (fun a => Analytics.timeOfDay_of (ActivityHistoryItem.start_time a))
                activityHistory "unknown") as Hbest.
  pose proof (most_counted_max
                (fun a => weekdayLong (ActivityHistoryItem.start_time a))
                activityHistory "unknown") as Hday.
  destruct activityHistory as [|a0 l0]; [split; assumption|].
  split; [|exact Hday].
  destruct Hbest as (top & Hbest & Hpos & Hmax).
  destruct (count_pos_exists _ _ Hpos) as (a & _ & Ha).
  apply String.eqb_eq in Ha.
  assert (Hcases := timeOfDay_of_cases (ActivityHistoryItem.start_time a)).
  rewrite Ha in Hcases.
  exists top. split; [|split; [exact Hcases | split; assumption]].
  rewrite Hbest. destruct Hcases as [->|[->| ->]]; reflexivity.
Qed.

(** X12.  In the [monthlyStats] of [getTimeBasedStats] the field
    [mostActiveDay] of every month is the empty string: it is initialised
    and never assigned. *)
Theorem getTimeBasedStats_monthly_mostActiveDay (activityHistory : list Item)
        (month : string) (m : TimeBasedStats.monthly) :
  JS.Obj.get (TimeBasedStats.monthlyStats (Analytics.getTimeBasedStats activityHistory)) month
  = Some m ->
  TimeBasedStats.m_mostActiveDay m = "".
Proof.
  unfold Analytics.getTimeBasedStats. cbn [TimeBasedStats.monthlyStats].
  revert month m.
  induction activityHistory as [|a l IH] using rev_ind; intros month m; [discriminate|].
  rewrite fold_left_app. simpl.
  match goal with
  | |- context [fold_left Analytics.time_turn l ?init] =>
      remember (fold_left Analytics.time_turn l init) as acc eqn:Eacc
  end.
  clear Eacc. unfold Analytics.time_turn. cbn [Analytics.monthlyStats].
  rewrite obj_get_set.
  destruct (String.eqb _ month); [|apply IH].
  intros [= <-]. cbn [TimeBasedStats.m_mostActiveDay].
  destruct (JS.Obj.get (Analytics.monthlyStats acc) _) as [m0|] eqn:Em0; [|reflexivity].
  exact (IH _ _ Em0).
Qed.

End TimeFacts.

Lemma getTimeBasedStats_monthly_mostActiveDay_witness :
  exists m,
    JS.Obj.get (TimeBasedStats.monthlyStats (@Analytics.getTimeBasedStats UTC.api three_days))
               "2022-1" = Some m
    /\ TimeBasedStats.m_count m = 3
    /\ TimeBasedStats.m_mostActiveDay m = "".
Proof.
  eexists. split; [vm_compute; reflexivity|]. split; [reflexivity|].
  apply (@getTimeBasedStats_monthly_mostActiveDay UTC.api three_days "2022-1").
  vm_compute. reflexivity.
Defined.

(** ** The calendar of the UTC browser, on known dates *)

(** 1700000000000 is Tuesday 14 November 2023, 22:13:20 UTC. *)
Example utc_calendar_known_date :
  @toISODate UTC.api 1700000000000 = "2023-11-14"
  /\ @getDay UTC.api 1700000000000 = 2
  /\ @getHours UTC.api 1700000000000 = 22
  /\ @weekdayLong UTC.api 1700000000000 = "Tuesday"
  /\ @toISODate UTC.api 0 = "1970-01-01"
  /\ @toISODate UTC.api 951782400000 = "2000-02-29".
Proof. repeat split; vm_compute; reflexivity. Qed.

(** The time-based view of the three-day log: three days, one month, every
    activity in the afternoon. *)
Example time_based_stats_three_days :
  let stats := @Analytics.getTimeBasedStats UTC.api three_days in
  List.map fst (TimeBasedStats.dailyStats stats) = ["2022-01-08"; "2022-01-09"; "2022-01-10"]
  /\ List.map fst (TimeBasedStats.monthlyStats stats) = ["2022-1"]
  /\ TimeBasedStats.bestTimeOfDay stats = "afternoon"
  /\ TimeBasedStats.mostActiveDay stats = "Saturday".
Proof. repeat split; vm_compute; reflexivity. Qed.

(** ** Lifecycle *)

(** Reduces the projections of worlds and states that are given in full. *)
Ltac project_app :=
  cbn beta iota
      delta [fst snd App.state App.localStorage App.tick App.sent
             App.State.sessionId App.State.preferences App.State.activeActivity
             App.State.activityHistory App.State.isLoading App.State.error
             App.State.activityProgress App.State.startTime App.State.completedSteps] in *.

(** Unfolds the combinators of the provider monad. *)
Ltac run_app :=
  unfold App.finally, App.try_catch, App.bind, App.ret, App.throw, App.pending,
    App.await, App.ask, App.get_state, App.get_storage, App.modify_storage,
    App.setSessionId, App.setPreferences, App.setActiveActivity,
    App.setActivityHistory, App.setIsLoading, App.setError,
    App.setActivityProgress, App.setStartTime, App.setCompletedSteps,
    App.modify, state_after in *;
  project_app.

(** X29.  When no history item has the given string as its own [id], or
    no start time is recorded, [completeActivity] raises its error before
    anything else happens: the call returns with the message in the error
    state, no request has gone out, and the log is the one it found. *)
Theorem completeActivity_fails_fast (backend : App.Backend) (w : App.World)
        (activityId : string) (moodLevel : Q) :
  App.find_by_id activityId (App.State.activityHistory (App.state w)) = None
  \/ App.State.startTime (App.state w) = None ->
  fst (App.completeActivity backend activityId moodLevel w) = App.Returned tt
  /\ App.State.error (state_after (App.completeActivity backend activityId moodLevel w))
     = Some "Activity not found or not started"
  /\ App.State.activityHistory (state_after (App.completeActivity backend activityId moodLevel w))
     = App.State.activityHistory (App.state w)
  /\ App.sent (snd (App.completeActivity backend activityId moodLevel w)) = App.sent w
  /\ App.tick (snd (App.completeActivity backend activityId moodLevel w)) = App.tick w.
Proof.
  intros Hmiss. unfold App.completeActivity. run_app.
  destruct (App.find_by_id activityId (App.State.activityHistory (App.state w))) as [a|];
    destruct (App.State.startTime (App.state w)) as [t|];
    try (destruct Hmiss; discriminate);
    cbn; repeat split; reflexivity.
Qed.

Lemma completeActivity_fails_fast_witness :
  App.find_by_id "yoga-1" (App.State.activityHistory (App.state ready_world)) = None
  /\ App.State.error (state_after (App.completeActivity steady "yoga-1" 4 ready_world))
     = Some "Activity not found or not started"
  /\ App.State.activityHistory (state_after (App.completeActivity steady "yoga-1" 4 ready_world))
     = [].
Proof.
  split; [reflexivity|].
  pose proof (completeActivity_fails_fast steady ready_world "yoga-1" 4
                (or_introl eq_refl)) as (_ & Herr & Hlog & _).
  split; [exact Herr | exact Hlog].
Defined.

(** When the item is found, a start time is recorded and the backend
    accepts the completion, one record is appended; its title and category
    are those of the item found, and its [activity_id] is that item's own
    [id], the value the caller passed. *)
Lemma completeActivity_appends (backend : App.Backend) (w : App.World)
      (activityId : string) (moodLevel : Q) (a : Item) (t : timestamp) :
  App.find_by_id activityId (App.State.activityHistory (App.state w)) = Some a ->
  App.State.startTime (App.state w) = Some t ->
  (forall n sid d, App.completeActivityApi backend n activityId sid d [] = App.Resolved tt) ->
  exists r,
    App.State.activityHistory (state_after (App.completeActivity backend activityId moodLevel w))
    = App.State.activityHistory (App.state w) ++ [r]
    /\ ActivityHistoryItem.completed r = true
    /\ ActivityHistoryItem.activity_id r = ActivityHistoryItem.id a
    /\ ActivityHistoryItem.activity_title r = ActivityHistoryItem.activity_title a
    /\ ActivityHistoryItem.category r = ActivityHistoryItem.category a.
Proof.
  intros Hfind Hstart Hapi. unfold App.completeActivity. run_app.
  rewrite Hfind, Hstart. project_app. rewrite Hapi. cbn.
  eexists. split; [reflexivity|]. repeat split; reflexivity.
Qed.

(** [completeActivity] never throws and is never left pending: whatever
    happens, its promise resolves. *)
Lemma completeActivity_resolves (backend : App.Backend) (w : App.World)
      (activityId : string) (moodLevel : Q) :
  fst (App.completeActivity backend activityId moodLevel w) = App.Returned tt.
Proof.
  unfold App.completeActivity. run_app.
  destruct (App.find_by_id activityId (App.State.activityHistory (App.state w))) as [a|];
    destruct (App.State.startTime (App.state w)) as [t|]; project_app;
    try reflexivity.
  match goal with
  | |- context [App.completeActivityApi ?b ?n ?i ?s ?d ?c] =>
      destruct (App.completeActivityApi b n i s d c)
  end; reflexivity.
Qed.

(** C6.  The item that [completeActivity] requires is one whose own [id],
    the time stamp given to the record, equals the argument; the id of
    the activity is not looked at.  After [startActivity "yoga-1"] has
    left one record and a start time, [completeActivity "1700000000002"]
    is given a string that is the activity id of no item, reports no
    error and appends a completion; [completeActivity "yoga-1"], the id
    of the activity that was started, reports "Activity not found or not
    started" and appends nothing.  In either case, and in every other,
    the call itself returns: the error is a message in the state of the
    provider, not a rejection the caller could catch. *)
Theorem completeActivity_matches_record_id :
  let w := snd (App.bind (App.startActivity once 2 "yoga-1")
                         (fun _ => Provider.clearError) ready_world) in
  List.map ActivityHistoryItem.activity_id (App.State.activityHistory (App.state w))
  = ["yoga-1"]
  /\ List.map ActivityHistoryItem.id (App.State.activityHistory (App.state w))
     = ["1700000000002"]
  /\ App.State.startTime (App.state w) = Some 1700000000001
  /\ App.State.error (App.state w) = None
  /\ (let r := App.completeActivity once "1700000000002" 4 w in
      fst r = App.Returned tt
      /\ App.State.error (state_after r) = None
      /\ List.map ActivityHistoryItem.completed (App.State.activityHistory (state_after r))
         = [false; true])
  /\ (let r := App.completeActivity once "yoga-1" 4 w in
      fst r = App.Returned tt
      /\ App.State.error (state_after r) = Some "Activity not found or not started"
      /\ App.State.activityHistory (state_after r)
         = App.State.activityHistory (App.state w))
  /\ (forall (backend : App.Backend) (w' : App.World) (activityId : string) (moodLevel : Q),
         fst (App.completeActivity backend activityId moodLevel w') = App.Returned tt).
Proof.
  cbv zeta.
  split; [vm_compute; reflexivity|]. split; [vm_compute; reflexivity|].
  split; [vm_compute; reflexivity|]. split; [vm_compute; reflexivity|].
  split; [vm_compute; repeat split; reflexivity|].
  split; [vm_compute; repeat split; reflexivity|].
  apply completeActivity_resolves.
Qed.

(** C8, as the code has it.  With a session id in local storage and the
    session fetch rejected, [initializeSession] returns without throwing,
    with the message of the failure in the error state and the loading flag
    down; it has not read the snapshot: history, progress and preferences
    are what they were before the call, and local storage is untouched. *)
Theorem initializeSession_fetch_rejected (backend : App.Backend) (w : App.World)
        (storedSessionId : string) (e : App.thrown) :
  App.present (App.Storage.sessionId (App.localStorage w)) = Some storedSessionId ->
  App.getSession backend (App.tick w) storedSessionId = App.Rejected e ->
  fst (App.initializeSession backend w) = App.Returned tt
  /\ App.State.error (state_after (App.initializeSession backend w))
     = Some (App.message_or e "Failed to initialize session")
  /\ App.State.isLoading (state_after (App.initializeSession backend w)) = false
  /\ App.State.activityHistory (state_after (App.initializeSession backend w))
     = App.State.activityHistory (App.state w)
  /\ App.State.activityProgress (state_after (App.initializeSession backend w))
     = App.State.activityProgress (App.state w)
  /\ App.State.preferences (state_after (App.initializeSession backend w))
     = App.State.preferences (App.state w)
  /\ App.localStorage (snd (App.initializeSession backend w)) = App.localStorage w.
Proof.
  intros Hsid Hrej. unfold App.initializeSession. run_app.
  rewrite Hsid. project_app. rewrite Hrej. cbn. repeat split; reflexivity.
Qed.

Lemma initializeSession_fetch_rejected_witness :
  App.present (App.Storage.sessionId (App.localStorage returning_world)) = Some "session-1"
  /\ App.State.error (state_after (App.initializeSession offline returning_world))
     = Some "Network Error"
  /\ App.State.activityHistory (state_after (App.initializeSession offline returning_world))
     = [].
Proof.
  split; [reflexivity|].
  pose proof (initializeSession_fetch_rejected offline returning_world "session-1"
                (App.ErrorObj "Network Error") eq_refl eq_refl)
    as (_ & Herr & _ & Hlog & _).
  split; [exact Herr | exact Hlog].
Defined.

(** The snapshot in local storage holds the three-day log, the session
    fetch is rejected with a network error, and the history the provider
    is left with is empty: there is no fall-back to the snapshot. *)
Lemma initializeSession_no_fallback :
  App.Storage.activityHistory (App.localStorage returning_world) = Some (App.Parses three_days)
  /\ App.getSession offline 0 "session-1" = App.Rejected (App.ErrorObj "Network Error")
  /\ App.State.activityHistory (state_after (App.initializeSession offline returning_world)) = []
  /\ App.State.activityHistory (state_after (App.initializeSession offline returning_world))
     <> three_days.
Proof. repeat split; try reflexivity. vm_compute. discriminate. Qed.

(** The snapshot is read on the other path only, after the fetch resolved. *)
Lemma initializeSession_restores_after_fetch :
  App.State.activityHistory (state_after (App.initializeSession steady returning_world))
  = three_days
  /\ App.State.error (state_after (App.initializeSession steady returning_world)) = None.
Proof. split; vm_compute; reflexivity. Qed.

(** While the catalogue keeps serving the activity, a call of
    [startActivity] never settles: at every depth of re-entry it is still
    pending, having appended one start record per level. *)
Lemma startActivity_never_settles (backend : App.Backend) (activityId : string)
      (activity : Activity.t) :
  (forall n, App.getActivity backend n activityId = App.Resolved (Some activity)) ->
  forall (fuel : nat) (w : App.World),
    fst (App.startActivity backend fuel activityId w) = App.Pending
    /\ List.length (App.State.activityHistory
                      (state_after (App.startActivity backend fuel activityId w)))
       = (List.length (App.State.activityHistory (App.state w)) + fuel)%nat.
Proof.
  intros Hserved. induction fuel as [|fuel IH]; intros w.
  - cbn. split; [reflexivity | now rewrite Nat.add_0_r].
  - cbn [App.startActivity]. run_app. rewrite Hserved. project_app.
    match goal with
    | |- context [App.startActivity backend fuel activityId ?w1] =>
        specialize (IH w1);
        destruct (App.startActivity backend fuel activityId w1) as [o w2]
    end.
    run_app. destruct IH as [Ho Hlen]. subst o. project_app.
    split; [reflexivity|].
    rewrite Hlen, length_app. simpl. lia.
Qed.

(** X25.  [startActivity] only appends to the log, and each record it appends
    is the start record of an entry the catalogue served for the id: not
    completed, with the id, the title and the category of that entry. *)
Lemma startActivity_appends_start_records (backend : App.Backend) (activityId : string)
      (fuel : nat) (w : App.World) :
  exists more,
    App.State.activityHistory (state_after (App.startActivity backend fuel activityId w))
    = App.State.activityHistory (App.state w) ++ more
    /\ Forall (fun r => exists n activity,
                  App.getActivity backend n activityId = App.Resolved (Some activity)
                  /\ start_record_of activity r) more.
Proof.
  revert w. induction fuel as [|fuel IH]; intros w.
  - exists []. cbn. split; [now rewrite app_nil_r | constructor].
  - cbn [App.startActivity]. run_app.
    destruct (App.getActivity backend (App.tick w) activityId) as [[activity|]|e] eqn:Eget;
      project_app.
    + match goal with
      | |- context [App.startActivity backend fuel activityId ?w1] =>
          destruct (IH w1) as (more & Hlog & Hmore);
          destruct (App.startActivity backend fuel activityId w1) as [o w2]
      end.
      run_app.
      match type of Hlog with
      | _ = (_ ++ [?r]) ++ _ => exists (r :: more)
      end.
      split.
      * destruct o; project_app; rewrite Hlog, <- app_assoc; reflexivity.
      * constructor; [|exact Hmore].
        exists (App.tick w), activity. split; [exact Eget|].
        repeat split; reflexivity.
    + exists []. split; [now rewrite app_nil_r | constructor].
    + exists []. split; [now rewrite app_nil_r | constructor].
Qed.

(** C5.  [startActivity] and [completeActivity] called with the same
    activity id do not leave a log of two records with one completion.
    Against a backend that keeps answering, [startActivity "yoga-1"] is
    pending at every depth with as many start records as it has re-entered
    itself.  Against a catalogue that answers once, it returns with one
    start record; [completeActivity "yoga-1"] then compares the id with the
    record's own [id], a time stamp, finds nothing and reports its error:
    the log keeps its single record and has no completed item. *)
Theorem start_then_complete_same_id :
  (forall fuel : nat,
     fst (App.startActivity steady fuel "yoga-1" ready_world) = App.Pending
     /\ List.length (App.State.activityHistory
                       (state_after (App.startActivity steady fuel "yoga-1" ready_world)))
        = fuel)
  /\ (let r := App.bind (App.startActivity once 2 "yoga-1")
                        (fun _ => App.completeActivity once "yoga-1" 4) ready_world in
      fst r = App.Returned tt
      /\ List.map ActivityHistoryItem.id (App.State.activityHistory (state_after r))
         = ["1700000000002"]
      /\ List.map ActivityHistoryItem.activity_id (App.State.activityHistory (state_after r))
         = ["yoga-1"]
      /\ List.filter ActivityHistoryItem.completed (App.State.activityHistory (state_after r))
         = []
      /\ App.State.error (state_after r) = Some "Activity not found or not started").
Proof.
  split.
  - intros fuel.
    destruct (startActivity_never_settles steady "yoga-1" yoga (fun _ => eq_refl)
                fuel ready_world) as [Hp Hlen].
    split; [exact Hp | exact Hlen].
  - vm_compute. repeat split; reflexivity.
Qed.

(** C7.  The start record carries the id, title and category of the
    activity fetched from the catalogue.  The completion record, appended
    when [completeActivity] is given the id of that start record, repeats
    its title and category, but its [activity_id] is the id of the record,
    "1700000000002", not the "yoga-1" of the catalogue entry. *)
Theorem completion_record_activity_id :
  let r := App.bind (App.startActivity once 2 "yoga-1")
                    (fun _ => App.completeActivity once "1700000000002" (9 # 2))
                    ready_world in
  fst r = App.Returned tt
  /\ Activity.id yoga = "yoga-1"
  /\ List.map ActivityHistoryItem.completed (App.State.activityHistory (state_after r))
     = [false; true]
  /\ List.map ActivityHistoryItem.activity_id (App.State.activityHistory (state_after r))
     = ["yoga-1"; "1700000000002"]
  /\ List.map ActivityHistoryItem.activity_title (App.State.activityHistory (state_after r))
     = ["Morning Yoga"; "Morning Yoga"]
  /\ List.map ActivityHistoryItem.category (App.State.activityHistory (state_after r))
     = ["Physical"; "Physical"].
Proof. vm_compute. repeat split; reflexivity. Qed.

(** ** Starting an activity *)

(** Unfolds the operations of [Provider] and the combinators under them. *)
Ltac run_provider :=
  unfold Provider.refreshActivityHistory, Provider.updateUserPreferences,
    Provider.updateActivityProgress, Provider.clearError,
    Provider.call, Provider.store_history, Provider.store_progress,
    Provider.store_preferences, Provider.remove_items in *;
  run_app.

(** Runs the combinators of the provider by value, for a world that is
    given as a record: every world is reduced before the next operation
    reads it. *)
Ltac step_app :=
  cbv beta iota zeta
      delta [App.finally App.try_catch App.bind App.ret App.throw App.pending
             App.await App.ask App.get_state App.get_storage App.modify_storage
             App.setSessionId App.setPreferences App.setActiveActivity
             App.setActivityHistory App.setIsLoading App.setError
             App.setActivityProgress App.setStartTime App.setCompletedSteps
             App.modify App.JSON_parse state_after
             Provider.call Provider.store_history Provider.store_progress
             Provider.store_preferences Provider.remove_items Provider.clearError
             fst snd App.state App.localStorage App.tick App.sent
             App.State.sessionId App.State.preferences App.State.activeActivity
             App.State.activityHistory App.State.isLoading App.State.error
             App.State.activityProgress App.State.startTime App.State.completedSteps
             App.Storage.sessionId App.Storage.activityHistory
             App.Storage.activityProgress App.Storage.userPreferences].

(** The world a failed first fetch leaves. *)
Lemma startActivity_fails_run (backend : App.Backend) (fuel : nat) (w : App.World)
      (activityId msg : string) :
  fetch_failure (App.getActivity backend (App.tick w) activityId) = Some msg ->
  App.startActivity backend (S fuel) activityId w
  = (App.Returned tt,
     {| App.state :=
          {| App.State.sessionId := App.State.sessionId (App.state w);
             App.State.preferences := App.State.preferences (App.state w);
             App.State.activeActivity := App.State.activeActivity (App.state w);
             App.State.activityHistory := App.State.activityHistory (App.state w);
             App.State.isLoading := false;
             App.State.error := Some msg;
             App.State.activityProgress := App.State.activityProgress (App.state w);
             App.State.startTime := App.State.startTime (App.state w);
             App.State.completedSteps := App.State.completedSteps (App.state w) |};
        App.localStorage := App.localStorage w;
        App.tick := S (App.tick w);
        App.sent := App.sent w ++ [App.GetActivity activityId] |}).
Proof.
  intros Hfail. cbn [App.startActivity]. run_app.
  destruct (App.getActivity backend (App.tick w) activityId) as [[activity|]|e];
    [discriminate| |]; cbn in Hfail; injection Hfail as <-; reflexivity.
Qed.

(** X13.  When the fetch of the activity is rejected or delivers nothing,
    [startActivity] returns at once: it reports the failure in the error
    state, lowers the loading flag and leaves the log, the start time and
    the active activity as they were. *)
Theorem startActivity_fetch_fails (backend : App.Backend) (fuel : nat) (w : App.World)
        (activityId msg : string) :
  fetch_failure (App.getActivity backend (App.tick w) activityId) = Some msg ->
  fst (App.startActivity backend (S fuel) activityId w) = App.Returned tt
  /\ App.State.error (state_after (App.startActivity backend (S fuel) activityId w))
     = Some msg
  /\ App.State.isLoading (state_after (App.startActivity backend (S fuel) activityId w))
     = false
  /\ App.State.activityHistory (state_after (App.startActivity backend (S fuel) activityId w))
     = App.State.activityHistory (App.state w)
  /\ App.State.startTime (state_after (App.startActivity backend (S fuel) activityId w))
     = App.State.startTime (App.state w)
  /\ App.State.activeActivity (state_after (App.startActivity backend (S fuel) activityId w))
     = App.State.activeActivity (App.state w)
  /\ App.sent (snd (App.startActivity backend (S fuel) activityId w))
     = App.sent w ++ [App.GetActivity activityId].
Proof.
  intros Hfail. unfold state_after.
  rewrite (startActivity_fails_run backend fuel w activityId msg Hfail).
  repeat split; reflexivity.
Qed.

Lemma startActivity_fetch_fails_witness :
  fetch_failure (App.getActivity offline 0 "yoga-1") = Some "Network Error"
  /\ App.State.error (state_after (App.startActivity offline 1 "yoga-1" ready_world))
     = Some "Network Error"
  /\ App.State.activityHistory (state_after (App.startActivity offline 1 "yoga-1" ready_world))
     = [].
Proof.
  split; [reflexivity|].
  pose proof (startActivity_fetch_fails offline 0 ready_world "yoga-1" "Network Error"
                eq_refl) as (_ & Herr & _ & Hlog & _).
  split; [exact Herr | exact Hlog].
Defined.

(** X14.  [startActivity] returns as soon as one of its repeated fetches
    fails: if the catalogue serves the activity [k] times and fails at the
    next fetch, then with enough fuel the call returns with [k] start
    records appended, the failure in the error state and the loading flag
    down. *)
Theorem startActivity_returns_when_fetch_fails (backend : App.Backend)
        (activityId msg : string) (k : nat) :
  forall (served : nat -> Activity.t) (fuel : nat) (w : App.World),
    (forall i, (i < k)%nat ->
               App.getActivity backend (App.tick w + 3 * i) activityId
               = App.Resolved (Some (served i))) ->
    fetch_failure (App.getActivity backend (App.tick w + 3 * k) activityId) = Some msg ->
    (k < fuel)%nat ->
    fst (App.startActivity backend fuel activityId w) = App.Returned tt
    /\ List.length (App.State.activityHistory
                      (state_after (App.startActivity backend fuel activityId w)))
       = (List.length (App.State.activityHistory (App.state w)) + k)%nat
    /\ App.State.error (state_after (App.startActivity backend fuel activityId w))
       = Some msg
    /\ App.State.isLoading (state_after (App.startActivity backend fuel activityId w))
       = false.
Proof.
  induction k as [|k IH]; intros served fuel w Hserved Hfail Hfuel.
  - destruct fuel as [|fuel]; [lia|].
    rewrite Nat.mul_0_r, Nat.add_0_r in Hfail.
    unfold state_after.
    rewrite (startActivity_fails_run backend fuel w activityId msg Hfail).
    cbn [fst snd App.state App.State.activityHistory App.State.error App.State.isLoading].
    rewrite Nat.add_0_r. repeat split; reflexivity.
  - destruct fuel as [|fuel]; [lia|].
    pose proof (Hserved 0%nat ltac:(lia)) as H0.
    rewrite Nat.mul_0_r, Nat.add_0_r in H0.
    cbn [App.startActivity]. run_app. rewrite H0. project_app.
    match goal with
    | |- context [App.startActivity backend fuel activityId ?w1] =>
        specialize (IH (fun i => served (S i)) fuel w1);
        destruct (App.startActivity backend fuel activityId w1) as [o w2]
    end.
    run_app.
    destruct IH as (Hr & Hlen & He & Hl); [| |lia|].
    + intros i Hi.
      replace (S (S (S (App.tick w))) + 3 * i)%nat with (App.tick w + 3 * S i)%nat by lia.
      apply Hserved. lia.
    + replace (S (S (S (App.tick w))) + 3 * k)%nat with (App.tick w + 3 * S k)%nat by lia.
      exact Hfail.
    + subst o. project_app. rewrite Hlen, length_app. simpl.
      repeat split; try assumption. lia.
Qed.

Lemma startActivity_returns_when_fetch_fails_witness :
  fst (App.startActivity once 2 "yoga-1" ready_world) = App.Returned tt
  /\ List.length (App.State.activityHistory
                    (state_after (App.startActivity once 2 "yoga-1" ready_world))) = 1%nat
  /\ App.State.error (state_after (App.startActivity once 2 "yoga-1" ready_world))
     = Some "Network Error".
Proof.
  assert (Hserved : forall i, (i < 1)%nat ->
                      App.getActivity once (App.tick ready_world + 3 * i) "yoga-1"
                      = App.Resolved (Some yoga))
    by (intros [|i] Hi; [reflexivity | lia]).
  pose proof (startActivity_returns_when_fetch_fails once "yoga-1" "Network Error" 1
                (fun _ => yoga) 2 ready_world Hserved eq_refl ltac:(lia))
    as (Hr & Hlen & He & _).
  split; [exact Hr|]. split; [exact Hlen | exact He].
Defined.

(** ** Completing an activity *)

(** [Math.round] does not go below zero on a number that is not
    negative. *)
Lemma Math_round_nonneg (q : Q) : (0 <= q)%Q -> 0 <= JS.Math_round q.
Proof.
  intros Hq. unfold JS.Math_round.
  change 0 with (Qfloor 0). apply Qfloor_resp_le. lra.
Qed.

(** For a span of [m] milliseconds below [2^51], the seconds computed in
    doubles are those of exact arithmetic: within half a unit of
    [m / 1000], the half rounded upwards. *)
Lemma Math_round_seconds (m : Z) :
  0 <= m < 2 ^ 51 ->
  2 * m - 1000
  < 2000 * JS.Math_round (JS.nearest (JS.nearest (inject_Z m) / inject_Z 1000))
  <= 2 * m + 1000.
Proof.
  intros Hm.
  assert (Em : (JS.nearest (inject_Z m) == inject_Z m)%Q) by (apply nearest_Z; lia).
  set (x := (inject_Z m / inject_Z 1000)%Q).
  assert (Ex : JS.nearest (JS.nearest (inject_Z m) / inject_Z 1000) = JS.nearest x)
    by (apply nearest_Qeq; unfold x; now rewrite Em).
  rewrite Ex. clear Ex Em.
  assert (Hm0 : (0 <= inject_Z m)%Q)
    by (change 0%Q with (inject_Z 0); rewrite <- Zle_Qle; lia).
  assert (Hm1 : (inject_Z m < inject_Z (2 ^ 51))%Q) by (rewrite <- Zlt_Qlt; lia).
  assert (Exm : (inject_Z 1000 * x == inject_Z m)%Q) by (unfold x; field).
  change (inject_Z 1000) with 1000%Q in Exm.
  change (inject_Z (2 ^ 51)) with 2251799813685248%Q in Hm1.
  assert (Hx0 : (0 <= x)%Q) by lra.
  assert (Hx1 : (x < JS.pow2 (41 + 1))%Q).
  { assert (E42 : (JS.pow2 (41 + 1) == 4398046511104)%Q) by reflexivity.
    rewrite E42. lra. }
  pose proof (nearest_error x 41 Hx0 Hx1) as Herr.
  change (JS.pow2 (Z.max (41 - 52) (-1074) - 1)) with (JS.pow2 (-12)) in Herr.
  assert (E12 : (JS.pow2 (-12) == 1 # 4096)%Q) by reflexivity.
  rewrite E12 in Herr. apply Qabs_Qle_condition in Herr as [Hlo Hhi].
  unfold JS.Math_round.
  pose proof (floor_bounds (JS.nearest x + (1 # 2))) as [Hf1 Hf2].
  set (y := JS.nearest x) in *.
  set (d := Qfloor (y + (1 # 2))) in *.
  assert (Hup : (inject_Z (2000 * d) < inject_Z (2 * m + 1001))%Q).
  { rewrite inject_Z_mult, inject_Z_plus, inject_Z_mult.
    change (inject_Z 2000) with 2000%Q. change (inject_Z 2) with 2%Q.
    change (inject_Z 1001) with 1001%Q. lra. }
  assert (Hdown : (inject_Z (2 * m - 1001) < inject_Z (2000 * d))%Q).
  { rewrite inject_Z_mult. unfold Z.sub. rewrite inject_Z_plus, inject_Z_mult.
    change (inject_Z 2000) with 2000%Q. change (inject_Z 2) with 2%Q.
    change (inject_Z (- (1001))) with (- (1001))%Q. lra. }
  rewrite <- Zlt_Qlt in Hup, Hdown.
  split; [|lia].
  destruct (Z.eq_dec (2000 * d) (2 * m - 1000)) as [Eq|]; [exfalso | lia].
  assert (Emd : m = 1000 * d + 500) by lia.
  assert (Exd : (x == inject_Z (2 * d + 1) * JS.pow2 (-1))%Q).
  { assert (E1 : (JS.pow2 (-1) == 1 # 2)%Q) by reflexivity.
    rewrite E1. unfold x. rewrite Emd.
    rewrite !inject_Z_plus, !inject_Z_mult.
    change (inject_Z 1000) with 1000%Q. change (inject_Z 500) with 500%Q.
    change (inject_Z 2) with 2%Q. change (inject_Z 1) with 1%Q. field. }
  assert (Ey : (y == inject_Z (2 * d + 1) * JS.pow2 (-1))%Q).
  { unfold y. rewrite (nearest_Qeq _ _ Exd). apply nearest_exact; lia. }
  assert (Ed : d = d + 1).
  { unfold d at 1. rewrite <- (Qfloor_Z (d + 1)). apply Qfloor_comp.
    rewrite Ey.
    assert (E1 : (JS.pow2 (-1) == 1 # 2)%Q) by reflexivity.
    rewrite E1, !inject_Z_plus, inject_Z_mult.
    change (inject_Z 2) with 2%Q. change (inject_Z 1) with 1%Q. field. }
  lia.
Qed.

(** [Math.floor(mood * 10)] for a mood between 1 and 5 lies between 10 and
    50. *)
Lemma points_bounds (moodLevel : Q) :
  (1 <= moodLevel)%Q -> (moodLevel <= 5)%Q ->
  10 <= JS.Math_floor (JS.nearest (moodLevel * inject_Z 10)) <= 50.
Proof.
  intros Hlo Hhi. unfold JS.Math_floor.
  change (inject_Z 10) with 10%Q.
  assert (E10 : JS.nearest 10 = 10%Q) by (vm_compute; reflexivity).
  assert (E50 : JS.nearest 50 = 50%Q) by (vm_compute; reflexivity).
  pose proof (nearest_mono 10 (moodLevel * 10) ltac:(discriminate) ltac:(lra)) as H1.
  pose proof (nearest_mono (moodLevel * 10) 50 ltac:(lra) ltac:(lra)) as H2.
  rewrite E10 in H1. rewrite E50 in H2.
  split.
  - change 10 with (Qfloor 10). now apply Qfloor_resp_le.
  - change 50 with (Qfloor 50). now apply Qfloor_resp_le.
Qed.

(** X15.  A completion that the backend accepts appends one record, marked
    completed: it keeps the recorded start time, is stamped with the time
    of completion, its [duration] is the elapsed time in seconds as
    doubles round it (for a span below [2^51] ms the nearest whole second,
    halves upwards; never negative when the clock has not gone back), and
    its [points] are [floor(mood * 10)] with the product a double, between
    10 and 50 for a mood between 1 and 5.  The start time and the active
    activity are cleared. *)
Theorem completeActivity_records (backend : App.Backend) (w : App.World)
        (activityId : string) (moodLevel : Q) (a : Item) (t : timestamp) :
  App.find_by_id activityId (App.State.activityHistory (App.state w)) = Some a ->
  App.State.startTime (App.state w) = Some t ->
  (forall n sid d, App.completeActivityApi backend n activityId sid d [] = App.Resolved tt) ->
  exists r,
    App.State.activityHistory (state_after (App.completeActivity backend activityId moodLevel w))
    = App.State.activityHistory (App.state w) ++ [r]
    /\ ActivityHistoryItem.completed r = true
    /\ ActivityHistoryItem.start_time r = t
    /\ ActivityHistoryItem.completed_at r = Some (App.now backend (App.tick w))
    /\ ActivityHistoryItem.duration r
       = JS.Math_round
           (JS.nearest (JS.nearest (inject_Z (App.now backend (App.tick w) - t))
                        / inject_Z 1000))
    /\ (0 <= App.now backend (App.tick w) - t < 2 ^ 51 ->
        2 * (App.now backend (App.tick w) - t) - 1000
        < 2000 * ActivityHistoryItem.duration r
        <= 2 * (App.now backend (App.tick w) - t) + 1000)
    /\ (t <= App.now backend (App.tick w) -> 0 <= ActivityHistoryItem.duration r)
    /\ ActivityHistoryItem.mood_level r = Some moodLevel
    /\ ActivityHistoryItem.points r
       = JS.Math_floor (JS.nearest (moodLevel * inject_Z 10))
    /\ ((1 <= moodLevel)%Q -> (moodLevel <= 5)%Q ->
        10 <= ActivityHistoryItem.points r <= 50)
    /\ App.State.startTime (state_after (App.completeActivity backend activityId moodLevel w))
       = None
    /\ App.State.activeActivity
         (state_after (App.completeActivity backend activityId moodLevel w)) = None.
Proof.
  intros Hfind Hstart Hapi. unfold App.completeActivity. run_app.
  rewrite Hfind, Hstart. project_app. rewrite Hapi. project_app.
  eexists. split; [reflexivity|].
  cbn [ActivityHistoryItem.start_time ActivityHistoryItem.completed_at
       ActivityHistoryItem.duration ActivityHistoryItem.mood_level
       ActivityHistoryItem.points ActivityHistoryItem.completed].
  split; [reflexivity|]. split; [reflexivity|]. split; [reflexivity|].
  split; [reflexivity|].
  split; [apply Math_round_seconds|].
  split.
  { intros Hclock. apply Math_round_nonneg, nearest_nonneg.
    apply Qle_shift_div_l; [reflexivity|]. rewrite Qmult_0_l.
    apply nearest_nonneg. change 0%Q with (inject_Z 0). rewrite <- Zle_Qle. lia. }
  split; [reflexivity|]. split; [reflexivity|].
  split; [apply points_bounds|].
  split; reflexivity.
Qed.

Lemma completeActivity_records_witness :
  let w := snd (App.startActivity once 2 "yoga-1" ready_world) in
  exists r,
    App.State.activityHistory
      (state_after (App.completeActivity once "1700000000002" (9 # 2) w))
    = App.State.activityHistory (App.state w) ++ [r]
    /\ ActivityHistoryItem.start_time r = 1700000000001
    /\ ActivityHistoryItem.completed r = true
    /\ ActivityHistoryItem.points r = 45.
Proof.
  cbv zeta.
  eassert (Ea : App.find_by_id "1700000000002"
                  (App.State.activityHistory
                     (App.state (snd (App.startActivity once 2 "yoga-1" ready_world))))
                = Some _) by (vm_compute; reflexivity).
  destruct (completeActivity_records once (snd (App.startActivity once 2 "yoga-1" ready_world))
              "1700000000002" (9 # 2) _ 1700000000001 Ea eq_refl (fun _ _ _ => eq_refl))
    as (r & Hlog & Hdone & Hstart & _ & _ & _ & _ & _ & Hpoints & _).
  exists r. split; [exact Hlog|]. split; [exact Hstart|]. split; [exact Hdone|].
  rewrite Hpoints. vm_compute. reflexivity.
Defined.

(** X16.  A completion that the backend rejects is not recorded: the log,
    the start time and the active activity stay as they were, so the
    completion can be tried again, and the message of the rejection is in
    the error state. *)
Theorem completeActivity_backend_rejects (backend : App.Backend) (w : App.World)
        (activityId : string) (moodLevel : Q) (a : Item) (t : timestamp) (e : App.thrown) :
  App.find_by_id activityId (App.State.activityHistory (App.state w)) = Some a ->
  App.State.startTime (App.state w) = Some t ->
  (forall sid d,
      App.completeActivityApi backend (S (App.tick w)) activityId sid d [] = App.Rejected e) ->
  fst (App.completeActivity backend activityId moodLevel w) = App.Returned tt
  /\ App.State.activityHistory (state_after (App.completeActivity backend activityId moodLevel w))
     = App.State.activityHistory (App.state w)
  /\ App.State.startTime (state_after (App.completeActivity backend activityId moodLevel w))
     = Some t
  /\ App.State.activeActivity (state_after (App.completeActivity backend activityId moodLevel w))
     = App.State.activeActivity (App.state w)
  /\ App.State.error (state_after (App.completeActivity backend activityId moodLevel w))
     = Some (App.message_or e "Failed to complete activity")
  /\ App.State.isLoading (state_after (App.completeActivity backend activityId moodLevel w))
     = false.
Proof.
  intros Hfind Hstart Hapi. unfold App.completeActivity. run_app.
  rewrite Hfind, Hstart. project_app. rewrite Hapi. project_app.
  repeat split; reflexivity.
Qed.

Lemma completeActivity_backend_rejects_witness :
  let w := snd (App.startActivity once 2 "yoga-1" ready_world) in
  App.State.startTime (App.state w) = Some 1700000000001
  /\ List.length (App.State.activityHistory
                    (state_after (App.completeActivity offline "1700000000002" 4 w))) = 1%nat
  /\ App.State.startTime (state_after (App.completeActivity offline "1700000000002" 4 w))
     = Some 1700000000001
  /\ App.State.error (state_after (App.completeActivity offline "1700000000002" 4 w))
     = Some "Network Error".
Proof.
  cbv zeta. split; [reflexivity|].
  eassert (Ea : App.find_by_id "1700000000002"
                  (App.State.activityHistory
                     (App.state (snd (App.startActivity once 2 "yoga-1" ready_world))))
                = Some _) by (vm_compute; reflexivity).
  pose proof (completeActivity_backend_rejects offline
                (snd (App.startActivity once 2 "yoga-1" ready_world))
                "1700000000002" 4 _ 1700000000001 (App.ErrorObj "Network Error")
                Ea eq_refl (fun _ _ => eq_refl)) as (_ & Hlog & Hst & _ & He & _).
  split; [now rewrite Hlog|]. split; [exact Hst | exact He].
Defined.

(** ** Initialising the session *)

(** The world [initializeSession] leaves when local storage holds no
    session id. *)
Lemma initializeSession_create_run (backend : App.Backend) (w : App.World) :
  App.present (App.Storage.sessionId (App.localStorage w)) = None ->
  App.initializeSession backend w
  = let userId := ("user-" ++ JS.toString (App.now backend (App.tick w)))%string in
    (App.Returned tt,
     {| App.state :=
          {| App.State.sessionId :=
               match App.createSession backend (S (App.tick w)) userId with
               | App.Resolved newSession => Some (SessionResponse.session_id newSession)
               | App.Rejected _ => App.State.sessionId (App.state w)
               end;
             App.State.preferences := App.State.preferences (App.state w);
             App.State.activeActivity := App.State.activeActivity (App.state w);
             App.State.activityHistory := App.State.activityHistory (App.state w);
             App.State.isLoading := false;
             App.State.error :=
               match App.createSession backend (S (App.tick w)) userId with
               | App.Resolved _ => App.State.error (App.state w)
               | App.Rejected e => Some (App.message_or e "Failed to initialize session")
               end;
             App.State.activityProgress := App.State.activityProgress (App.state w);
             App.State.startTime := App.State.startTime (App.state w);
             App.State.completedSteps := App.State.completedSteps (App.state w) |};
        App.localStorage :=
          match App.createSession backend (S (App.tick w)) userId with
          | App.Resolved newSession =>
              {| App.Storage.sessionId := Some (SessionResponse.session_id newSession);
                 App.Storage.activityHistory :=
                   App.Storage.activityHistory (App.localStorage w);
                 App.Storage.activityProgress :=
                   App.Storage.activityProgress (App.localStorage w);
                 App.Storage.userPreferences :=
                   App.Storage.userPreferences (App.localStorage w) |}
          | App.Rejected _ => App.localStorage w
          end;
        App.tick := S (S (App.tick w));
        App.sent := App.sent w ++ [App.CreateSession userId] |}).
Proof.
  intros Hnone. cbv zeta. unfold App.initializeSession. run_app.
  rewrite Hnone. project_app.
  match goal with
  | |- context [App.createSession backend ?n ?u] =>
      destruct (App.createSession backend n u)
  end; reflexivity.
Qed.

(** X17.  With no session id in local storage, [initializeSession] asks for
    a new session under the user id "user-" followed by the current time.
    When the backend answers, the id of the new session is put in the state
    and in local storage; when it refuses, both are left as they were and
    the message is in the error state.  Either way the call returns, the
    loading flag is down and the log is untouched. *)
Theorem initializeSession_new_session (backend : App.Backend) (w : App.World) :
  App.present (App.Storage.sessionId (App.localStorage w)) = None ->
  let userId := ("user-" ++ JS.toString (App.now backend (App.tick w)))%string in
  let r := App.initializeSession backend w in
  fst r = App.Returned tt
  /\ App.sent (snd r) = App.sent w ++ [App.CreateSession userId]
  /\ App.State.isLoading (state_after r) = false
  /\ App.State.activityHistory (state_after r) = App.State.activityHistory (App.state w)
  /\ match App.createSession backend (S (App.tick w)) userId with
     | App.Resolved newSession =>
         App.State.sessionId (state_after r) = Some (SessionResponse.session_id newSession)
         /\ App.Storage.sessionId (App.localStorage (snd r))
            = Some (SessionResponse.session_id newSession)
         /\ App.State.error (state_after r) = App.State.error (App.state w)
     | App.Rejected e =>
         App.State.sessionId (state_after r) = App.State.sessionId (App.state w)
         /\ App.localStorage (snd r) = App.localStorage w
         /\ App.State.error (state_after r)
            = Some (App.message_or e "Failed to initialize session")
     end.
Proof.
  intros Hnone. cbv zeta. unfold state_after.
  rewrite (initializeSession_create_run backend w Hnone). cbv zeta. project_app.
  match goal with
  | |- context [App.createSession backend ?n ?u] =>
      destruct (App.createSession backend n u)
  end; repeat split; reflexivity.
Qed.

Lemma initializeSession_new_session_witness :
  let w := {| App.state := initial_state;
              App.localStorage :=
                {| App.Storage.sessionId := None;
                   App.Storage.activityHistory := None;
                   App.Storage.activityProgress := None;
                   App.Storage.userPreferences := None |};
              App.tick := 0%nat;
              App.sent := [] |} in
  App.sent (snd (App.initializeSession steady w)) = [App.CreateSession "user-1700000000000"]
  /\ App.State.isLoading (state_after (App.initializeSession steady w)) = false.
Proof.
  cbv zeta.
  match goal with
  | |- context [App.initializeSession steady ?w] =>
      pose proof (initializeSession_new_session steady w eq_refl) as (_ & Hsent & Hl & _)
  end.
  split; [exact Hsent | exact Hl].
Defined.

(** X18.  When the stored session is fetched and every snapshot in local
    storage is absent or well formed, [initializeSession] takes the session
    id from the answer, and history, progress and preferences from local
    storage where a snapshot is there: the history of the answer is not
    used, and stored preferences replace those of the answer. *)
Theorem initializeSession_restores_snapshot (backend : App.Backend) (w : App.World)
        (storedSessionId : string) (session : SessionResponse.t) :
  App.present (App.Storage.sessionId (App.localStorage w)) = Some storedSessionId ->
  App.getSession backend (App.tick w) storedSessionId = App.Resolved session ->
  readable (App.Storage.activityHistory (App.localStorage w)) ->
  readable (App.Storage.activityProgress (App.localStorage w)) ->
  readable (App.Storage.userPreferences (App.localStorage w)) ->
  let r := App.initializeSession backend w in
  fst r = App.Returned tt
  /\ App.State.sessionId (state_after r) = Some (SessionResponse.session_id session)
  /\ App.State.activityHistory (state_after r)
     = default (App.State.activityHistory (App.state w))
               (parsed (App.Storage.activityHistory (App.localStorage w)))
  /\ App.State.activityProgress (state_after r)
     = default (App.State.activityProgress (App.state w))
               (parsed (App.Storage.activityProgress (App.localStorage w)))
  /\ App.State.preferences (state_after r)
     = default (SessionResponse.preferences session)
               (parsed (App.Storage.userPreferences (App.localStorage w)))
  /\ App.State.error (state_after r) = App.State.error (App.state w)
  /\ App.State.isLoading (state_after r) = false
  /\ App.localStorage (snd r) = App.localStorage w.
Proof.
  destruct w as [s [sid h p u] t requests].
  cbn [App.localStorage App.state App.tick App.Storage.sessionId
       App.Storage.activityHistory App.Storage.activityProgress
       App.Storage.userPreferences].
  intros Hsid Hget Hh Hp Hu. cbv zeta. unfold readable in *.
  unfold App.initializeSession, App.loadSavedData. step_app.
  rewrite Hsid. step_app. rewrite Hget.
  destruct h as [[h|]|]; [| congruence |];
    (destruct p as [[p|]|]; [| congruence |]);
    (destruct u as [[u|]|]; [| congruence |]);
    step_app; repeat split; reflexivity.
Qed.

Lemma initializeSession_restores_snapshot_witness :
  App.State.activityHistory (state_after (App.initializeSession steady returning_world))
  = three_days
  /\ App.State.activityProgress (state_after (App.initializeSession steady returning_world))
     = [("yoga-1", 1 # 2)].
Proof.
  pose proof (initializeSession_restores_snapshot steady returning_world "session-1" session_1
                eq_refl eq_refl ltac:(discriminate) ltac:(discriminate) ltac:(discriminate))
    as (_ & _ & Hh & Hp & _).
  split; [exact Hh | exact Hp].
Defined.

(** X19.  When the stored session is fetched but the history snapshot in
    local storage is not well formed, [initializeSession] reports "Failed
    to load saved data" and stops reading: the history stays as it was, and
    neither the progress nor the preferences snapshot is restored, however
    well formed; the preferences are those of the answer. *)
Theorem initializeSession_corrupt_history (backend : App.Backend) (w : App.World)
        (storedSessionId : string) (session : SessionResponse.t) :
  App.present (App.Storage.sessionId (App.localStorage w)) = Some storedSessionId ->
  App.getSession backend (App.tick w) storedSessionId = App.Resolved session ->
  App.Storage.activityHistory (App.localStorage w) = Some App.Corrupt ->
  let r := App.initializeSession backend w in
  fst r = App.Returned tt
  /\ App.State.error (state_after r) = Some "Failed to load saved data"
  /\ App.State.activityHistory (state_after r) = App.State.activityHistory (App.state w)
  /\ App.State.activityProgress (state_after r) = App.State.activityProgress (App.state w)
  /\ App.State.preferences (state_after r) = SessionResponse.preferences session
  /\ App.State.sessionId (state_after r) = Some (SessionResponse.session_id session)
  /\ App.State.isLoading (state_after r) = false.
Proof.
  destruct w as [s [sid h p u] t requests].
  cbn [App.localStorage App.state App.tick App.Storage.sessionId
       App.Storage.activityHistory].
  intros Hsid Hget ->. cbv zeta.
  unfold App.initializeSession, App.loadSavedData. step_app.
  rewrite Hsid. step_app. rewrite Hget. step_app.
  repeat split; reflexivity.
Qed.

Lemma initializeSession_corrupt_history_witness :
  let w := {| App.state := initial_state;
              App.localStorage :=
                {| App.Storage.sessionId := Some "session-1";
                   App.Storage.activityHistory := Some App.Corrupt;
                   App.Storage.activityProgress := Some (App.Parses [("yoga-1", 1 # 2)]);
                   App.Storage.userPreferences := None |};
              App.tick := 0%nat;
              App.sent := [] |} in
  App.State.error (state_after (App.initializeSession steady w))
  = Some "Failed to load saved data"
  /\ App.State.activityProgress (state_after (App.initializeSession steady w)) = [].
Proof.
  cbv zeta.
  match goal with
  | |- context [App.initializeSession steady ?w] =>
      pose proof (initializeSession_corrupt_history steady w "session-1" session_1
                    eq_refl eq_refl eq_refl) as (_ & He & _ & Hp & _)
  end.
  split; [exact He | exact Hp].
Defined.

(** ** Resetting, refreshing, preferences and progress *)

(** X20.  [resetSession] always returns with the log and the progress map
    empty, the preferences at their defaults, no activity under way and
    the three snapshots gone from local storage; it asks for a new session
    and never fetches an old one.  The new session id is in the state and
    in local storage when the backend grants it; otherwise there is none
    and the refusal is in the error state.  A message that was in the
    error state before a successful reset stays there. *)
Theorem resetSession_clears (backend : App.Backend) (w : App.World) :
  let userId := ("user-" ++ JS.toString (App.now backend (App.tick w)))%string in
  let r := Provider.resetSession backend w in
  fst r = App.Returned tt
  /\ App.State.activityHistory (state_after r) = []
  /\ App.State.activityProgress (state_after r) = []
  /\ App.State.preferences (state_after r) = defaultPreferences
  /\ App.State.activeActivity (state_after r) = None
  /\ App.State.startTime (state_after r) = None
  /\ App.State.isLoading (state_after r) = false
  /\ App.Storage.activityHistory (App.localStorage (snd r)) = None
  /\ App.Storage.activityProgress (App.localStorage (snd r)) = None
  /\ App.Storage.userPreferences (App.localStorage (snd r)) = None
  /\ App.sent (snd r) = App.sent w ++ [App.CreateSession userId]
  /\ match App.createSession backend (S (App.tick w)) userId with
     | App.Resolved newSession =>
         App.State.sessionId (state_after r) = Some (SessionResponse.session_id newSession)
         /\ App.Storage.sessionId (App.localStorage (snd r))
            = Some (SessionResponse.session_id newSession)
         /\ App.State.error (state_after r) = App.State.error (App.state w)
     | App.Rejected e =>
         App.State.sessionId (state_after r) = None
         /\ App.Storage.sessionId (App.localStorage (snd r)) = None
         /\ App.State.error (state_after r)
            = Some (App.message_or e "Failed to initialize session")
     end.
Proof.
  destruct w as [s ls t requests]. cbv zeta.
  unfold Provider.resetSession. step_app.
  rewrite initializeSession_create_run by reflexivity.
  step_app.
  match goal with
  | |- context [App.createSession backend ?n ?u] =>
      destruct (App.createSession backend n u)
  end; repeat split; reflexivity.
Qed.

Section ProviderFacts.
Context (backend : App.Backend)
        (updatePreferences : nat -> string -> UserPreferences.t -> App.response unit)
        (activityHistory_of : SessionResponse.t -> option (list Item)).

(** X21.  Without a session, [refreshActivityHistory] only sets the error
    "No active session": no request goes out and nothing else changes, the
    loading flag included. *)
Theorem refreshActivityHistory_no_session (w : App.World) :
  App.present (App.State.sessionId (App.state w)) = None ->
  let r := Provider.refreshActivityHistory backend activityHistory_of w in
  fst r = App.Returned tt
  /\ App.State.error (state_after r) = Some "No active session"
  /\ App.State.activityHistory (state_after r) = App.State.activityHistory (App.state w)
  /\ App.State.isLoading (state_after r) = App.State.isLoading (App.state w)
  /\ App.localStorage (snd r) = App.localStorage w
  /\ App.sent (snd r) = App.sent w
  /\ App.tick (snd r) = App.tick w.
Proof.
  intros Hnone. cbv zeta. unfold Provider.refreshActivityHistory. run_provider.
  rewrite Hnone. cbn. repeat split; reflexivity.
Qed.

(** X22.  With a session, [refreshActivityHistory] fetches it.  If the
    answer carries a history, that history replaces the log and the
    snapshot in local storage, whatever they held; if it carries none, or
    if the fetch is rejected, the log and local storage stay as they were,
    and a rejection is reported in the error state. *)
Theorem refreshActivityHistory_with_session (w : App.World) (sessionId : string) :
  App.present (App.State.sessionId (App.state w)) = Some sessionId ->
  let r := Provider.refreshActivityHistory backend activityHistory_of w in
  fst r = App.Returned tt
  /\ App.sent (snd r) = App.sent w ++ [App.GetSession sessionId]
  /\ App.State.isLoading (state_after r) = false
  /\ match App.getSession backend (App.tick w) sessionId with
     | App.Resolved session =>
         App.State.error (state_after r) = App.State.error (App.state w)
         /\ match activityHistory_of session with
            | Some history =>
                App.State.activityHistory (state_after r) = history
                /\ App.Storage.activityHistory (App.localStorage (snd r))
                   = Some (App.Parses history)
            | None =>
                App.State.activityHistory (state_after r)
                = App.State.activityHistory (App.state w)
                /\ App.localStorage (snd r) = App.localStorage w
            end
     | App.Rejected e =>
         App.State.error (state_after r)
         = Some (App.message_or e "Failed to refresh activity history")
         /\ App.State.activityHistory (state_after r)
            = App.State.activityHistory (App.state w)
         /\ App.localStorage (snd r) = App.localStorage w
     end.
Proof.
  intros Hsid. cbv zeta. unfold Provider.refreshActivityHistory. run_provider.
  rewrite Hsid. project_app.
  destruct (App.getSession backend (App.tick w) sessionId) as [session|e]; project_app.
  - destruct (activityHistory_of session); cbn; repeat split; reflexivity.
  - cbn. repeat split; reflexivity.
Qed.

(** X23.  [updateUserPreferences] writes through: the new preferences
    reach the state and local storage only after the backend accepted
    them.  Without a session no call is made and the error is "No active
    session"; on a rejection the error carries its message; in both cases
    preferences and local storage are unchanged. *)
Theorem updateUserPreferences_write_through (w : App.World)
        (newPreferences : UserPreferences.t) :
  let r := Provider.updateUserPreferences updatePreferences newPreferences w in
  fst r = App.Returned tt
  /\ App.State.isLoading (state_after r) = false
  /\ match App.present (App.State.sessionId (App.state w)) with
     | None =>
         App.State.error (state_after r) = Some "No active session"
         /\ App.State.preferences (state_after r) = App.State.preferences (App.state w)
         /\ App.localStorage (snd r) = App.localStorage w
         /\ App.tick (snd r) = App.tick w
     | Some sessionId =>
         match updatePreferences (App.tick w) sessionId newPreferences with
         | App.Resolved _ =>
             App.State.preferences (state_after r) = newPreferences
             /\ App.Storage.userPreferences (App.localStorage (snd r))
                = Some (App.Parses newPreferences)
             /\ App.State.error (state_after r) = App.State.error (App.state w)
         | App.Rejected e =>
             App.State.error (state_after r)
             = Some (App.message_or e "Failed to update preferences")
             /\ App.State.preferences (state_after r) = App.State.preferences (App.state w)
             /\ App.localStorage (snd r) = App.localStorage w
         end
     end.
Proof.
  cbv zeta. unfold Provider.updateUserPreferences. run_provider.
  destruct (App.present (App.State.sessionId (App.state w))) as [sessionId|]; project_app.
  - destruct (updatePreferences (App.tick w) sessionId newPreferences) as [[]|e];
      cbn; repeat split; reflexivity.
  - cbn. repeat split; reflexivity.
Qed.
End ProviderFacts.

Lemma refreshActivityHistory_no_session_witness :
  let w := {| App.state := initial_state;
              App.localStorage := App.localStorage returning_world;
              App.tick := 0%nat;
              App.sent := [] |} in
  App.State.error
    (state_after (Provider.refreshActivityHistory steady (fun _ => None) w))
  = Some "No active session"
  /\ App.sent (snd (Provider.refreshActivityHistory steady (fun _ => None) w)) = [].
Proof.
  cbv zeta.
  match goal with
  | |- context [Provider.refreshActivityHistory steady ?f ?w] =>
      pose proof (refreshActivityHistory_no_session steady f w eq_refl)
        as (_ & He & _ & _ & _ & Hs & _)
  end.
  split; [exact He | exact Hs].
Defined.

Lemma refreshActivityHistory_with_session_witness :
  App.State.activityHistory
    (state_after (Provider.refreshActivityHistory steady (fun _ => Some three_days)
                                                  ready_world))
  = three_days
  /\ App.Storage.activityHistory
       (App.localStorage (snd (Provider.refreshActivityHistory
                                 steady (fun _ => Some three_days) ready_world)))
     = Some (App.Parses three_days).
Proof.
  pose proof (refreshActivityHistory_with_session steady (fun _ => Some three_days)
                ready_world "session-1" eq_refl) as (_ & _ & _ & H).
  cbn [App.getSession steady App.tick ready_world] in H.
  destruct H as (_ & Hh & Hs).
  split; [exact Hh | exact Hs].
Defined.

(** X24.  After [updateActivityProgress id p], [getActivityProgress id]
    gives [p] back, whatever its value (no bound is applied) and whatever
    the prototype holds; the progress of every other activity is
    unchanged, the snapshot in local storage is the new progress map, and
    the log is untouched. *)
Theorem updateActivityProgress_round_trip (w : App.World) (activityId : string)
        (progress : Q) (realm : Realm.t) :
  let r := Provider.updateActivityProgress activityId progress w in
  fst r = App.Returned tt
  /\ (exists p, Provider.getActivityProgress activityId (state_after r) realm
                = Provider.Progress p
                /\ (p == progress)%Q)
  /\ (forall other, other <> activityId ->
                    Provider.getActivityProgress other (state_after r) realm
                    = Provider.getActivityProgress other (App.state w) realm)
  /\ App.Storage.activityProgress (App.localStorage (snd r))
     = Some (App.Parses (App.State.activityProgress (state_after r)))
  /\ App.State.activityHistory (state_after r) = App.State.activityHistory (App.state w).
Proof.
  cbv zeta. run_provider.
  split; [reflexivity|]. split; [|split; [|split; reflexivity]].
  - unfold Provider.getActivityProgress. cbn [App.State.activityProgress].
    rewrite obj_get_set, String.eqb_refl.
    eexists. split; [reflexivity|].
    unfold JS.Qzero. destruct (Z.eqb_spec (Qnum progress) 0) as [E|_]; [|reflexivity].
    unfold Qeq. rewrite E. reflexivity.
  - intros other Hne. unfold Provider.getActivityProgress.
    cbn [App.State.activityProgress]. rewrite obj_get_set.
    destruct (String.eqb_spec activityId other) as [->|_]; [congruence | reflexivity].
Qed.
